(** * Signal bridge pipeline: CAN encoding, validation, fan-out, decoding, VSS mapping

    Shallow embedding of the Python sources

      - [fmu_can_bridge.py]                 (CANMessageEncoder)
      - [scripts/wsl2_socket_server.py]     (CANForwarder, CANMessageProcessor,
                                             EnhancedWSL2SocketServer)
      - [scripts/zonal_controller.py]       (DBCManager, VSSMapper)
      - [scripts/zonal_controller_simple.py] (SimpleZonalController)

    Python dictionaries that are only looked up are [gmap]s; dictionaries whose
    insertion order is observable are association lists; a [bytearray] is a
    list of integers whose item assignment checks index and value range, as
    Python does; a raised exception is [None] in the option monad. *)

From Stdlib Require Import ZArith QArith Lia.
From stdpp Require Import base option list strings gmap.

Local Open Scope string_scope.
Local Open Scope list_scope.
Local Open Scope Z_scope.

(** ** Python values *)

(** The values that travel in the signal dictionaries: [None], booleans,
    integers and floats.  A finite float is represented by its exact
    rational value (every finite double is a rational); [PInf true] is
    [inf] and [PInf false] is [-inf]. *)
Inductive PyVal : Type :=
  | PNone
  | PBool (b : bool)
  | PInt (z : Z)
  | PFloat (q : Q)
  | PNaN
  | PInf (positive : bool).

(** Truth value of an object in an [if]. *)
Definition truthy (v : PyVal) : bool :=
  match v with
  | PNone => false
  | PBool b => b
  | PInt z => negb (z =? 0)
  | PFloat q => negb (Qnum q =? 0)
  | PNaN | PInf _ => true
  end.

(** [int(v)]: truncation toward zero for floats; [TypeError] on [None],
    [ValueError] on [nan], [OverflowError] on an infinity. *)
Definition py_int (v : PyVal) : option Z :=
  match v with
  | PNone => None
  | PBool b => Some (Z.b2z b)
  | PInt z => Some z
  | PFloat q => Some (Z.quot (Qnum q) (Zpos (Qden q)))
  | PNaN | PInf _ => None
  end.

(** The numeric value of a number-like object ([bool] is a subclass of
    [int]); used by [==] and by arithmetic. *)
Definition py_num (v : PyVal) : option Q :=
  match v with
  | PBool b => Some (inject_Z (Z.b2z b))
  | PInt z => Some (inject_Z z)
  | PFloat q => Some q
  | PNone | PNaN | PInf _ => None
  end.

(** [a == b] on the values above: numbers compare by value ([True == 1],
    [80.0 == 80]); an infinity equals itself; [nan] equals nothing. *)
Definition py_eq (a b : PyVal) : bool :=
  match py_num a, py_num b with
  | Some x, Some y => Qeq_bool x y
  | _, _ =>
      match a, b with
      | PNone, PNone => true
      | PInf s, PInf s' => Bool.eqb s s'
      | _, _ => false
      end
  end.

(** A [dict] whose iteration order matters: insertion-ordered pairs. *)
Definition PyDict : Type := list (string * PyVal).

Fixpoint dict_get (k : string) (d : PyDict) : option PyVal :=
  match d with
  | [] => None
  | (k', v) :: d' => if String.eqb k k' then Some v else dict_get k d'
  end.

Definition dict_keys (d : PyDict) : list string := map fst d.

(** ** Byte buffers *)

Definition is_byte (z : Z) : bool := (0 <=? z) && (z <? 256).

(** [data[i] = v] on a [bytearray]: [IndexError] out of range, [ValueError]
    when [v] is not in [range(0, 256)]. *)
Definition bytearray_set (data : list Z) (i : nat) (v : Z) : option (list Z) :=
  if (i <? length data)%nat && is_byte v then Some (<[i := v]> data) else None.

(** [data[i]] with Python's [IndexError]. *)
Definition bytearray_get (data : list Z) (i : nat) : option Z := data !! i.

(** [max(lo, min(hi, z))]. *)
Definition clamp (lo hi z : Z) : Z := Z.max lo (Z.min hi z).

(** ** fmu_can_bridge.py: CANMessageEncoder *)

Module CANMessageEncoder.

(** One entry of [config['light_control']['signals']]; [bit] and [scale]
    are absent from some entries. *)
Record SignalConfig : Type := {
  sc_byte : nat;
  sc_bit : option nat;
  sc_type : string;
  sc_scale : option Q
}.

Record MessageConfig : Type := {
  cfg_id : Z;
  cfg_dlc : Z;
  cfg_signals : list (string * SignalConfig)
}.

(** The default configuration installed by [__init__]. *)
Definition light_control : MessageConfig := {|
  cfg_id := 0x100;
  cfg_dlc := 8;
  cfg_signals := [
    ("headlamp", {| sc_byte := 0; sc_bit := Some 0%nat; sc_type := "bool"; sc_scale := None |});
    ("tailLamp", {| sc_byte := 0; sc_bit := Some 1%nat; sc_type := "bool"; sc_scale := None |});
    ("brakeLamp", {| sc_byte := 0; sc_bit := Some 2%nat; sc_type := "bool"; sc_scale := None |});
    ("indicator_left", {| sc_byte := 0; sc_bit := Some 3%nat; sc_type := "bool"; sc_scale := None |});
    ("indicator_right", {| sc_byte := 0; sc_bit := Some 4%nat; sc_type := "bool"; sc_scale := None |});
    ("light_level", {| sc_byte := 1; sc_bit := None; sc_type := "uint8"; sc_scale := Some 2.55%Q |});
    ("vehicle_speed", {| sc_byte := 2; sc_bit := None; sc_type := "uint8"; sc_scale := None |})
  ]
|}.

(** The dictionary returned by [encode]. *)
Record CANFrame : Type := {
  can_id : Z;
  can_data : list Z;
  dlc : Z;
  timestamp : PyVal;
  sim_time : PyVal;
  source : string
}.

(** Body of the loop over [config['signals'].items()]: only entries of type
    ['bool'] whose name is a key of [fmu_data] are written. *)
Definition set_bool_signal (fmu_data : gmap string PyVal) (data : list Z)
    (entry : string * SignalConfig) : option (list Z) :=
  let '(signal_name, signal_config) := entry in
  match fmu_data !! signal_name with
  | Some v =>
      if String.eqb (sc_type signal_config) "bool" then
        let byte_pos := sc_byte signal_config in
        bit_pos ← sc_bit signal_config;
        if truthy v then
          old ← bytearray_get data byte_pos;
          bytearray_set data byte_pos (Z.lor old (Z.shiftl 1 (Z.of_nat bit_pos)))
        else Some data
      else Some data
  | None => Some data
  end.

Fixpoint set_bool_signals (fmu_data : gmap string PyVal) (data : list Z)
    (entries : list (string * SignalConfig)) : option (list Z) :=
  match entries with
  | [] => Some data
  | e :: rest =>
      data' ← set_bool_signal fmu_data data e;
      set_bool_signals fmu_data data' rest
  end.

(** [if 'light_level' in fmu_data: ...] and the same for [vehicle_speed]. *)
Definition set_uint8 (fmu_data : gmap string PyVal) (key : string) (pos : nat)
    (data : list Z) : option (list Z) :=
  match fmu_data !! key with
  | Some v =>
      val ← py_int v;
      bytearray_set data pos (clamp 0 255 val)
  | None => Some data
  end.

(** [if 'ambient' in fmu_data: ...]: high byte then low byte, each masked. *)
Definition set_ambient (fmu_data : gmap string PyVal) (data : list Z) : option (list Z) :=
  match fmu_data !! "ambient" with
  | Some v =>
      ambient_val ← py_int v;
      data3 ← bytearray_set data 3 (Z.land (Z.shiftr ambient_val 8) 0xFF);
      bytearray_set data3 4 (Z.land ambient_val 0xFF)
  | None => Some data
  end.

(** [encode(fmu_data)]; [now] is the reading of [time.time()] used when
    [fmu_data] carries no ['timestamp']. *)
Definition encode (now : PyVal) (fmu_data : gmap string PyVal) : option CANFrame :=
  let config := light_control in
  let data := replicate 8 0 in
  data ← set_bool_signals fmu_data data (cfg_signals config);
  data ← set_uint8 fmu_data "light_level" 1 data;
  data ← set_uint8 fmu_data "vehicle_speed" 2 data;
  data ← set_ambient fmu_data data;
  Some {| can_id := cfg_id config;
          can_data := data;
          dlc := cfg_dlc config;
          timestamp := default now (fmu_data !! "timestamp");
          sim_time := default (PInt 0) (fmu_data !! "simulation_time");
          source := "autoLamp_fmu" |}.

End CANMessageEncoder.

(** ** scripts/wsl2_socket_server.py: CANForwarder *)

Module CANForwarder.

(** [queue.Queue(maxsize=1000)] of [__init__]. *)
Definition maxsize : nat := 1000.

Section Forwarder.
Context {A : Type}.

(** The forwarder: what went out on the PUB socket (oldest first) and
    the backup queue (head = oldest element of the FIFO). *)
Record t : Type := {
  published : list A;
  message_queue : list A
}.

Definition init : t := {| published := []; message_queue := [] |}.

(** [Queue.put_nowait]: [queue.Full] once [qsize() >= maxsize]. *)
Definition put_nowait (q : list A) (x : A) : option (list A) :=
  if (length q <? maxsize)%nat then Some (q ++ [x]) else None.

(** [Queue.get_nowait]: removes the oldest item, [queue.Empty] if none. *)
Definition get_nowait (q : list A) : option (A * list A) :=
  match q with
  | [] => None
  | x :: q' => Some (x, q')
  end.

(** The backup part of [forward_message]. *)
Definition backup (q : list A) (can_data : A) : list A :=
  match put_nowait q can_data with
  | Some q' => q'
  | None =>
      (* except queue.Full: drop the oldest, retry; a failure is passed over *)
      match get_nowait q with
      | Some (_, q1) =>
          match put_nowait q1 can_data with
          | Some q2 => q2
          | None => q1
          end
      | None => q
      end
  end.

(** [forward_message(can_data)]; [send_ok] tells whether
    [publisher.send_json] returned (otherwise the outer handler logs the
    error and nothing is queued). *)
Definition forward_message (send_ok : bool) (fw : t) (can_data : A) : t :=
  if send_ok then
    {| published := published fw ++ [can_data];
       message_queue := backup (message_queue fw) can_data |}
  else fw.

(** Forwarding a sequence of frames in arrival order. *)
Definition forward_all (fw : t) (frames : list A) : t :=
  fold_left (forward_message true) frames fw.

End Forwarder.

Arguments t : clear implicits.

End CANForwarder.

(** ** scripts/wsl2_socket_server.py: CANMessageProcessor *)

Module CANMessageProcessor.

(** The parsed JSON object; a field is [None] when its key is missing. *)
Record Envelope : Type := {
  can_id : option Z;
  can_data : option (list Z);
  dlc : option Z
}.

(** [self.stats]. *)
Record Stats : Type := {
  total_received : nat;
  total_sent : nat;
  invalid_ids : nat;
  invalid_data : nat;
  by_id : gmap Z nat
}.

Definition init_stats : Stats :=
  {| total_received := 0; total_sent := 0; invalid_ids := 0;
     invalid_data := 0; by_id := ∅ |}.

(** [self.valid_ids]. *)
Definition valid_ids : gmap Z string :=
  <[0x100 := "LIGHT_CONTROL"]> (<[0x101 := "DOOR_STATUS"]> (<[0x102 := "WINDOW_STATUS"]>
  (<[0x200 := "DIAGNOSTIC"]> (<[0x7E0 := "UDS_TX"]> (<[0x7E8 := "UDS_RX"]> ∅))))).

(** The line [validate_message] logs before returning [False]. *)
Inductive Rejection : Type :=
  | MissingField (field : string)
  | InvalidCanId (id : Z)
  | InvalidDlc (d : Z)
  | InvalidDataLength (n : nat).

Definition required_fields : list string := ["can_id"; "can_data"; "dlc"].

(** [field in data]. *)
Definition has_field (data : Envelope) (field : string) : bool :=
  if String.eqb field "can_id" then bool_decide (is_Some (can_id data))
  else if String.eqb field "can_data" then bool_decide (is_Some (can_data data))
  else if String.eqb field "dlc" then bool_decide (is_Some (dlc data))
  else false.

(** The loop over [required_fields]: the first missing one, if any. *)
Fixpoint first_missing (data : Envelope) (fields : list string) : option string :=
  match fields with
  | [] => None
  | field :: rest => if has_field data field then first_missing data rest else Some field
  end.

(** [validate_message(data)]: [inr r] stands for [False] with the logged
    reason [r], [inl] for [True] with the three checked fields. *)
Definition validate_message (st : Stats) (data : Envelope)
    : (Z * list Z * Z + Rejection) * Stats :=
  match first_missing data required_fields with
  | Some field => (inr (MissingField field), st)
  | None =>
      match can_id data, dlc data, can_data data with
      | Some id, Some d, Some payload =>
          if negb ((0x000 <=? id) && (id <=? 0x7FF)) then
            (inr (InvalidCanId id),
             {| total_received := total_received st; total_sent := total_sent st;
                invalid_ids := S (invalid_ids st); invalid_data := invalid_data st;
                by_id := by_id st |})
          else if negb ((0 <=? d) && (d <=? 8)) then
            (inr (InvalidDlc d), st)
          else if negb (length payload =? 8)%nat then
            (inr (InvalidDataLength (length payload)),
             {| total_received := total_received st; total_sent := total_sent st;
                invalid_ids := invalid_ids st; invalid_data := S (invalid_data st);
                by_id := by_id st |})
          else (inl (id, payload, d), st)
      | _, _, _ => (inr (MissingField "can_id"), st) (* not reached: the three fields are present *)
      end
  end.

(** The enriched message handed on by [process_message] (the wall-clock
    stamps [timestamp_ns] and [timestamp_iso] are left out). *)
Record Enriched : Type := {
  e_can_id : Z;
  e_can_data : list Z;
  e_dlc : Z;
  e_direction : string;
  e_source : string;
  e_destination : string;
  e_validated : bool;
  e_can_id_description : option string
}.

Definition count_received (st : Stats) : Stats :=
  {| total_received := S (total_received st); total_sent := total_sent st;
     invalid_ids := invalid_ids st; invalid_data := invalid_data st;
     by_id := by_id st |}.

Definition count_by_id (st : Stats) (id : Z) : Stats :=
  {| total_received := total_received st; total_sent := total_sent st;
     invalid_ids := invalid_ids st; invalid_data := invalid_data st;
     by_id := <[id := S (default 0%nat (by_id st !! id))]> (by_id st) |}.

(** [process_message(data)]: [None] when validation fails. *)
Definition process_message (st : Stats) (data : Envelope) : option Enriched * Stats :=
  let st := count_received st in
  match validate_message st data with
  | (inr _, st) => (None, st)
  | (inl (id, payload, d), st) =>
      (Some {| e_can_id := id; e_can_data := payload; e_dlc := d;
               e_direction := "RX"; e_source := "vECU";
               e_destination := "ZonalController"; e_validated := true;
               e_can_id_description := valid_ids !! id |},
       count_by_id st id)
  end.

End CANMessageProcessor.

(** ** scripts/wsl2_socket_server.py: EnhancedWSL2SocketServer *)

Module EnhancedWSL2SocketServer.

(** A frame put on the CAN bus by [send_to_can_bus]. *)
Record BusMessage : Type := {
  arbitration_id : Z;
  bus_data : list Z;
  is_extended_id : bool;
  bus_dlc : Z
}.

(** [self.stats] (the counters the message path touches). *)
Record Stats : Type := {
  messages_received : nat;
  messages_forwarded : nat;
  messages_sent_to_can : nat;
  errors : nat
}.

Record Server : Type := {
  processor : CANMessageProcessor.Stats;
  forwarder : CANForwarder.t CANMessageProcessor.Enriched;
  can_bus : list BusMessage;
  stats : Stats;
  running : bool;
  client_connected : bool
}.

(** What the outside world does during one message: whether
    [can_bus.send] and [publisher.send_json] return or raise. *)
Record World : Type := {
  bus_send_ok : bool;
  zmq_send_ok : bool
}.

Definition with_stats (srv : Server) (f : Stats -> Stats) : Server :=
  {| processor := processor srv; forwarder := forwarder srv; can_bus := can_bus srv;
     stats := f (stats srv); running := running srv;
     client_connected := client_connected srv |}.

Definition count_error (s : Stats) : Stats :=
  {| messages_received := messages_received s; messages_forwarded := messages_forwarded s;
     messages_sent_to_can := messages_sent_to_can s; errors := S (errors s) |}.

Definition count_message (s : Stats) : Stats :=
  {| messages_received := S (messages_received s); messages_forwarded := messages_forwarded s;
     messages_sent_to_can := messages_sent_to_can s; errors := errors s |}.

Definition count_forwarded (s : Stats) : Stats :=
  {| messages_received := messages_received s; messages_forwarded := S (messages_forwarded s);
     messages_sent_to_can := messages_sent_to_can s; errors := errors s |}.

Definition count_sent (s : Stats) : Stats :=
  {| messages_received := messages_received s; messages_forwarded := messages_forwarded s;
     messages_sent_to_can := S (messages_sent_to_can s); errors := errors s |}.

(** [can_data[:dlc]] with Python's slice rule for a negative bound. *)
Definition slice_to (l : list Z) (n : Z) : list Z :=
  if n <? 0 then take (length l - Z.to_nat (- n)) l else take (Z.to_nat n) l.

(** [send_to_can_bus(data)]: [bytes(...)] raises on a value outside
    [range(256)]; every exception is counted in [errors]. *)
Definition send_to_can_bus (w : World) (srv : Server)
    (data : CANMessageProcessor.Enriched) : Server :=
  let can_data_bytes := slice_to (CANMessageProcessor.e_can_data data)
                                 (CANMessageProcessor.e_dlc data) in
  if forallb is_byte can_data_bytes && bus_send_ok w then
    let message := {| arbitration_id := CANMessageProcessor.e_can_id data;
                      bus_data := can_data_bytes;
                      is_extended_id := false;
                      bus_dlc := CANMessageProcessor.e_dlc data |} in
    {| processor := processor srv; forwarder := forwarder srv;
       can_bus := can_bus srv ++ [message];
       stats := count_sent (stats srv); running := running srv;
       client_connected := client_connected srv |}
  else with_stats srv count_error.

(** [process_incoming_message(message_str, source)]; [parsed] is the result
    of [json.loads], [None] for a [JSONDecodeError]. *)
Definition process_incoming_message (w : World) (srv : Server)
    (parsed : option CANMessageProcessor.Envelope) : Server :=
  match parsed with
  | None => with_stats srv count_error
  | Some data =>
      let srv := with_stats srv count_message in
      let '(processed_data, pstats) :=
        CANMessageProcessor.process_message (processor srv) data in
      let srv := {| processor := pstats; forwarder := forwarder srv;
                    can_bus := can_bus srv; stats := stats srv;
                    running := running srv;
                    client_connected := client_connected srv |} in
      match processed_data with
      | None => srv
      | Some processed_data =>
          let srv := send_to_can_bus w srv processed_data in
          let srv := {| processor := processor srv;
                        forwarder := CANForwarder.forward_message (zmq_send_ok w)
                                       (forwarder srv) processed_data;
                        can_bus := can_bus srv; stats := stats srv;
                        running := running srv;
                        client_connected := client_connected srv |} in
          with_stats srv count_forwarded
      end
  end.

End EnhancedWSL2SocketServer.

(** ** scripts/zonal_controller.py: DBCManager *)

Module DBCManager.

(** The arguments given to [cantools.database.can.Signal]; the byte order
    is left at the library's default, little endian. *)
Record Signal : Type := {
  sig_name : string;
  sig_start : nat;
  sig_length : nat;
  is_signed : bool;
  scale : Z;
  offset : Z;
  minimum : Z;
  maximum : Z;
  unit : string;
  receivers : list string
}.

(** The arguments given to [cantools.database.can.Message]. *)
Record Message : Type := {
  frame_id : Z;
  msg_name : string;
  msg_length : nat;
  signals : list Signal
}.

Definition flag_signal (name : string) (start : nat) : Signal :=
  {| sig_name := name; sig_start := start; sig_length := 1; is_signed := false;
     scale := 1; offset := 0; minimum := 0; maximum := 1; unit := "";
     receivers := ["ZC"] |}.

Definition byte_signal (name : string) (start : nat) (u : string) : Signal :=
  {| sig_name := name; sig_start := start; sig_length := 8; is_signed := false;
     scale := 1; offset := 0; minimum := 0; maximum := 255; unit := u;
     receivers := ["ZC"] |}.

(** The message built by [create_virtual_database]. *)
Definition light_control_msg : Message := {|
  frame_id := 0x100;
  msg_name := "LIGHT_CONTROL";
  msg_length := 8;
  signals := [
    flag_signal "headLamp" 0;
    flag_signal "tailLamp" 1;
    flag_signal "brakeLamp" 2;
    flag_signal "indicatorLeft" 3;
    flag_signal "indicatorRight" 4;
    byte_signal "lightLevel" 8 "%";
    byte_signal "vehicleSpeed" 16 "km/h"
  ]
|}.

(** [self.db.messages] after [create_virtual_database]. *)
Definition virtual_database : list Message := [light_control_msg].

(** [CANSignal]. *)
Record CANSignal : Type := {
  name : string;
  value : PyVal;
  cs_unit : string;
  min_value : PyVal;
  max_value : PyVal;
  description : string
}.

(** [CANMessage] ([can_id_hex], a rendering of [can_id], is left out). *)
Record CANMessage : Type := {
  timestamp : PyVal;
  can_id : Z;
  signals_of : list CANSignal;
  raw_data : list Z;
  dlc : nat;
  can_id_description : string;
  direction : string;
  source : string
}.

(** [manual_decode(can_id, data, msg_def)]. *)
Definition manual_decode (can_id : Z) (data : list Z) (msg_def : Message) : PyDict :=
  if can_id =? 0x100 then
    (if (1 <=? length data)%nat then
       let byte0 := nth 0 data 0 in
       [ ("headLamp", PBool (truthy (PInt (Z.land byte0 0x01))));
         ("tailLamp", PBool (truthy (PInt (Z.land byte0 0x02))));
         ("brakeLamp", PBool (truthy (PInt (Z.land byte0 0x04))));
         ("indicatorLeft", PBool (truthy (PInt (Z.land byte0 0x08))));
         ("indicatorRight", PBool (truthy (PInt (Z.land byte0 0x10)))) ]
     else [])
    ++ (if (2 <=? length data)%nat then [("lightLevel", PInt (nth 1 data 0))] else [])
    ++ (if (3 <=? length data)%nat then [("vehicleSpeed", PInt (nth 2 data 0))] else [])
  else [].

(** The search through [self.db.messages] whose result [message_cache]
    memoises: the first message with the frame identifier. *)
Fixpoint find_message (messages : list Message) (can_id : Z) : option Message :=
  match messages with
  | [] => None
  | msg :: rest => if frame_id msg =? can_id then Some msg else find_message rest can_id
  end.

(** The inner search for the definition of a decoded signal. *)
Fixpoint find_signal (sigs : list Signal) (signal_name : string) : option Signal :=
  match sigs with
  | [] => None
  | s :: rest => if String.eqb (sig_name s) signal_name then Some s else find_signal rest signal_name
  end.

(** [x or 0.0] on an integer attribute. *)
Definition or_zero (z : Z) : PyVal := if z =? 0 then PFloat 0 else PInt z.

(** The loop building [CANSignal] objects from the decoded dictionary. *)
Fixpoint make_signals (msg_def : Message) (decoded_signals : PyDict) : list CANSignal :=
  match decoded_signals with
  | [] => []
  | (signal_name, signal_value) :: rest =>
      match find_signal (signals msg_def) signal_name with
      | Some signal_def =>
          {| name := signal_name; value := signal_value;
             cs_unit := unit signal_def;
             min_value := or_zero (minimum signal_def);
             max_value := or_zero (maximum signal_def);
             description := "" |} :: make_signals msg_def rest
      | None => make_signals msg_def rest
      end
  end.

(** [data + bytes(8 - len(data))] when [len(data) < 8]. *)
Definition pad8 (data : list Z) : list Z :=
  if (length data <? 8)%nat then data ++ replicate (8 - length data) 0 else data.

Section Decode.
(** [self.db.decode_message(can_id, data)] of the cantools library:
    [None] when it raises. *)
Variable db_decode_message : Z -> list Z -> option PyDict.

(** [decode_message(can_id, data)]; [now] is the reading of [time.time()]. *)
Definition decode_message (messages : list Message) (now : PyVal)
    (can_id : Z) (data : list Z) : option CANMessage :=
  let data := pad8 data in
  match find_message messages can_id with
  | None => None
  | Some msg_def =>
      let decoded_signals :=
        match db_decode_message can_id data with
        | Some decoded => decoded
        | None => manual_decode can_id data msg_def
        end in
      Some {| timestamp := now;
              can_id := can_id;
              signals_of := make_signals msg_def decoded_signals;
              raw_data := data;
              dlc := length data;
              can_id_description := msg_name msg_def;
              direction := "RX";
              source := "CAN_Bus" |}
  end.
End Decode.

(** *** The declarative, table-driven decode *)

(** Modelled from the spec: the frame as one integer, bits numbered least
    significant first within each byte (section 4.1), bytes in little-endian
    order (the default byte order of the library's [Signal]): bit [8*i + k]
    of the frame is bit [k] of byte [i]. *)
Definition frame_bits (payload : list Z) : Z :=
  fold_right (fun b acc => b + 256 * acc) 0 payload.

(** Modelled from the spec: the bit extraction of the table-driven decode
    of section 4.1, which the source delegates to the cantools library
    (absent from the sources).  The raw value of a signal is the
    [sig_length] bits of the frame starting at bit [sig_start], least
    significant bit first, read in two's complement when the signal is
    signed. *)
Definition extract_raw (s : Signal) (payload : list Z) : Z :=
  let width := Z.of_nat (sig_length s) in
  let raw := Z.land (Z.shiftr (frame_bits payload) (Z.of_nat (sig_start s)))
                    (Z.ones width) in
  if is_signed s && Z.testbit raw (width - 1) then raw - 2 ^ width else raw.

(** Modelled from the spec: the table-driven decode of section 4.1, which
    the source delegates to the cantools library (absent from the sources):
    every signal whose bit range lies within [declaredLength * 8] bits is
    extracted and scaled, [physical = raw * scale + offset]; the other
    signals are omitted.  The layout of the source carries no kind, so the
    value stays the number the formula gives. *)
Definition layout_decode (msg : Message) (payload : list Z) (declaredLength : nat) : PyDict :=
  omap (fun s =>
          if (sig_start s + sig_length s <=? declaredLength * 8)%nat
          then Some (sig_name s, PInt (extract_raw s payload * scale s + offset s))
          else None)
       (signals msg).

(** Modelled from the spec: the library call [db.decode_message(can_id,
    data)] on a database that holds [messages]: the table-driven decode of
    the message registered for [can_id], over all the bytes supplied. *)
Definition table_decode (messages : list Message) (can_id : Z) (data : list Z)
    : option PyDict :=
  msg ← find_message messages can_id;
  Some (layout_decode msg data (length data)).

(** The library call raising on every frame (a [KeyError], for instance,
    when the identifier is not in the library's lookup table): the case
    the [except] branch of [decode_message] is written for. *)
Definition decode_raises (can_id : Z) (data : list Z) : option PyDict := None.

End DBCManager.

(** ** scripts/zonal_controller.py: VSSMapper *)

Module VSSMapper.

(** A ['conversion'] dictionary; a key may be missing. *)
Record Conversion : Type := {
  conv_scale : option Q;
  conv_offset : option Q
}.

(** One entry of the mapping table.  ['vss_path'] is read with [[]], the
    other keys with [get]; [conversion] is [None] when the key is missing,
    [None] in Python, or an empty dictionary (all of them falsy). *)
Record VssConfig : Type := {
  vss_path : option string;
  data_type : option string;
  vss_description : option string;
  conversion : option Conversion;
  vss_unit : option string
}.

Definition entry (path ty descr : string) (conv : option Conversion)
    (u : option string) : VssConfig :=
  {| vss_path := Some path; data_type := Some ty; vss_description := Some descr;
     conversion := conv; vss_unit := u |}.

Definition identity_conversion : Conversion :=
  {| conv_scale := Some 1%Q; conv_offset := Some 0%Q |}.

(** [default_mappings] of [load_mappings]. *)
Definition default_mappings : gmap Z (gmap string VssConfig) :=
  {[ 0x100 :=
    <["headLamp" := entry "Vehicle.Body.Lights.IsHighBeamOn" "boolean"
                      "High beam headlight status" None None]>
    (<["tailLamp" := entry "Vehicle.Body.Lights.IsTailLightOn" "boolean"
                      "Tail light status" None None]>
    (<["brakeLamp" := entry "Vehicle.Body.Lights.IsBrakeLightOn" "boolean"
                      "Brake light status" None None]>
    (<["indicatorLeft" := entry "Vehicle.Body.Lights.IsLeftIndicatorOn" "boolean"
                      "Left turn indicator status" None None]>
    (<["indicatorRight" := entry "Vehicle.Body.Lights.IsRightIndicatorOn" "boolean"
                      "Right turn indicator status" None None]>
    (<["lightLevel" := entry "Vehicle.Body.Lights.AmbientLight" "uint8"
                      "Ambient light level" (Some identity_conversion) None]>
    (<["vehicleSpeed" := entry "Vehicle.Speed" "uint8"
                      "Vehicle speed" (Some identity_conversion) (Some "km/h")]>
     ∅)))))) ]}.

(** [load_mappings()]: [file_mappings] is the content of the mapping file,
    [None] when there is none or it cannot be read; [dict.update] lets the
    file's entry for an identifier replace the default one. *)
Definition load_mappings (file_mappings : option (gmap Z (gmap string VssConfig)))
    : gmap Z (gmap string VssConfig) :=
  match file_mappings with
  | Some fm => fm ∪ default_mappings
  | None => default_mappings
  end.

(** [VSSSignal]. *)
Record VSSSignal : Type := {
  path : string;
  value : PyVal;
  timestamp : PyVal;
  vs_data_type : string;
  min_value : PyVal;
  max_value : PyVal;
  unit : string;
  description : string
}.

(** [value * scale + offset] with float operands; [TypeError] on [None].
    The arithmetic is exact rational arithmetic: the rounding of the float
    operations is not modelled (there is none for the built-in scale 1.0
    and offset 0.0 on the byte-sized values decoded here). *)
Definition apply_conversion (conv : Conversion) (v : PyVal) : option PyVal :=
  let scale := default 1%Q (conv_scale conv) in
  let offset := default 0%Q (conv_offset conv) in
  match v with
  | PNone => None
  | PNaN => Some PNaN
  | PInf s =>
      if Qeq_bool scale 0 then Some PNaN
      else Some (PInf (if Qle_bool 0 scale then s else negb s))
  | _ =>
      x ← py_num v;
      Some (PFloat (Qred (x * scale + offset)))
  end.

(** The body of the loop over [can_msg.signals], for a signal that has an
    entry; [None] when it raises. *)
Definition map_signal (vss_config : VssConfig) (can_msg : DBCManager.CANMessage)
    (can_signal : DBCManager.CANSignal) : option VSSSignal :=
  value ← match conversion vss_config with
          | Some conv => apply_conversion conv (DBCManager.value can_signal)
          | None => Some (DBCManager.value can_signal)
          end;
  p ← vss_path vss_config;
  Some {| path := p;
          value := value;
          timestamp := DBCManager.timestamp can_msg;
          vs_data_type := default "unknown" (data_type vss_config);
          min_value := DBCManager.min_value can_signal;
          max_value := DBCManager.max_value can_signal;
          unit := if String.eqb (DBCManager.cs_unit can_signal) ""
                  then default "" (vss_unit vss_config)
                  else DBCManager.cs_unit can_signal;
          description := default "" (vss_description vss_config) |}.

Fixpoint map_signals (mapping : gmap string VssConfig) (can_msg : DBCManager.CANMessage)
    (sigs : list DBCManager.CANSignal) : option (list VSSSignal) :=
  match sigs with
  | [] => Some []
  | can_signal :: rest =>
      match mapping !! DBCManager.name can_signal with
      | Some vss_config =>
          vss_signal ← map_signal vss_config can_msg can_signal;
          vss_signals ← map_signals mapping can_msg rest;
          Some (vss_signal :: vss_signals)
      | None => map_signals mapping can_msg rest
      end
  end.

(** [map_can_to_vss(can_msg)]; [None] when an exception escapes. *)
Definition map_can_to_vss (mappings : gmap Z (gmap string VssConfig))
    (can_msg : DBCManager.CANMessage) : option (list VSSSignal) :=
  match mappings !! DBCManager.can_id can_msg with
  | None => Some []
  | Some mapping => map_signals mapping can_msg (DBCManager.signals_of can_msg)
  end.

End VSSMapper.

(** ** scripts/zonal_controller_simple.py: SimpleZonalController *)

Module SimpleZonalController.

(** [decode_can_data(can_id, can_data)]: the byte-layout decoder of
    identifier 0x100; [can_data] is a JSON list of integers. *)
Definition decode_can_data (can_id : Z) (can_data : list Z) : PyDict :=
  if can_id =? 0x100 then
    (if (0 <? length can_data)%nat then
       let byte0 := nth 0 can_data 0 in
       [ ("headLamp", PBool (truthy (PInt (Z.land byte0 0x01))));
         ("tailLamp", PBool (truthy (PInt (Z.land byte0 0x02))));
         ("brakeLamp", PBool (truthy (PInt (Z.land byte0 0x04))));
         ("indicatorLeft", PBool (truthy (PInt (Z.land byte0 0x08))));
         ("indicatorRight", PBool (truthy (PInt (Z.land byte0 0x10)))) ]
     else [])
    ++ (if (1 <? length can_data)%nat then [("lightLevel", PInt (nth 1 can_data 0))] else [])
    ++ (if (2 <? length can_data)%nat then [("vehicleSpeed", PInt (nth 2 can_data 0))] else [])
    ++ (if (4 <? length can_data)%nat then
          let ambient := Z.lor (Z.shiftl (nth 3 can_data 0) 8) (nth 4 can_data 0) in
          [("ambient", PInt ambient)]
        else [])
  else [].

(** One element of the list returned by [map_to_vss]. *)
Record VssEntry : Type := {
  path : string;
  value : PyVal;
  type : string;
  timestamp : PyVal
}.

(** [map_to_vss(can_id, decoded_data)]; [now] is the reading of
    [time.time()]. *)
Definition map_to_vss (now : PyVal) (can_id : Z) (decoded_data : PyDict) : list VssEntry :=
  let pick (key p ty : string) : list VssEntry :=
    match dict_get key decoded_data with
    | Some v => [{| path := p; value := v; type := ty; timestamp := now |}]
    | None => []
    end in
  if can_id =? 0x100 then
    pick "headLamp" "Vehicle.Body.Lights.IsHighBeamOn" "boolean"
    ++ pick "tailLamp" "Vehicle.Body.Lights.IsTailLightOn" "boolean"
    ++ pick "lightLevel" "Vehicle.Body.Lights.AmbientLight" "uint8"
    ++ pick "vehicleSpeed" "Vehicle.Speed" "uint8"
  else [].

(** The received JSON object: [can_id] is [None] when the key is missing
    or null; [can_data] likewise. *)
Record Incoming : Type := {
  can_id : option Z;
  can_data : option (list Z)
}.

(** [self.stats]. *)
Record Stats : Type := {
  messages_received : nat;
  errors : nat
}.

(** [process_message(data)]: the new statistics and, when the message is
    processed, what was decoded and mapped ([None] when the method returns
    before decoding). *)
Definition process_message (now : PyVal) (st : Stats) (data : Incoming)
    : Stats * option (PyDict * list VssEntry) :=
  let st := {| messages_received := S (messages_received st); errors := errors st |} in
  let can_id := can_id data in
  let can_data := default [] (can_data data) in
  (* if not can_id or not can_data: return *)
  if negb (truthy (from_option PInt PNone can_id)) || (length can_data =? 0)%nat then
    (st, None)
  else
    let id := default 0 can_id in
    let decoded := decode_can_data id can_data in
    let vss_signals := map_to_vss now id decoded in
    (st, Some (decoded, vss_signals)).

End SimpleZonalController.

(** ** scripts/wsl2_socket_server.py: the stream framer *)

Module Framer.

(** A Python [str]: its code points. *)
Definition PyStr : Type := list N.

(** The code point of ['\n']. *)
Definition newline : N := 10%N.

(** [ch.isspace()], the characters [str.strip()] removes: the ASCII
    white space and separators, and the Unicode space characters. *)
Definition is_space (c : N) : bool :=
  ((9 <=? c) && (c <=? 13) || (28 <=? c) && (c <=? 32)
   || (c =? 0x85) || (c =? 0xA0) || (c =? 0x1680)
   || (0x2000 <=? c) && (c <=? 0x200A)
   || (c =? 0x2028) || (c =? 0x2029) || (c =? 0x202F)
   || (c =? 0x205F) || (c =? 0x3000))%N.

(** [s.lstrip()]. *)
Fixpoint lstrip (s : PyStr) : PyStr :=
  match s with
  | [] => []
  | c :: rest => if is_space c then lstrip rest else s
  end.

(** [s.strip()]. *)
Definition strip (s : PyStr) : PyStr := rev (lstrip (rev (lstrip s))).

(** [buffer.split('\n', 1)] when ['\n' in buffer], [None] otherwise. *)
Fixpoint split_newline (buffer : PyStr) : option (PyStr * PyStr) :=
  match buffer with
  | [] => None
  | c :: rest =>
      if (c =? newline)%N then Some ([], rest)
      else
        match split_newline rest with
        | Some (message, buffer') => Some (c :: message, buffer')
        | None => None
        end
  end.

(** The [while '\n' in buffer] loop of [process_buffer]; every turn removes
    at least the newline, so [fuel] is the length of the buffer. *)
Fixpoint process_buffer_loop (fuel : nat) (buffer : PyStr) (messages : list PyStr)
    : list PyStr * PyStr :=
  match fuel with
  | O => (messages, buffer)
  | S fuel' =>
      match split_newline buffer with
      | None => (messages, buffer)
      | Some (message, buffer') =>
          let message := strip message in
          process_buffer_loop fuel' buffer'
            (match message with
             | [] => messages
             | _ :: _ => messages ++ [message]
             end)
      end
  end.

(** [process_buffer(buffer)]: the pair of ['messages'] and
    ['remaining_buffer']. *)
Definition process_buffer (buffer : PyStr) : list PyStr * PyStr :=
  process_buffer_loop (length buffer) buffer [].

Section HandleClient.
(** [json.loads]: [None] for a [JSONDecodeError]. *)
Variable loads : PyStr -> option CANMessageProcessor.Envelope.
(** What the outside world does during the messages of this connection. *)
Variable w : EnhancedWSL2SocketServer.World.

(** One turn of the read loop of [handle_client] on the decoded text of a
    non-empty [recv]: the buffer grows, the complete messages are processed
    in order, the tail is kept. *)
Definition on_recv (st : EnhancedWSL2SocketServer.Server * PyStr) (data : PyStr)
    : EnhancedWSL2SocketServer.Server * PyStr :=
  let '(srv, buffer) := st in
  let buffer := buffer ++ data in
  let '(messages, remaining_buffer) := process_buffer buffer in
  (fold_left (fun srv message_str =>
                EnhancedWSL2SocketServer.process_incoming_message w srv (loads message_str))
             messages srv,
   remaining_buffer).

(** What one [client_socket.recv(65536)] does: it returns [len] bytes
    whose decoding as UTF-8, errors ignored, is [text] (no byte at all when
    the client has closed the connection), or it raises. *)
Inductive Recv : Type :=
  | Received (len : nat) (text : PyStr)
  | RecvTimeout
  | RecvReset
  | RecvError.

(** The state of [handle_client]: the server, the local [buffer], and the
    counter [self.stats['bytes_received']]. *)
Record Client : Type := {
  server : EnhancedWSL2SocketServer.Server;
  buffer : PyStr;
  bytes_received : nat
}.

(** [self.client_connected = flag]. *)
Definition set_client_connected (flag : bool) (srv : EnhancedWSL2SocketServer.Server)
    : EnhancedWSL2SocketServer.Server :=
  {| EnhancedWSL2SocketServer.processor := EnhancedWSL2SocketServer.processor srv;
     EnhancedWSL2SocketServer.forwarder := EnhancedWSL2SocketServer.forwarder srv;
     EnhancedWSL2SocketServer.can_bus := EnhancedWSL2SocketServer.can_bus srv;
     EnhancedWSL2SocketServer.stats := EnhancedWSL2SocketServer.stats srv;
     EnhancedWSL2SocketServer.running := EnhancedWSL2SocketServer.running srv;
     EnhancedWSL2SocketServer.client_connected := flag |}.

(** The [while self.running and self.client_connected] loop of
    [handle_client] over the successive results of [recv]: a time-out is
    skipped, an empty read or a reset ends the loop, any other exception is
    counted and ends it. *)
Fixpoint read_loop (c : Client) (reads : list Recv) : Client :=
  match reads with
  | [] => c
  | r :: rest =>
      if EnhancedWSL2SocketServer.running (server c)
         && EnhancedWSL2SocketServer.client_connected (server c) then
        match r with
        | Received O _ => c
        | Received len text =>
            let '(srv, remaining_buffer) := on_recv (server c, buffer c) text in
            read_loop {| server := srv; buffer := remaining_buffer;
                         bytes_received := bytes_received c + len |} rest
        | RecvTimeout => read_loop c rest
        | RecvReset => c
        | RecvError =>
            {| server := EnhancedWSL2SocketServer.with_stats (server c)
                           EnhancedWSL2SocketServer.count_error;
               buffer := buffer c; bytes_received := bytes_received c |}
        end
      else c
  end.

(** [handle_client(client_socket, client_address)]: the server and the
    byte counter when the method returns; the buffer is local and is
    dropped. *)
Definition handle_client (srv : EnhancedWSL2SocketServer.Server) (received : nat)
    (reads : list Recv) : EnhancedWSL2SocketServer.Server * nat :=
  let c := read_loop {| server := set_client_connected true srv; buffer := [];
                        bytes_received := received |} reads in
  (set_client_connected false (server c), bytes_received c).

End HandleClient.

End Framer.

(** ** fmu_can_bridge.py: WSL2SocketBridge *)

Module WSL2SocketBridge.

(** [self.max_reconnect_attempts]. *)
Definition max_reconnect_attempts : nat := 5.

(** How a call of [socket.sendall] ends; a failed call may have written a
    prefix of the data. *)
Inductive SendOutcome : Type :=
  | SendOk
  | SendTimeout (written : nat)
  | SendConnectionError (written : nat)
  | SendOtherError (written : nat).

(** What the network does during one call of [send_data]: whether a
    connection attempt succeeds, and how [sendall] ends. *)
Record World : Type := {
  connect_ok : bool;
  sendall : SendOutcome
}.

(** The bridge: its flags and counter, and the text written on each
    connection it opened (oldest first, the current one last). *)
Record t : Type := {
  connected : bool;
  has_socket : bool;
  reconnect_attempts : nat;
  wire : list Framer.PyStr
}.

(** The state [__init__] leaves. *)
Definition init : t :=
  {| connected := false; has_socket := false; reconnect_attempts := 0; wire := [] |}.

(** [connect()]: the socket object is created, then connected. *)
Definition connect (w : World) (b : t) : bool * t :=
  if connect_ok w then
    (true, {| connected := true; has_socket := true; reconnect_attempts := 0;
              wire := wire b ++ [[]] |})
  else
    (false, {| connected := false; has_socket := true;
               reconnect_attempts := reconnect_attempts b; wire := wire b |}).

(** [reconnect()]. *)
Definition reconnect (w : World) (b : t) : bool * t :=
  if (max_reconnect_attempts <=? reconnect_attempts b)%nat then (false, b)
  else
    connect w {| connected := connected b; has_socket := has_socket b;
                 reconnect_attempts := S (reconnect_attempts b); wire := wire b |}.

(** Writing on the current connection. *)
Definition write (streams : list Framer.PyStr) (text : Framer.PyStr) : list Framer.PyStr :=
  match rev streams with
  | [] => [text]
  | current :: earlier => rev earlier ++ [current ++ text]
  end.

Definition disconnected (b : t) (streams : list Framer.PyStr) : t :=
  {| connected := false; has_socket := has_socket b;
     reconnect_attempts := reconnect_attempts b; wire := streams |}.

Section SendData.
Context {A : Type}.
(** [json.dumps(data, default=str)]. *)
Variable dumps : A -> Framer.PyStr.

(** [send_data(data)]. *)
Definition send_data (w : World) (b : t) (data : A) : bool * t :=
  let '(ok, b) :=
    if negb (connected b) || negb (has_socket b) then reconnect w b else (true, b) in
  if negb ok then (false, b)
  else
    let message := dumps data ++ [Framer.newline] in
    match sendall w with
    | SendOk =>
        (true, {| connected := connected b; has_socket := has_socket b;
                  reconnect_attempts := reconnect_attempts b;
                  wire := write (wire b) message |})
    | SendTimeout n => (false, disconnected b (write (wire b) (take n message)))
    | SendConnectionError n => (false, disconnected b (write (wire b) (take n message)))
    | SendOtherError n =>
        (false, {| connected := connected b; has_socket := has_socket b;
                   reconnect_attempts := reconnect_attempts b;
                   wire := write (wire b) (take n message) |})
    end.

(** Successive calls of [send_data], each with what the network does
    during it: the final state and the results, in order. *)
Fixpoint send_all (b : t) (calls : list (World * A)) : list bool * t :=
  match calls with
  | [] => ([], b)
  | (w, data) :: rest =>
      let '(ok, b) := send_data w b data in
      let '(oks, b) := send_all b rest in
      (ok :: oks, b)
  end.

End SendData.

(** [close()]. *)
Definition close (b : t) : t := disconnected b (wire b).

End WSL2SocketBridge.

(** ** fmu_can_bridge.py: FMUCANBridge *)

Module FMUCANBridge.

(** [self.stats] (the two counters of the loop). *)
Record Stats : Type := {
  messages_sent : nat;
  messages_failed : nat
}.

(** One turn of the loop: what [run_step] returned, the clock, and what the
    network does during the send. *)
Record Tick : Type := {
  fmu_data : gmap string PyVal;
  now : PyVal;
  world : WSL2SocketBridge.World
}.

(** The progress line written every tenth message reads
    [fmu_data['headlamp']] and formats [fmu_data['ambient']] with [:.1f]:
    a [KeyError] when a key is missing, a [TypeError] on [None]. *)
Definition log_ok (data : gmap string PyVal) : bool :=
  match data !! "headlamp", data !! "ambient" with
  | Some _, Some v => match v with PNone => false | _ => true end
  | _, _ => false
  end.

Section Run.
(** [json.dumps(data, default=str)] on an encoded frame. *)
Variable dumps : CANMessageEncoder.CANFrame -> Framer.PyStr.

(** The [while] loop of [run_simulation] over the turns it makes; an
    exception ([encode] raising, the progress line raising) leaves the
    loop. *)
Fixpoint run_loop (ticks : list Tick) (st : WSL2SocketBridge.t * Stats)
    : WSL2SocketBridge.t * Stats :=
  match ticks with
  | [] => st
  | tick :: rest =>
      let '(bridge, stats) := st in
      match CANMessageEncoder.encode (now tick) (fmu_data tick) with
      | None => st
      | Some can_frame =>
          let '(ok, bridge) := WSL2SocketBridge.send_data dumps (world tick) bridge can_frame in
          if ok then
            let stats := {| messages_sent := S (messages_sent stats);
                            messages_failed := messages_failed stats |} in
            if (messages_sent stats mod 10 =? 0)%nat && negb (log_ok (fmu_data tick))
            then (bridge, stats)
            else run_loop rest (bridge, stats)
          else
            run_loop rest (bridge, {| messages_sent := messages_sent stats;
                                      messages_failed := S (messages_failed stats) |})
      end
  end.

(** [run_simulation()]: the loop, then [stop()] closes the socket. *)
Definition run_simulation (ticks : list Tick) (st : WSL2SocketBridge.t * Stats)
    : WSL2SocketBridge.t * Stats :=
  let '(bridge, stats) := run_loop ticks st in
  (WSL2SocketBridge.close bridge, stats).

End Run.

End FMUCANBridge.

(** ** scripts/zonal_controller.py: DatabaseManager *)

Module DatabaseManager.

(** A row of the table [vss_signals]. *)
Record VssRow : Type := {
  row_signal : VSSMapper.VSSSignal;
  source_can_id : Z;
  source_signal_name : string
}.

(** The two tables the controller writes, oldest row first (the rows of
    [can_signals] are the signals of the stored messages). *)
Record t : Type := {
  can_messages : list DBCManager.CANMessage;
  vss_signals : list VssRow
}.

Definition empty : t := {| can_messages := []; vss_signals := [] |}.

(** [save_can_message(can_msg)]: the message and its signals are committed
    together; when the database raises ([ok] false) the transaction is
    rolled back.  The row identifier it returns is not used by the
    callers. *)
Definition save_can_message (ok : bool) (db : t) (can_msg : DBCManager.CANMessage) : t :=
  if ok then {| can_messages := can_messages db ++ [can_msg]; vss_signals := vss_signals db |}
  else db.

(** [save_vss_signals(vss_signals, can_id, source_signal)]. *)
Definition save_vss_signals (ok : bool) (db : t) (signals : list VSSMapper.VSSSignal)
    (can_id : Z) (source_signal : string) : t :=
  if ok then
    {| can_messages := can_messages db;
       vss_signals := vss_signals db
                      ++ map (fun v => {| row_signal := v; source_can_id := can_id;
                                          source_signal_name := source_signal |}) signals |}
  else db.

End DatabaseManager.

(** ** scripts/zonal_controller.py: ZonalController *)

Module ZonalController.

(** [self.stats]. *)
Record Stats : Type := {
  messages_received : nat;
  messages_decoded : nat;
  vss_signals_mapped : nat;
  errors : nat
}.

Record t : Type := {
  stats : Stats;
  db : DatabaseManager.t
}.

(** The message received from the publisher; a field is [None] when its
    key is missing or null. *)
Record Incoming : Type := {
  can_id : option Z;
  can_data : option (list Z)
}.

(** A frame read from the CAN bus. *)
Record BusFrame : Type := {
  arbitration_id : Z;
  data : list Z
}.

(** Whether the two writes to the database succeed. *)
Record World : Type := {
  save_message_ok : bool;
  save_vss_ok : bool
}.

(** [", ".join(names)]. *)
Fixpoint join (names : list string) : string :=
  match names with
  | [] => ""
  | [name] => name
  | name :: rest => name ++ ", " ++ join rest
  end.

Definition with_stats (ctl : t) (s : Stats) : t := {| stats := s; db := db ctl |}.

Section Controller.
(** [self.db.decode_message] of the cantools library, [None] when it
    raises. *)
Variable db_decode_message : Z -> list Z -> option PyDict.
(** [self.dbc_manager.db.messages]. *)
Variable messages : list DBCManager.Message.
(** [self.vss_mapper.mappings]. *)
Variable mappings : gmap Z (gmap string VSSMapper.VssConfig).

(** [process_zmq_message(data)]; every exception raised on the way is
    counted in [errors]. *)
Definition process_zmq_message (w : World) (now : PyVal) (ctl : t) (data : Incoming) : t :=
  let s := stats ctl in
  let s := {| messages_received := S (messages_received s);
              messages_decoded := messages_decoded s;
              vss_signals_mapped := vss_signals_mapped s; errors := errors s |} in
  let failed := {| messages_received := messages_received s;
                   messages_decoded := messages_decoded s;
                   vss_signals_mapped := vss_signals_mapped s; errors := S (errors s) |} in
  match can_id data, can_data data with
  | Some can_id, Some can_data =>
      if negb (forallb is_byte can_data) then
        (* bytes(can_data) raises ValueError *)
        with_stats ctl failed
      else
        match DBCManager.decode_message db_decode_message messages now can_id can_data with
        | None => with_stats ctl s
        | Some can_msg =>
            let s := {| messages_received := messages_received s;
                        messages_decoded := S (messages_decoded s);
                        vss_signals_mapped := vss_signals_mapped s; errors := errors s |} in
            let database := DatabaseManager.save_can_message (save_message_ok w) (db ctl) can_msg in
            match VSSMapper.map_can_to_vss mappings can_msg with
            | None =>
                {| stats := {| messages_received := messages_received s;
                               messages_decoded := messages_decoded s;
                               vss_signals_mapped := vss_signals_mapped s;
                               errors := S (errors s) |};
                   db := database |}
            | Some [] => {| stats := s; db := database |}
            | Some vss_signals =>
                {| stats := {| messages_received := messages_received s;
                               messages_decoded := messages_decoded s;
                               vss_signals_mapped :=
                                 vss_signals_mapped s + length vss_signals;
                               errors := errors s |};
                   db := DatabaseManager.save_vss_signals (save_vss_ok w) database vss_signals
                           can_id (join (map DBCManager.name (DBCManager.signals_of can_msg))) |}
            end
        end
  | _, _ => with_stats ctl s
  end.

(** [process_can_message(can_msg)]: the path of the frames read from the
    bus; it keeps no statistics, and an exception is only logged. *)
Definition process_can_message (w : World) (now : PyVal) (ctl : t) (can_msg : BusFrame) : t :=
  match DBCManager.decode_message db_decode_message messages now
          (arbitration_id can_msg) (data can_msg) with
  | None => ctl
  | Some decoded_msg =>
      let decoded_msg :=
        {| DBCManager.timestamp := DBCManager.timestamp decoded_msg;
           DBCManager.can_id := DBCManager.can_id decoded_msg;
           DBCManager.signals_of := DBCManager.signals_of decoded_msg;
           DBCManager.raw_data := DBCManager.raw_data decoded_msg;
           DBCManager.dlc := DBCManager.dlc decoded_msg;
           DBCManager.can_id_description := DBCManager.can_id_description decoded_msg;
           DBCManager.direction := "RX";
           DBCManager.source := "CAN_Bus_Direct" |} in
      let database :=
        DatabaseManager.save_can_message (save_message_ok w) (db ctl) decoded_msg in
      match VSSMapper.map_can_to_vss mappings decoded_msg with
      | None | Some [] => {| stats := stats ctl; db := database |}
      | Some vss_signals =>
          {| stats := stats ctl;
             db := DatabaseManager.save_vss_signals (save_vss_ok w) database vss_signals
                     (arbitration_id can_msg) "" |}
      end
  end.

End Controller.

End ZonalController.

(** ** Vocabulary of the statements *)

(** The declared kind of a signal of the light-control frame. *)
Inductive Kind : Type := KBool | KUint8 | KUint16.

(** The signals of the light-control frame: the key the encoder reads, the
    key the 0x100 byte-layout decoder writes, and the declared kind. *)
Definition wire_layout : list (string * string * Kind) :=
  [ ("headlamp", "headLamp", KBool);
    ("tailLamp", "tailLamp", KBool);
    ("brakeLamp", "brakeLamp", KBool);
    ("indicator_left", "indicatorLeft", KBool);
    ("indicator_right", "indicatorRight", KBool);
    ("light_level", "lightLevel", KUint8);
    ("vehicle_speed", "vehicleSpeed", KUint8);
    ("ambient", "ambient", KUint16) ].

(** A value of the declared kind, within the declared range. *)
Definition in_range (kind : Kind) (v : PyVal) : bool :=
  match kind, v with
  | KBool, PBool _ => true
  | KUint8, PInt z => (0 <=? z) && (z <=? 255)
  | KUint16, PInt z => (0 <=? z) && (z <=? 65535)
  | _, _ => false
  end.

(** Every signal present in [fmu_data] holds a value in its declared range. *)
Definition values_in_declared_range (fmu_data : gmap string PyVal) : bool :=
  forallb (fun '(k, _, kind) =>
             match fmu_data !! k with
             | Some v => in_range kind v
             | None => true
             end) wire_layout.

(** The keys [encode] passes to [int()]. *)
Definition numeric_keys : list string := ["light_level"; "vehicle_speed"; "ambient"].

(** Every numeric entry present in [fmu_data] is accepted by [int()]. *)
Definition numeric_inputs_convertible (fmu_data : gmap string PyVal) : bool :=
  forallb (fun k =>
             match fmu_data !! k with
             | Some v => bool_decide (is_Some (py_int v))
             | None => true
             end) numeric_keys.

(** The boolean signals: encoder key, bit of byte 0, decoder key. *)
Definition bool_signals : list (string * Z * string) :=
  [ ("headlamp", 0, "headLamp");
    ("tailLamp", 1, "tailLamp");
    ("brakeLamp", 2, "brakeLamp");
    ("indicator_left", 3, "indicatorLeft");
    ("indicator_right", 4, "indicatorRight") ].

(** Whether a boolean signal is present and true. *)
Definition flag (fmu_data : gmap string PyVal) (k : string) : bool :=
  match fmu_data !! k with
  | Some v => truthy v
  | None => false
  end.

(** Byte 0 as the loop over the boolean signals leaves it. *)
Definition flags_byte (fmu_data : gmap string PyVal) : Z :=
  Z.b2z (flag fmu_data "headlamp") + 2 * Z.b2z (flag fmu_data "tailLamp")
  + 4 * Z.b2z (flag fmu_data "brakeLamp") + 8 * Z.b2z (flag fmu_data "indicator_left")
  + 16 * Z.b2z (flag fmu_data "indicator_right").

(** The byte written for a [uint8] input: zero when the key is absent,
    [None] when [int()] raises. *)
Definition uint8_byte (fmu_data : gmap string PyVal) (k : string) : option Z :=
  match fmu_data !! k with
  | Some v => clamp 0 255 <$> py_int v
  | None => Some 0
  end.

(** The two bytes written for [ambient]. *)
Definition ambient_bytes (fmu_data : gmap string PyVal) : option (Z * Z) :=
  match fmu_data !! "ambient" with
  | Some v => (fun z => (Z.land (Z.shiftr z 8) 0xFF, Z.land z 0xFF)) <$> py_int v
  | None => Some (0, 0)
  end.

(** Encoding then decoding: what the 0x100 byte-layout decoder reads from
    the frame [encode] produces ([None] when [encode] raises). *)
Definition decoded_back (now : PyVal) (fmu_data : gmap string PyVal) : option PyDict :=
  frame ← CANMessageEncoder.encode now fmu_data;
  Some (SimpleZonalController.decode_can_data
          (CANMessageEncoder.can_id frame) (CANMessageEncoder.can_data frame)).

(** The input under key [k] comes back under key [dk] clamped to
    [[lo, hi]]. *)
Definition decodes_clamped (now : PyVal) (fmu_data : gmap string PyVal)
    (k dk : string) (lo hi : Z) : Prop :=
  forall v z, fmu_data !! k = Some v -> py_int v = Some z ->
    exists decoded, decoded_back now fmu_data = Some decoded /\
                    dict_get dk decoded = Some (PInt (clamp lo hi z)).

(** The input under key [k] comes back under key [dk] reduced modulo
    [2 ^ bits]. *)
Definition decodes_wrapped (now : PyVal) (fmu_data : gmap string PyVal)
    (k dk : string) (bits : Z) : Prop :=
  forall v z, fmu_data !! k = Some v -> py_int v = Some z ->
    exists decoded, decoded_back now fmu_data = Some decoded /\
                    dict_get dk decoded = Some (PInt (z mod 2 ^ bits)).

(** ** Sample inputs *)

(** A full assignment within the declared ranges. *)
Definition sample_fmu_data : gmap string PyVal :=
  <["headlamp" := PBool true]> (<["tailLamp" := PBool false]> (<["brakeLamp" := PBool true]>
  (<["indicator_left" := PBool false]> (<["indicator_right" := PBool true]>
  (<["light_level" := PInt 75]> (<["vehicle_speed" := PInt 60]>
  (<["ambient" := PInt 300]> (<["simulation_time" := PFloat 0.05]> ∅)))))))).

(** Inputs outside the representable ranges, of both signs. *)
Definition out_of_range_fmu_data : gmap string PyVal :=
  <["headlamp" := PInt 5]> (<["light_level" := PInt 300]>
  (<["vehicle_speed" := PFloat (-12.5)]> (<["ambient" := PInt 70000]> ∅))).

(** The reason [validate_message] gives for an envelope (it does not
    depend on the statistics). *)
Definition verdict (data : CANMessageProcessor.Envelope)
    : Z * list Z * Z + CANMessageProcessor.Rejection :=
  fst (CANMessageProcessor.validate_message CANMessageProcessor.init_stats data).

(** Some failure counter moved between two states of the server: one of
    the processor's [invalid_ids] and [invalid_data], or the server's
    [errors]. *)
Definition failure_counted (before after : EnhancedWSL2SocketServer.Server) : Prop :=
  CANMessageProcessor.invalid_ids (EnhancedWSL2SocketServer.processor after)
    <> CANMessageProcessor.invalid_ids (EnhancedWSL2SocketServer.processor before)
  \/ CANMessageProcessor.invalid_data (EnhancedWSL2SocketServer.processor after)
    <> CANMessageProcessor.invalid_data (EnhancedWSL2SocketServer.processor before)
  \/ EnhancedWSL2SocketServer.errors (EnhancedWSL2SocketServer.stats after)
    <> EnhancedWSL2SocketServer.errors (EnhancedWSL2SocketServer.stats before).

(** A server with a client connected, before any message. *)
Definition serving : EnhancedWSL2SocketServer.Server :=
  {| EnhancedWSL2SocketServer.processor := CANMessageProcessor.init_stats;
     EnhancedWSL2SocketServer.forwarder := CANForwarder.init;
     EnhancedWSL2SocketServer.can_bus := [];
     EnhancedWSL2SocketServer.stats :=
       {| EnhancedWSL2SocketServer.messages_received := 0;
          EnhancedWSL2SocketServer.messages_forwarded := 0;
          EnhancedWSL2SocketServer.messages_sent_to_can := 0;
          EnhancedWSL2SocketServer.errors := 0 |};
     EnhancedWSL2SocketServer.running := true;
     EnhancedWSL2SocketServer.client_connected := true |}.

(** The outside world when every send succeeds. *)
Definition calm : EnhancedWSL2SocketServer.World :=
  {| EnhancedWSL2SocketServer.bus_send_ok := true;
     EnhancedWSL2SocketServer.zmq_send_ok := true |}.

(** An envelope with its three required fields. *)
Definition envelope (id : Z) (payload : list Z) (d : Z) : CANMessageProcessor.Envelope :=
  {| CANMessageProcessor.can_id := Some id;
     CANMessageProcessor.can_data := Some payload;
     CANMessageProcessor.dlc := Some d |}.

(** The value a decoded message reports for the signal named [k]. *)
Definition signal_value (msg : DBCManager.CANMessage) (k : string) : option PyVal :=
  DBCManager.value <$>
    List.find (fun s => String.eqb (DBCManager.name s) k) (DBCManager.signals_of msg).

(** Two decoded dictionaries with the same keys in the same order and
    values equal under Python's [==]. *)
Definition same_mapping (d1 d2 : PyDict) : Prop :=
  Forall2 (fun e1 e2 => fst e1 = fst e2 /\ py_eq (snd e1) (snd e2) = true) d1 d2.

(** Decoding a received frame of [data] bytes omits every signal of the
    0x100 layout whose bit range reaches beyond those bytes. *)
Definition omits_absent_signals (db_decode_message : Z -> list Z -> option PyDict)
    (now : PyVal) (data : list Z) : Prop :=
  forall msg s,
    DBCManager.decode_message db_decode_message DBCManager.virtual_database now 0x100 data
      = Some msg ->
    In s (DBCManager.signals DBCManager.light_control_msg) ->
    (length data * 8 < DBCManager.sig_start s + DBCManager.sig_length s)%nat ->
    signal_value msg (DBCManager.sig_name s) = None.

(** The signal names of the 0x100 layout, in declaration order. *)
Definition light_control_names : list string :=
  ["headLamp"; "tailLamp"; "brakeLamp"; "indicatorLeft"; "indicatorRight";
   "lightLevel"; "vehicleSpeed"].

(** A decoded message carrying the given signals under identifier [id]. *)
Definition decoded_message (id : Z) (sigs : list DBCManager.CANSignal) : DBCManager.CANMessage :=
  {| DBCManager.timestamp := PFloat 0;
     DBCManager.can_id := id;
     DBCManager.signals_of := sigs;
     DBCManager.raw_data := [];
     DBCManager.dlc := 8;
     DBCManager.can_id_description := "";
     DBCManager.direction := "RX";
     DBCManager.source := "CAN_Bus" |}.

(** A decoded signal as [decode_message] builds it. *)
Definition decoded_signal (k : string) (v : PyVal) (u : string) (hi : Z) : DBCManager.CANSignal :=
  {| DBCManager.name := k; DBCManager.value := v; DBCManager.cs_unit := u;
     DBCManager.min_value := PFloat 0; DBCManager.max_value := PInt hi;
     DBCManager.description := "" |}.

(** Whether the mapping table has an entry for the signal. *)
Definition mapped (mappings : gmap Z (gmap string VSSMapper.VssConfig)) (id : Z)
    (s : DBCManager.CANSignal) : bool :=
  match mappings !! id with
  | Some mapping => bool_decide (is_Some (mapping !! DBCManager.name s))
  | None => false
  end.

(** The message with only the signals that have a mapping entry. *)
Definition keep_mapped (mappings : gmap Z (gmap string VSSMapper.VssConfig))
    (msg : DBCManager.CANMessage) : DBCManager.CANMessage :=
  {| DBCManager.timestamp := DBCManager.timestamp msg;
     DBCManager.can_id := DBCManager.can_id msg;
     DBCManager.signals_of :=
       List.filter (mapped mappings (DBCManager.can_id msg)) (DBCManager.signals_of msg);
     DBCManager.raw_data := DBCManager.raw_data msg;
     DBCManager.dlc := DBCManager.dlc msg;
     DBCManager.can_id_description := DBCManager.can_id_description msg;
     DBCManager.direction := DBCManager.direction msg;
     DBCManager.source := DBCManager.source msg |}.


(** The message a line contributes: its stripped text unless it is empty. *)
Definition line_message (line : Framer.PyStr) : list Framer.PyStr :=
  match Framer.strip line with
  | [] => []
  | c :: s => [c :: s]
  end.

(** A read that brings data, or a time-out. *)
Definition brings_data (r : Framer.Recv) : bool :=
  match r with
  | Framer.Received (S _) _ | Framer.RecvTimeout => true
  | _ => false
  end.

(** The text and the number of bytes a sequence of reads brings. *)
Definition received_text (reads : list Framer.Recv) : Framer.PyStr :=
  concat (map (fun r => match r with Framer.Received _ text => text | _ => [] end) reads).

Definition received_bytes (reads : list Framer.Recv) : nat :=
  list_sum (map (fun r => match r with Framer.Received len _ => len | _ => 0%nat end) reads).

(** The lines of a stream, each ended by a newline. *)
Definition stream_of (lines : list Framer.PyStr) : Framer.PyStr :=
  concat (map (fun line => line ++ [Framer.newline]) lines).

(** A complete message: non-empty, without a newline inside, with no white
    space to strip at either end. *)
Definition complete_message (m : Framer.PyStr) : Prop :=
  m <> [] /\ ~ In Framer.newline m /\ Framer.strip m = m.

(** A bridge on which five reconnections in a row have failed. *)
Definition given_up : WSL2SocketBridge.t :=
  {| WSL2SocketBridge.connected := false;
     WSL2SocketBridge.has_socket := true;
     WSL2SocketBridge.reconnect_attempts := 5;
     WSL2SocketBridge.wire := [] |}.

(** A network on which everything succeeds. *)
Definition network_up : WSL2SocketBridge.World :=
  {| WSL2SocketBridge.connect_ok := true; WSL2SocketBridge.sendall := WSL2SocketBridge.SendOk |}.

(** A network on which nothing does. *)
Definition network_down : WSL2SocketBridge.World :=
  {| WSL2SocketBridge.connect_ok := false;
     WSL2SocketBridge.sendall := WSL2SocketBridge.SendConnectionError 0 |}.

(** A serialization standing for [json.dumps] in the examples: the payload
    bytes between braces, shifted out of the control characters. *)
Definition toy_dumps (frame : CANMessageEncoder.CANFrame) : Framer.PyStr :=
  (123 :: map (fun b => Z.to_N b + 256) (CANMessageEncoder.can_data frame) ++ [125])%N.

(** The processor after a sequence of envelopes. *)
Definition process_all (st : CANMessageProcessor.Stats) (envs : list CANMessageProcessor.Envelope)
    : CANMessageProcessor.Stats :=
  fold_left (fun st e => snd (CANMessageProcessor.process_message st e)) envs st.

(** The identifier of an envelope the validator accepts. *)
Definition accepted_id (e : CANMessageProcessor.Envelope) : option Z :=
  match verdict e with
  | inl (id, _, _) => Some id
  | inr _ => None
  end.

Definition accepted_as (id : Z) (e : CANMessageProcessor.Envelope) : bool :=
  match accepted_id e with
  | Some id' => id' =? id
  | None => false
  end.

Definition rejected_for_id (e : CANMessageProcessor.Envelope) : bool :=
  match verdict e with
  | inr (CANMessageProcessor.InvalidCanId _) => true
  | _ => false
  end.

Definition rejected_for_length (e : CANMessageProcessor.Envelope) : bool :=
  match verdict e with
  | inr (CANMessageProcessor.InvalidDataLength _) => true
  | _ => false
  end.

(** How many elements satisfy a test. *)
Definition count {A : Type} (p : A -> bool) (l : list A) : nat := length (List.filter p l).

(** The enriched message [process_message] builds for accepted fields. *)
Definition enriched (id : Z) (payload : list Z) (d : Z) : CANMessageProcessor.Enriched :=
  {| CANMessageProcessor.e_can_id := id;
     CANMessageProcessor.e_can_data := payload;
     CANMessageProcessor.e_dlc := d;
     CANMessageProcessor.e_direction := "RX";
     CANMessageProcessor.e_source := "vECU";
     CANMessageProcessor.e_destination := "ZonalController";
     CANMessageProcessor.e_validated := true;
     CANMessageProcessor.e_can_id_description := CANMessageProcessor.valid_ids !! id |}.


(** The envelope the wire carries for an encoded frame: its ['can_id'],
    ['can_data'] and ['dlc'] entries. *)
Definition envelope_of (frame : CANMessageEncoder.CANFrame) : CANMessageProcessor.Envelope :=
  envelope (CANMessageEncoder.can_id frame) (CANMessageEncoder.can_data frame)
           (CANMessageEncoder.dlc frame).

(** A message that parses. *)
Definition parsed (i : EnhancedWSL2SocketServer.World * option CANMessageProcessor.Envelope)
    : bool :=
  match snd i with
  | Some _ => true
  | None => false
  end.


(** The frame the server puts on the bus for an encoded frame. *)
Definition bus_frame_of (frame : CANMessageEncoder.CANFrame)
    : EnhancedWSL2SocketServer.BusMessage :=
  {| EnhancedWSL2SocketServer.arbitration_id := 0x100;
     EnhancedWSL2SocketServer.bus_data := CANMessageEncoder.can_data frame;
     EnhancedWSL2SocketServer.is_extended_id := false;
     EnhancedWSL2SocketServer.bus_dlc := 8 |}.

(** The frame [encode] produces for the sample assignment. *)
Definition sample_frame : CANMessageEncoder.CANFrame :=
  {| CANMessageEncoder.can_id := 0x100;
     CANMessageEncoder.can_data := [21; 75; 60; 1; 44; 0; 0; 0];
     CANMessageEncoder.dlc := 8;
     CANMessageEncoder.timestamp := PFloat 0;
     CANMessageEncoder.sim_time := PFloat 0.05;
     CANMessageEncoder.source := "autoLamp_fmu" |}.

(** A turn of the simulation on the sample assignment, the network up. *)
Definition sample_tick : FMUCANBridge.Tick :=
  {| FMUCANBridge.fmu_data := sample_fmu_data; FMUCANBridge.now := PFloat 0;
     FMUCANBridge.world := network_up |}.

(** A bridge that has just connected. *)
Definition just_connected : WSL2SocketBridge.t :=
  {| WSL2SocketBridge.connected := true; WSL2SocketBridge.has_socket := true;
     WSL2SocketBridge.reconnect_attempts := 0; WSL2SocketBridge.wire := [[]] |}.

(** A mapped signal on which [map_can_to_vss] raises: a [None] value under
    an entry with a conversion ([TypeError]), or an entry without
    ['vss_path'] ([KeyError]). *)
Definition raises_on (mapping : gmap string VSSMapper.VssConfig) (s : DBCManager.CANSignal)
    : bool :=
  match mapping !! DBCManager.name s with
  | Some cfg =>
      match VSSMapper.conversion cfg, DBCManager.value s with
      | Some _, PNone => true
      | _, _ => match VSSMapper.vss_path cfg with None => true | Some _ => false end
      end
  | None => false
  end.

(** The table entry behind a sample: same path, the time stamp of the
    message, the bounds of the signal, and the value itself when the entry
    has no conversion. *)
Definition sample_of (mapping : gmap string VSSMapper.VssConfig) (msg : DBCManager.CANMessage)
    (s : DBCManager.CANSignal) (v : VSSMapper.VSSSignal) : Prop :=
  exists cfg,
    mapping !! DBCManager.name s = Some cfg /\
    VSSMapper.vss_path cfg = Some (VSSMapper.path v) /\
    VSSMapper.timestamp v = DBCManager.timestamp msg /\
    VSSMapper.min_value v = DBCManager.min_value s /\
    VSSMapper.max_value v = DBCManager.max_value s /\
    (VSSMapper.conversion cfg = None -> VSSMapper.value v = DBCManager.value s).

(** The VSS paths of the built-in table, in the order of the layout. *)
Definition light_control_paths : list string :=
  [ "Vehicle.Body.Lights.IsHighBeamOn"; "Vehicle.Body.Lights.IsTailLightOn";
    "Vehicle.Body.Lights.IsBrakeLightOn"; "Vehicle.Body.Lights.IsLeftIndicatorOn";
    "Vehicle.Body.Lights.IsRightIndicatorOn"; "Vehicle.Body.Lights.AmbientLight";
    "Vehicle.Speed" ].

(** A mapping file that maps one signal of identifier 0x100. *)
Definition headlamp_only_file : gmap Z (gmap string VSSMapper.VssConfig) :=
  {[ 0x100 := {[ "headLamp" := VSSMapper.entry "Vehicle.Body.Lights.IsLowBeamOn" "boolean"
                                  "Low beam" None None ]} ]}.

(** The built-in entries of identifier 0x100. *)
Definition builtin_entries : gmap string VSSMapper.VssConfig :=
  default ∅ (VSSMapper.default_mappings !! 0x100).

(** A decoded message with one unmapped signal between two mapped ones. *)
Definition mixed_message : DBCManager.CANMessage :=
  decoded_message 0x100 [decoded_signal "headLamp" (PBool true) "" 1;
                         decoded_signal "ambient" (PInt 300) "" 65535;
                         decoded_signal "lightLevel" (PInt 80) "%" 255].

(** The seven signals [decode_message] reports for identifier 0x100. *)
Definition light_control_signals (v0 v1 v2 v3 v4 v5 v6 : PyVal) : list DBCManager.CANSignal :=
  [ decoded_signal "headLamp" v0 "" 1; decoded_signal "tailLamp" v1 "" 1;
    decoded_signal "brakeLamp" v2 "" 1; decoded_signal "indicatorLeft" v3 "" 1;
    decoded_signal "indicatorRight" v4 "" 1; decoded_signal "lightLevel" v5 "%" 255;
    decoded_signal "vehicleSpeed" v6 "km/h" 255 ].

(** Samples whose values equal the given ones under Python's [==]. *)
Definition values_eq (samples : list VSSMapper.VSSSignal) (values : list PyVal) : Prop :=
  Forall2 (fun v x => py_eq (VSSMapper.value v) x = true) samples values.


(** A message of the publisher the controller can decode: both fields
    present, a payload of bytes, an identifier the database defines. *)
Definition decodable (messages : list DBCManager.Message) (data : ZonalController.Incoming)
    : bool :=
  match ZonalController.can_id data, ZonalController.can_data data with
  | Some id, Some payload =>
      forallb is_byte payload && bool_decide (is_Some (DBCManager.find_message messages id))
  | _, _ => false
  end.

(** A message of the publisher whose payload is not made of bytes. *)
Definition malformed (data : ZonalController.Incoming) : bool :=
  match ZonalController.can_id data, ZonalController.can_data data with
  | Some _, Some payload => negb (forallb is_byte payload)
  | _, _ => false
  end.

(** A controller before any message. *)
Definition fresh_controller : ZonalController.t :=
  {| ZonalController.stats :=
       {| ZonalController.messages_received := 0; ZonalController.messages_decoded := 0;
          ZonalController.vss_signals_mapped := 0; ZonalController.errors := 0 |};
     ZonalController.db := DatabaseManager.empty |}.

(** A database that takes every write. *)
Definition database_up : ZonalController.World :=
  {| ZonalController.save_message_ok := true; ZonalController.save_vss_ok := true |}.

(** What reaches the controller: a message of the publisher or a frame
    read from the bus, with the reading of the clock and what the database
    does meanwhile. *)
Inductive Event : Type :=
  | FromPublisher (w : ZonalController.World) (now : PyVal) (data : ZonalController.Incoming)
  | FromBus (w : ZonalController.World) (now : PyVal) (frame : ZonalController.BusFrame).

Definition from_publisher (e : Event) : bool :=
  match e with
  | FromPublisher _ _ _ => true
  | FromBus _ _ _ => false
  end.

Definition from_bus (e : Event) : bool := negb (from_publisher e).

Definition writes_succeed (e : Event) : bool :=
  match e with
  | FromPublisher w _ _ | FromBus w _ _ =>
      ZonalController.save_message_ok w && ZonalController.save_vss_ok w
  end.

Section Handle.
Variable db_decode_message : Z -> list Z -> option PyDict.
Variable messages : list DBCManager.Message.
Variable mappings : gmap Z (gmap string VSSMapper.VssConfig).

Definition handle (ctl : ZonalController.t) (e : Event) : ZonalController.t :=
  match e with
  | FromPublisher w now data =>
      ZonalController.process_zmq_message db_decode_message messages mappings w now ctl data
  | FromBus w now frame =>
      ZonalController.process_can_message db_decode_message messages mappings w now ctl frame
  end.

(** The controller after a sequence of events. *)
Definition handle_all (ctl : ZonalController.t) (events : list Event) : ZonalController.t :=
  fold_left handle events ctl.

(** A stored message as [decode_message] builds it: at least eight bytes
    of raw data, a [dlc] that is their number, the direction RX, and an
    identifier the database defines. *)
Definition stored_message (m : DBCManager.CANMessage) : Prop :=
  (8 <= length (DBCManager.raw_data m))%nat /\
  DBCManager.dlc m = length (DBCManager.raw_data m) /\
  DBCManager.direction m = "RX" /\
  is_Some (DBCManager.find_message messages (DBCManager.can_id m)).

(** A stored sample whose path is the one the table gives some signal of
    its identifier. *)
Definition stored_sample (r : DatabaseManager.VssRow) : Prop :=
  exists mapping name cfg,
    mappings !! DatabaseManager.source_can_id r = Some mapping /\
    mapping !! name = Some cfg /\
    VSSMapper.vss_path cfg = Some (VSSMapper.path (DatabaseManager.row_signal r)).
End Handle.

(** The rows a sequence of samples adds to the table [vss_signals]. *)
Definition rows (samples : list VSSMapper.VSSSignal) (id : Z) (source_signal : string)
    : list DatabaseManager.VssRow :=
  map (fun v => {| DatabaseManager.row_signal := v; DatabaseManager.source_can_id := id;
                   DatabaseManager.source_signal_name := source_signal |}) samples.

(** The values a light-control payload carries, in the order of the
    layout: the five flags of its first byte, then its second and third
    bytes. *)
Definition payload_values (b0 b1 b2 : Z) : list PyVal :=
  [ PBool (Z.testbit b0 0); PBool (Z.testbit b0 1); PBool (Z.testbit b0 2);
    PBool (Z.testbit b0 3); PBool (Z.testbit b0 4); PInt b1; PInt b2 ].

(** A frame of the bus holding a light-control payload. *)
Definition light_control_frame : ZonalController.BusFrame :=
  {| ZonalController.arbitration_id := 0x100;
     ZonalController.data := [3; 80; 60; 1; 44] |}.

(** The entry the 0x100 byte-layout decoder adds to what [manual_decode]
    reports: the 16-bit [ambient] of a payload of five bytes or more. *)
Definition ambient_entry (can_id : Z) (can_data : list Z) : PyDict :=
  if (can_id =? 0x100) && (4 <? length can_data)%nat then
    [("ambient", PInt (Z.lor (Z.shiftl (nth 3 can_data 0) 8) (nth 4 can_data 0)))]
  else [].

(** The four paths the simple controller knows. *)
Definition simple_paths : list string :=
  [ "Vehicle.Body.Lights.IsHighBeamOn"; "Vehicle.Body.Lights.IsTailLightOn";
    "Vehicle.Body.Lights.AmbientLight"; "Vehicle.Speed" ].

(** Every entry of the simple controller has a sample of the full
    controller with the same path and an equal value. *)
Definition agree (entries : list SimpleZonalController.VssEntry)
    (samples : list VSSMapper.VSSSignal) : Prop :=
  Forall (fun e =>
            Exists (fun s => VSSMapper.path s = SimpleZonalController.path e /\
                             py_eq (VSSMapper.value s) (SimpleZonalController.value e) = true)
                   samples) entries.

(** * Properties *)

(** ** Bit and byte arithmetic *)

Lemma is_byte_spec z : is_byte z = true <-> 0 <= z < 256.
Proof. unfold is_byte. rewrite andb_true_iff, Z.leb_le, Z.ltb_lt. tauto. Qed.

Lemma is_byte_clamp z : is_byte (clamp 0 255 z) = true.
Proof. apply is_byte_spec. unfold clamp. lia. Qed.

Lemma land_255_mod z : Z.land z 0xFF = z mod 256.
Proof. change 0xFF with (Z.ones 8). rewrite Z.land_ones by lia. reflexivity. Qed.

Lemma is_byte_land z : is_byte (Z.land z 0xFF) = true.
Proof.
  apply is_byte_spec. rewrite land_255_mod.
  apply Z.mod_pos_bound. lia.
Qed.

Lemma clamp_id lo hi z : lo <= z <= hi -> clamp lo hi z = z.
Proof. unfold clamp. lia. Qed.

(** Recomposing the two masked bytes of an integer gives its residue
    modulo [2^16]. *)
Lemma recompose_uint16 z :
  Z.lor (Z.shiftl (Z.land (Z.shiftr z 8) 0xFF) 8) (Z.land z 0xFF) = z mod 65536.
Proof.
  change 0xFF with (Z.ones 8). change 65536 with (2 ^ 16).
  rewrite !Z.land_ones by lia.
  apply Z.bits_inj'. intros n Hn.
  rewrite Z.lor_spec.
  destruct (Z.ltb_spec n 8) as [Hlt | Hge].
  - rewrite Z.shiftl_spec_low by lia.
    rewrite !Z.mod_pow2_bits_low by lia. reflexivity.
  - rewrite Z.shiftl_spec by lia.
    rewrite (Z.mod_pow2_bits_high z 8 n) by lia.
    rewrite orb_false_r.
    destruct (Z.ltb_spec n 16) as [Hlt' | Hge'].
    + rewrite !Z.mod_pow2_bits_low by lia.
      rewrite Z.shiftr_spec by lia. f_equal. lia.
    + rewrite !Z.mod_pow2_bits_high by lia. reflexivity.
Qed.

(** ** The encoder in closed form *)

Section EncoderFacts.
Import CANMessageEncoder.

Variable now : PyVal.
Variable fmu_data : gmap string PyVal.

Lemma set_bool_signal_flag b0 rest k bit :
  set_bool_signal fmu_data (b0 :: rest)
    (k, {| sc_byte := 0; sc_bit := Some bit; sc_type := "bool"; sc_scale := None |})
  = if flag fmu_data k then bytearray_set (b0 :: rest) 0 (Z.lor b0 (Z.shiftl 1 (Z.of_nat bit)))
    else Some (b0 :: rest).
Proof.
  unfold set_bool_signal, flag.
  destruct (fmu_data !! k) as [v|]; [|reflexivity].
  cbn. destruct (truthy v); reflexivity.
Qed.

Lemma set_bool_signal_uint8 data k pos sc :
  set_bool_signal fmu_data data
    (k, {| sc_byte := pos; sc_bit := None; sc_type := "uint8"; sc_scale := sc |})
  = Some data.
Proof.
  unfold set_bool_signal. destruct (fmu_data !! k); reflexivity.
Qed.

Ltac run_bytearray_set :=
  match goal with
  | |- context [bytearray_set ?d ?i ?v] =>
      let r := eval vm_compute in (bytearray_set d i v) in
      change (bytearray_set d i v) with r
  end.

Ltac bool_step k :=
  rewrite set_bool_signal_flag;
  destruct (flag fmu_data k); [run_bytearray_set|]; cbn [mbind option_bind].

Lemma set_bool_signals_closed :
  set_bool_signals fmu_data (replicate 8 0) (cfg_signals light_control)
  = Some [flags_byte fmu_data; 0; 0; 0; 0; 0; 0; 0].
Proof.
  unfold flags_byte.
  cbn [light_control cfg_signals set_bool_signals replicate].
  bool_step "headlamp"; bool_step "tailLamp"; bool_step "brakeLamp";
    bool_step "indicator_left"; bool_step "indicator_right";
    rewrite set_bool_signal_uint8; cbn [mbind option_bind];
    rewrite set_bool_signal_uint8; reflexivity.
Qed.

(** [encode] computes the eight bytes below, and raises exactly when one
    of the three [int()] conversions does. *)
Lemma encode_closed :
  encode now fmu_data =
    ll ← uint8_byte fmu_data "light_level";
    vs ← uint8_byte fmu_data "vehicle_speed";
    '(hi, lo) ← ambient_bytes fmu_data;
    Some {| can_id := 0x100;
            can_data := [flags_byte fmu_data; ll; vs; hi; lo; 0; 0; 0];
            dlc := 8;
            timestamp := default now (fmu_data !! "timestamp");
            sim_time := default (PInt 0) (fmu_data !! "simulation_time");
            source := "autoLamp_fmu" |}.
Proof.
  unfold encode. rewrite set_bool_signals_closed.
  cbn [mbind option_bind].
  unfold set_uint8, uint8_byte, set_ambient, ambient_bytes, bytearray_set.
  destruct (fmu_data !! "light_level") as [v1|]; cbn [mbind option_bind fmap option_fmap option_map];
    [destruct (py_int v1) as [z1|]; cbn [mbind option_bind]; [rewrite is_byte_clamp|reflexivity]|];
    cbn [length Nat.ltb Nat.leb andb mbind option_bind];
    (destruct (fmu_data !! "vehicle_speed") as [v2|]; cbn [mbind option_bind fmap option_fmap option_map];
     [destruct (py_int v2) as [z2|]; cbn [mbind option_bind]; [rewrite is_byte_clamp|reflexivity]|];
     cbn [length Nat.ltb Nat.leb andb mbind option_bind list_insert insert];
     (destruct (fmu_data !! "ambient") as [v3|]; cbn [mbind option_bind fmap option_fmap option_map];
      [destruct (py_int v3) as [z3|]; cbn [mbind option_bind]; [rewrite !is_byte_land|reflexivity]|];
      reflexivity)).
Qed.

End EncoderFacts.

(** ** Encoding and decoding the light-control frame *)

(** The decoder on a frame of at least five bytes. *)
Lemma decode_can_data_closed b0 b1 b2 b3 b4 rest :
  SimpleZonalController.decode_can_data 0x100 (b0 :: b1 :: b2 :: b3 :: b4 :: rest) =
    [ ("headLamp", PBool (truthy (PInt (Z.land b0 0x01))));
      ("tailLamp", PBool (truthy (PInt (Z.land b0 0x02))));
      ("brakeLamp", PBool (truthy (PInt (Z.land b0 0x04))));
      ("indicatorLeft", PBool (truthy (PInt (Z.land b0 0x08))));
      ("indicatorRight", PBool (truthy (PInt (Z.land b0 0x10))));
      ("lightLevel", PInt b1);
      ("vehicleSpeed", PInt b2);
      ("ambient", PInt (Z.lor (Z.shiftl b3 8) b4)) ].
Proof. reflexivity. Qed.

(** Each mask of the decoder reads back the flag the encoder wrote. *)
Lemma flags_byte_bits fmu_data :
  truthy (PInt (Z.land (flags_byte fmu_data) 0x01)) = flag fmu_data "headlamp" /\
  truthy (PInt (Z.land (flags_byte fmu_data) 0x02)) = flag fmu_data "tailLamp" /\
  truthy (PInt (Z.land (flags_byte fmu_data) 0x04)) = flag fmu_data "brakeLamp" /\
  truthy (PInt (Z.land (flags_byte fmu_data) 0x08)) = flag fmu_data "indicator_left" /\
  truthy (PInt (Z.land (flags_byte fmu_data) 0x10)) = flag fmu_data "indicator_right".
Proof.
  unfold flags_byte.
  destruct (flag fmu_data "headlamp"), (flag fmu_data "tailLamp"),
    (flag fmu_data "brakeLamp"), (flag fmu_data "indicator_left"),
    (flag fmu_data "indicator_right"); repeat split; reflexivity.
Qed.

Lemma flags_byte_range fmu_data : 0 <= flags_byte fmu_data <= 31.
Proof.
  unfold flags_byte.
  destruct (flag fmu_data "headlamp"), (flag fmu_data "tailLamp"),
    (flag fmu_data "brakeLamp"), (flag fmu_data "indicator_left"),
    (flag fmu_data "indicator_right"); cbn; lia.
Qed.

(** A flag that is not raised leaves its bit of byte 0 clear. *)
Lemma flags_byte_testbit fmu_data k bit dk :
  In (k, bit, dk) bool_signals ->
  Z.testbit (flags_byte fmu_data) bit = flag fmu_data k.
Proof.
  unfold bool_signals. cbn [In]. unfold flags_byte.
  intros H.
  destruct (flag fmu_data "headlamp") eqn:E0, (flag fmu_data "tailLamp") eqn:E1,
    (flag fmu_data "brakeLamp") eqn:E2, (flag fmu_data "indicator_left") eqn:E3,
    (flag fmu_data "indicator_right") eqn:E4;
    repeat (destruct H as [H | H]; [injection H as <- <- <-; rewrite ?E0, ?E1, ?E2, ?E3, ?E4; reflexivity |]);
    destruct H.
Qed.

(** The decoder applied to a payload the encoder wrote. *)
Lemma decode_encoded fmu_data ll vs hi lo :
  SimpleZonalController.decode_can_data 0x100 [flags_byte fmu_data; ll; vs; hi; lo; 0; 0; 0] =
    [ ("headLamp", PBool (flag fmu_data "headlamp"));
      ("tailLamp", PBool (flag fmu_data "tailLamp"));
      ("brakeLamp", PBool (flag fmu_data "brakeLamp"));
      ("indicatorLeft", PBool (flag fmu_data "indicator_left"));
      ("indicatorRight", PBool (flag fmu_data "indicator_right"));
      ("lightLevel", PInt ll);
      ("vehicleSpeed", PInt vs);
      ("ambient", PInt (Z.lor (Z.shiftl hi 8) lo)) ].
Proof.
  rewrite decode_can_data_closed.
  destruct (flags_byte_bits fmu_data) as (H0 & H1 & H2 & H3 & H4).
  rewrite H0, H1, H2, H3, H4. reflexivity.
Qed.

(** What comes back after encoding, in closed form. *)
Lemma decoded_back_closed now fmu_data :
  decoded_back now fmu_data =
    ll ← uint8_byte fmu_data "light_level";
    vs ← uint8_byte fmu_data "vehicle_speed";
    '(hi, lo) ← ambient_bytes fmu_data;
    Some [ ("headLamp", PBool (flag fmu_data "headlamp"));
           ("tailLamp", PBool (flag fmu_data "tailLamp"));
           ("brakeLamp", PBool (flag fmu_data "brakeLamp"));
           ("indicatorLeft", PBool (flag fmu_data "indicator_left"));
           ("indicatorRight", PBool (flag fmu_data "indicator_right"));
           ("lightLevel", PInt ll);
           ("vehicleSpeed", PInt vs);
           ("ambient", PInt (Z.lor (Z.shiftl hi 8) lo)) ].
Proof.
  unfold decoded_back. rewrite encode_closed.
  destruct (uint8_byte fmu_data "light_level") as [ll|]; [|reflexivity].
  destruct (uint8_byte fmu_data "vehicle_speed") as [vs|]; [|reflexivity].
  destruct (ambient_bytes fmu_data) as [[hi lo]|]; [|reflexivity].
  cbn [mbind option_bind CANMessageEncoder.can_id CANMessageEncoder.can_data].
  rewrite decode_encoded. reflexivity.
Qed.

Lemma convertible_lookup fmu_data k v :
  numeric_inputs_convertible fmu_data = true ->
  In k numeric_keys -> fmu_data !! k = Some v -> exists z, py_int v = Some z.
Proof.
  unfold numeric_inputs_convertible. rewrite forallb_forall.
  intros Hall Hin Hv. specialize (Hall k Hin). rewrite Hv in Hall.
  apply bool_decide_eq_true in Hall. destruct Hall as [z Hz]. eauto.
Qed.

(** With convertible numeric inputs the three conversions succeed. *)
Lemma convertible_bytes fmu_data :
  numeric_inputs_convertible fmu_data = true ->
  exists ll vs hi lo,
    uint8_byte fmu_data "light_level" = Some ll /\
    uint8_byte fmu_data "vehicle_speed" = Some vs /\
    ambient_bytes fmu_data = Some (hi, lo) /\
    is_byte ll = true /\ is_byte vs = true /\ is_byte hi = true /\ is_byte lo = true.
Proof.
  intros Hc.
  assert (Hu : forall k, In k numeric_keys ->
            exists b, uint8_byte fmu_data k = Some b /\ is_byte b = true).
  { intros k Hk. unfold uint8_byte. destruct (fmu_data !! k) as [v|] eqn:E.
    - destruct (convertible_lookup fmu_data k v Hc Hk E) as [z ->].
      eexists; split; [reflexivity | apply is_byte_clamp].
    - eexists; split; reflexivity. }
  destruct (Hu "light_level" ltac:(cbn; tauto)) as [ll Hll].
  destruct (Hu "vehicle_speed" ltac:(cbn; tauto)) as [vs Hvs].
  assert (Hab : exists hi lo, ambient_bytes fmu_data = Some (hi, lo)
                              /\ is_byte hi = true /\ is_byte lo = true).
  { unfold ambient_bytes. destruct (fmu_data !! "ambient") as [v|] eqn:E.
    - destruct (convertible_lookup fmu_data "ambient" v Hc ltac:(cbn; tauto) E) as [z ->].
      do 2 eexists; split; [reflexivity | split; apply is_byte_land].
    - do 2 eexists; split; [reflexivity | split; reflexivity]. }
  destruct Hll as (? & ?), Hvs as (? & ?), Hab as (hi & lo & ? & ? & ?).
  exists ll, vs, hi, lo. tauto.
Qed.

Lemma in_range_lookup fmu_data k dk kind v :
  values_in_declared_range fmu_data = true ->
  In (k, dk, kind) wire_layout -> fmu_data !! k = Some v -> in_range kind v = true.
Proof.
  unfold values_in_declared_range. rewrite forallb_forall.
  intros Hall Hin Hv. specialize (Hall _ Hin). cbn in Hall. rewrite Hv in Hall. exact Hall.
Qed.

Lemma in_range_uint8 v : in_range KUint8 v = true -> exists z, v = PInt z /\ 0 <= z <= 255.
Proof. destruct v; cbn; try discriminate. intros H. exists z. split; [reflexivity | lia]. Qed.

Lemma in_range_uint16 v : in_range KUint16 v = true -> exists z, v = PInt z /\ 0 <= z <= 65535.
Proof. destruct v; cbn; try discriminate. intros H. exists z. split; [reflexivity | lia]. Qed.

Lemma in_range_bool v : in_range KBool v = true -> exists b, v = PBool b.
Proof. destruct v; cbn; try discriminate. eauto. Qed.

Lemma in_range_convertible fmu_data :
  values_in_declared_range fmu_data = true -> numeric_inputs_convertible fmu_data = true.
Proof.
  intros Hr. unfold numeric_inputs_convertible, numeric_keys.
  apply forallb_forall. intros k Hk.
  destruct (fmu_data !! k) as [v|] eqn:E; [|reflexivity].
  apply bool_decide_eq_true.
  cbn [In] in Hk. destruct Hk as [<- | [<- | [<- | []]]].
  - destruct (in_range_uint8 v (in_range_lookup fmu_data "light_level" "lightLevel" KUint8 v Hr ltac:(cbn; tauto) E))
      as (z & -> & _); eexists; reflexivity.
  - destruct (in_range_uint8 v (in_range_lookup fmu_data "vehicle_speed" "vehicleSpeed" KUint8 v Hr ltac:(cbn; tauto) E))
      as (z & -> & _); eexists; reflexivity.
  - destruct (in_range_uint16 v (in_range_lookup fmu_data "ambient" "ambient" KUint16 v Hr ltac:(cbn; tauto) E))
      as (z & -> & _); eexists; reflexivity.
Qed.

(** C1: every signal of the light-control layout whose value lies in its
    declared range (a boolean, an integer of [0, 255] for [light_level] and
    [vehicle_speed], an integer of [0, 65535] for [ambient]) is read back
    unchanged by the 0x100 byte-layout decoder from the payload [encode]
    produces; no scale or offset is applied on the way, so the values are
    equal, not merely close. *)
Theorem encode_decode_roundtrip (now : PyVal) (fmu_data : gmap string PyVal) :
  values_in_declared_range fmu_data = true ->
  exists frame,
    CANMessageEncoder.encode now fmu_data = Some frame /\
    length (CANMessageEncoder.can_data frame) = 8%nat /\
    forall k dk kind v,
      In (k, dk, kind) wire_layout -> fmu_data !! k = Some v ->
      dict_get dk (SimpleZonalController.decode_can_data
                     (CANMessageEncoder.can_id frame)
                     (CANMessageEncoder.can_data frame)) = Some v.
Proof.
  intros Hr.
  rewrite encode_closed.
  destruct (convertible_bytes fmu_data (in_range_convertible _ Hr))
    as (ll & vs & hi & lo & Hll & Hvs & Hab & _).
  rewrite Hll, Hvs, Hab. cbn [mbind option_bind].
  eexists. split; [reflexivity|]. split; [reflexivity|].
  cbn [CANMessageEncoder.can_id CANMessageEncoder.can_data].
  rewrite decode_encoded.
  intros k dk kind v Hin Hv.
  pose proof (in_range_lookup _ _ _ _ _ Hr Hin Hv) as Hv_range.
  unfold wire_layout in Hin. cbn [In] in Hin.
  repeat (destruct Hin as [Hin | Hin]; [injection Hin as <- <- <- |]); try destruct Hin.
  1-5: destruct (in_range_bool _ Hv_range) as [b ->];
       cbn; unfold flag; rewrite Hv; reflexivity.
  - destruct (in_range_uint8 _ Hv_range) as (z & -> & Hz).
    unfold uint8_byte in Hll. rewrite Hv in Hll. cbn in Hll.
    rewrite clamp_id in Hll by lia. injection Hll as <-. reflexivity.
  - destruct (in_range_uint8 _ Hv_range) as (z & -> & Hz).
    unfold uint8_byte in Hvs. rewrite Hv in Hvs. cbn in Hvs.
    rewrite clamp_id in Hvs by lia. injection Hvs as <-. reflexivity.
  - destruct (in_range_uint16 _ Hv_range) as (z & -> & Hz).
    unfold ambient_bytes in Hab. rewrite Hv in Hab. cbn in Hab.
    injection Hab as <- <-. cbn [dict_get String.eqb Ascii.eqb Bool.eqb].
    cbn. rewrite recompose_uint16. rewrite Z.mod_small by lia. reflexivity.
Qed.

(** The round trip on a full assignment within the declared ranges. *)
Lemma encode_decode_roundtrip_witness :
  exists frame,
    CANMessageEncoder.encode (PFloat 0) sample_fmu_data = Some frame /\
    length (CANMessageEncoder.can_data frame) = 8%nat /\
    forall k dk kind v,
      In (k, dk, kind) wire_layout -> sample_fmu_data !! k = Some v ->
      dict_get dk (SimpleZonalController.decode_can_data
                     (CANMessageEncoder.can_id frame)
                     (CANMessageEncoder.can_data frame)) = Some v.
Proof.
  apply (encode_decode_roundtrip (PFloat 0) sample_fmu_data).
  vm_compute. reflexivity.
Defined.

(** An input of fractional value is outside the declared kinds: [int()]
    truncates it toward zero before it is written. *)
Lemma fractional_input_truncated :
  (decoded ← decoded_back (PFloat 0) {[ "vehicle_speed" := PFloat 50.7 ]};
   dict_get "vehicleSpeed" decoded) = Some (PInt 50)
  /\ (decoded ← decoded_back (PFloat 0) {[ "ambient" := PFloat (-0.5) ]};
      dict_get "ambient" decoded) = Some (PInt 0).
Proof. vm_compute. split; reflexivity. Qed.

(** C6, as stated, fails on [ambient]: the value 70000 lies above the
    16-bit range, yet it does not come back as the clamped 65535; the
    masked bytes decode to 70000 mod 65536 = 4464.  And an input [int()]
    rejects, such as the float [nan], makes [encode] raise. *)
Lemma ambient_not_clamped :
  ~ decodes_clamped (PFloat 0) {[ "ambient" := PInt 70000 ]} "ambient" "ambient" 0 65535 /\
  CANMessageEncoder.encode (PFloat 0) {[ "light_level" := PNaN ]} = None.
Proof.
  split; [|vm_compute; reflexivity].
  intros H.
  destruct (H (PInt 70000) 70000 eq_refl eq_refl) as (decoded & Hd & Hget).
  vm_compute in Hd. injection Hd as <-.
  vm_compute in Hget. discriminate Hget.
Qed.

(** C6 (amended): when the numeric entries are convertible by [int()],
    [encode] does not raise; [light_level] and [vehicle_speed] are clamped
    to [0, 255] and decode to the clamped value; a boolean signal decodes to
    the truth value of its input; [ambient] is not clamped but masked to
    sixteen bits, and decodes to the input modulo 65536. *)
Theorem encode_clamps_or_wraps (now : PyVal) (fmu_data : gmap string PyVal) :
  numeric_inputs_convertible fmu_data = true ->
  is_Some (CANMessageEncoder.encode now fmu_data) /\
  decodes_clamped now fmu_data "light_level" "lightLevel" 0 255 /\
  decodes_clamped now fmu_data "vehicle_speed" "vehicleSpeed" 0 255 /\
  decodes_wrapped now fmu_data "ambient" "ambient" 16 /\
  (forall k bit dk v,
      In (k, bit, dk) bool_signals -> fmu_data !! k = Some v ->
      exists decoded, decoded_back now fmu_data = Some decoded /\
                      dict_get dk decoded = Some (PBool (truthy v))).
Proof.
  intros Hc.
  pose proof (decoded_back_closed now fmu_data) as Hback.
  pose proof (encode_closed now fmu_data) as Henc.
  destruct (convertible_bytes fmu_data Hc)
    as (ll & vs & hi & lo & Hll & Hvs & Hab & _).
  rewrite Hll, Hvs, Hab in Hback, Henc. cbn [mbind option_bind] in Hback, Henc.
  split; [rewrite Henc; eexists; reflexivity|].
  split; [|split; [|split]].
  - intros v z Hv Hz. eexists; split; [exact Hback|].
    unfold uint8_byte in Hll. rewrite Hv in Hll. cbn in Hll. rewrite Hz in Hll.
    injection Hll as <-. reflexivity.
  - intros v z Hv Hz. eexists; split; [exact Hback|].
    unfold uint8_byte in Hvs. rewrite Hv in Hvs. cbn in Hvs. rewrite Hz in Hvs.
    injection Hvs as <-. reflexivity.
  - intros v z Hv Hz. eexists; split; [exact Hback|].
    unfold ambient_bytes in Hab. rewrite Hv in Hab. cbn in Hab. rewrite Hz in Hab.
    injection Hab as <- <-.
    cbn [dict_get String.eqb Ascii.eqb Bool.eqb]. cbn.
    rewrite recompose_uint16. reflexivity.
  - intros k bit dk v Hin Hv. eexists; split; [exact Hback|].
    unfold bool_signals in Hin. cbn [In] in Hin.
    repeat (destruct Hin as [Hin | Hin]; [injection Hin as <- <- <- |]); try destruct Hin;
      cbn; unfold flag; rewrite Hv; reflexivity.
Qed.

(** Clamping and wrapping on inputs outside the ranges, of both signs. *)
Lemma encode_clamps_or_wraps_witness :
  is_Some (CANMessageEncoder.encode (PFloat 0) out_of_range_fmu_data) /\
  decodes_clamped (PFloat 0) out_of_range_fmu_data "light_level" "lightLevel" 0 255 /\
  decodes_clamped (PFloat 0) out_of_range_fmu_data "vehicle_speed" "vehicleSpeed" 0 255 /\
  decodes_wrapped (PFloat 0) out_of_range_fmu_data "ambient" "ambient" 16 /\
  (forall k bit dk v,
      In (k, bit, dk) bool_signals -> out_of_range_fmu_data !! k = Some v ->
      exists decoded, decoded_back (PFloat 0) out_of_range_fmu_data = Some decoded /\
                      dict_get dk decoded = Some (PBool (truthy v))).
Proof.
  apply (encode_clamps_or_wraps (PFloat 0) out_of_range_fmu_data).
  vm_compute. reflexivity.
Defined.

(** C9: whatever the magnitude or sign of the convertible inputs, [encode]
    returns identifier 0x100, declared length 8 and a payload of exactly
    eight integers of [0, 255]; a key absent from the input leaves its
    byte (for a boolean signal, its bit of byte 0) zero, and bytes 5 to 7
    are always zero. *)
Theorem encode_frame_shape (now : PyVal) (fmu_data : gmap string PyVal) :
  numeric_inputs_convertible fmu_data = true ->
  exists frame,
    CANMessageEncoder.encode now fmu_data = Some frame /\
    CANMessageEncoder.can_id frame = 0x100 /\
    CANMessageEncoder.dlc frame = 8 /\
    length (CANMessageEncoder.can_data frame) = 8%nat /\
    Forall (fun b => 0 <= b <= 255) (CANMessageEncoder.can_data frame) /\
    (forall k bit dk, In (k, bit, dk) bool_signals -> fmu_data !! k = None ->
       Z.testbit (nth 0 (CANMessageEncoder.can_data frame) 0) bit = false) /\
    (fmu_data !! "light_level" = None -> CANMessageEncoder.can_data frame !! 1%nat = Some 0) /\
    (fmu_data !! "vehicle_speed" = None -> CANMessageEncoder.can_data frame !! 2%nat = Some 0) /\
    (fmu_data !! "ambient" = None ->
       CANMessageEncoder.can_data frame !! 3%nat = Some 0 /\
       CANMessageEncoder.can_data frame !! 4%nat = Some 0) /\
    drop 5 (CANMessageEncoder.can_data frame) = [0; 0; 0].
Proof.
  intros Hc. rewrite encode_closed.
  destruct (convertible_bytes fmu_data Hc)
    as (ll & vs & hi & lo & Hll & Hvs & Hab & Bll & Bvs & Bhi & Blo).
  rewrite Hll, Hvs, Hab. cbn [mbind option_bind].
  eexists. split; [reflexivity|].
  cbn [CANMessageEncoder.can_id CANMessageEncoder.dlc CANMessageEncoder.can_data].
  apply is_byte_spec in Bll, Bvs, Bhi, Blo.
  pose proof (flags_byte_range fmu_data) as Hf.
  split; [reflexivity|]. split; [reflexivity|]. split; [reflexivity|].
  split; [|split; [|split; [|split; [|split]]]].
  - repeat (constructor; [lia|]). constructor.
  - intros k bit dk Hin Hnone. cbn [nth].
    rewrite (flags_byte_testbit _ _ _ _ Hin). unfold flag. rewrite Hnone. reflexivity.
  - intros Hnone. unfold uint8_byte in Hll. rewrite Hnone in Hll.
    injection Hll as <-. reflexivity.
  - intros Hnone. unfold uint8_byte in Hvs. rewrite Hnone in Hvs.
    injection Hvs as <-. reflexivity.
  - intros Hnone. unfold ambient_bytes in Hab. rewrite Hnone in Hab.
    injection Hab as <- <-. split; reflexivity.
  - reflexivity.
Qed.

(** The shape of the frame on inputs outside the ranges. *)
Lemma encode_frame_shape_witness :
  exists frame,
    CANMessageEncoder.encode (PFloat 0) out_of_range_fmu_data = Some frame /\
    CANMessageEncoder.can_id frame = 0x100 /\
    CANMessageEncoder.dlc frame = 8 /\
    length (CANMessageEncoder.can_data frame) = 8%nat /\
    Forall (fun b => 0 <= b <= 255) (CANMessageEncoder.can_data frame) /\
    (forall k bit dk, In (k, bit, dk) bool_signals -> out_of_range_fmu_data !! k = None ->
       Z.testbit (nth 0 (CANMessageEncoder.can_data frame) 0) bit = false) /\
    (out_of_range_fmu_data !! "light_level" = None ->
       CANMessageEncoder.can_data frame !! 1%nat = Some 0) /\
    (out_of_range_fmu_data !! "vehicle_speed" = None ->
       CANMessageEncoder.can_data frame !! 2%nat = Some 0) /\
    (out_of_range_fmu_data !! "ambient" = None ->
       CANMessageEncoder.can_data frame !! 3%nat = Some 0 /\
       CANMessageEncoder.can_data frame !! 4%nat = Some 0) /\
    drop 5 (CANMessageEncoder.can_data frame) = [0; 0; 0].
Proof.
  apply (encode_frame_shape (PFloat 0) out_of_range_fmu_data).
  vm_compute. reflexivity.
Defined.

(** ** The backup buffer of the forwarder *)

Section ForwarderFacts.
Import CANForwarder.
Context {A : Type}.
Implicit Types (q frames : list A) (x : A) (fw : t A).

Lemma maxsize_pos : (0 < maxsize)%nat.
Proof. unfold maxsize. lia. Qed.

(** On a queue within capacity the backup keeps the newest [maxsize]
    elements of the queue extended by the new frame. *)
Lemma backup_within_capacity q x :
  (length q <= maxsize)%nat ->
  backup q x = (if (length q <? maxsize)%nat then q else drop 1 q) ++ [x].
Proof.
  intros Hlen. unfold backup, put_nowait.
  pose proof maxsize_pos as Hpos.
  destruct (Nat.ltb_spec (length q) maxsize) as [Hlt | Hge]; [reflexivity|].
  destruct q as [| y q']; [cbn in Hge; lia|].
  cbn [get_nowait drop].
  destruct (Nat.ltb_spec (length q') maxsize) as [Hlt' | Hge']; [reflexivity|].
  cbn [length] in Hlen. lia.
Qed.

Lemma backup_length q x :
  (length q <= maxsize)%nat -> (length (backup q x) <= maxsize)%nat.
Proof.
  intros Hlen. rewrite backup_within_capacity by exact Hlen.
  destruct (Nat.ltb_spec (length q) maxsize) as [Hlt | Hge];
    rewrite length_app; cbn [length]; [lia|].
  rewrite length_drop. pose proof maxsize_pos. lia.
Qed.

(** The state after publishing [frames] into a forwarder whose queue
    holds the newest frames of what it published. *)
Lemma forward_all_newest frames fw :
  message_queue fw = drop (length (published fw) - maxsize) (published fw) ->
  published (forward_all fw frames) = published fw ++ frames /\
  message_queue (forward_all fw frames)
    = drop (length (published fw ++ frames) - maxsize) (published fw ++ frames).
Proof.
  revert fw. induction frames as [| x frames IH]; intros fw Hq.
  - cbn. rewrite app_nil_r. auto.
  - cbn [forward_all fold_left].
    change (fold_left (forward_message true) frames (forward_message true fw x))
      with (forward_all (forward_message true fw x) frames).
    assert (Hstep : message_queue (forward_message true fw x)
                    = drop (length (published fw ++ [x]) - maxsize) (published fw ++ [x])).
    { cbn [forward_message message_queue].
      assert (Hlen : (length (message_queue fw) <= maxsize)%nat).
      { rewrite Hq, length_drop. lia. }
      rewrite backup_within_capacity by exact Hlen.
      rewrite Hq, length_drop, length_app. cbn [length].
      pose proof maxsize_pos as Hpos.
      destruct (Nat.ltb_spec (length (published fw) - (length (published fw) - maxsize)) maxsize)
        as [Hlt | Hge].
      - replace (length (published fw) - maxsize)%nat with 0%nat by lia.
        replace (length (published fw) + 1 - maxsize)%nat with 0%nat by lia.
        reflexivity.
      - rewrite drop_drop.
        replace (length (published fw) - maxsize + 1)%nat
          with (length (published fw) + 1 - maxsize)%nat by lia.
        rewrite drop_app_le by lia. reflexivity. }
    destruct (IH (forward_message true fw x)) as [Hp Hm].
    { cbn [forward_message published]. exact Hstep. }
    cbn [forward_message published] in Hp, Hm.
    rewrite <- app_assoc in Hp, Hm. cbn [app] in Hp, Hm. auto.
Qed.

Lemma forward_all_init frames :
  published (forward_all init frames) = frames /\
  message_queue (forward_all init frames) = drop (length frames - maxsize) frames.
Proof.
  destruct (forward_all_newest frames init) as [Hp Hm]; [reflexivity|].
  cbn [init published app] in Hp, Hm. auto.
Qed.

End ForwarderFacts.

(** When [send_json] raises, the frame is logged as a forward error and
    the backup queue is left as it was. *)
Lemma forward_send_failure (A : Type) (fw : CANForwarder.t A) (x : A) :
  CANForwarder.forward_message false fw x = fw.
Proof. reflexivity. Qed.

(** C5: the backup queue has capacity 1000.  After any sequence of frames
    published into an initially empty buffer, publishing one more frame
    leaves a buffer of at most 1000 frames whose newest element is that
    frame: when the buffer was full exactly its oldest frame was removed,
    otherwise nothing was; the buffer always holds the newest frames in
    arrival order, and after frames 1 to 1050 it holds 51 to 1050. *)
Theorem backup_buffer_oldest_dropped :
  CANForwarder.maxsize = 1000%nat /\
  (forall (A : Type) (frames : list A) (x : A),
      let fw := CANForwarder.forward_all CANForwarder.init frames in
      let fw' := CANForwarder.forward_message true fw x in
      (length (CANForwarder.message_queue fw') <= CANForwarder.maxsize)%nat /\
      last (CANForwarder.message_queue fw') = Some x /\
      CANForwarder.message_queue fw'
        = (if (length (CANForwarder.message_queue fw) <? CANForwarder.maxsize)%nat
           then CANForwarder.message_queue fw
           else drop 1 (CANForwarder.message_queue fw)) ++ [x] /\
      CANForwarder.message_queue fw
        = drop (length frames - CANForwarder.maxsize) frames) /\
  CANForwarder.message_queue
    (CANForwarder.forward_all CANForwarder.init (seq 1 1050)) = seq 51 1000.
Proof.
  split; [reflexivity|]. split.
  - intros A frames x fw fw'.
    destruct (forward_all_init frames) as [_ Hm]. fold fw in Hm.
    assert (Hlen : (length (CANForwarder.message_queue fw) <= CANForwarder.maxsize)%nat).
    { rewrite Hm, length_drop. lia. }
    assert (Hq : CANForwarder.message_queue fw'
                 = (if (length (CANForwarder.message_queue fw) <? CANForwarder.maxsize)%nat
                    then CANForwarder.message_queue fw
                    else drop 1 (CANForwarder.message_queue fw)) ++ [x]).
    { unfold fw'. cbn [CANForwarder.forward_message CANForwarder.message_queue].
      apply backup_within_capacity. exact Hlen. }
    repeat split.
    + unfold fw'. cbn [CANForwarder.forward_message CANForwarder.message_queue].
      apply backup_length. exact Hlen.
    + rewrite Hq. apply last_snoc.
    + exact Hq.
    + exact Hm.
  - destruct (forward_all_init (seq 1 1050)) as [_ ->].
    vm_compute. reflexivity.
Qed.

(** ** Frame validation *)

Section ValidationFacts.
Import CANMessageProcessor.

Lemma first_missing_none data :
  first_missing data required_fields = None <->
  exists id payload d, data = envelope id payload d.
Proof.
  destruct data as [[id|] [payload|] [d|]]; cbn; split;
    try discriminate; try (intros (? & ? & ? & [=]); fail).
  - intros _. exists id, payload, d. reflexivity.
  - reflexivity.
Qed.

(** The verdict and the counters for an envelope that has its fields. *)
Lemma validate_message_fields st id payload d :
  validate_message st (envelope id payload d) =
    if negb ((0x000 <=? id) && (id <=? 0x7FF)) then
      (inr (InvalidCanId id),
       {| total_received := total_received st; total_sent := total_sent st;
          invalid_ids := S (invalid_ids st); invalid_data := invalid_data st;
          by_id := by_id st |})
    else if negb ((0 <=? d) && (d <=? 8)) then (inr (InvalidDlc d), st)
    else if negb (length payload =? 8)%nat then
      (inr (InvalidDataLength (length payload)),
       {| total_received := total_received st; total_sent := total_sent st;
          invalid_ids := invalid_ids st; invalid_data := S (invalid_data st);
          by_id := by_id st |})
    else (inl (id, payload, d), st).
Proof. reflexivity. Qed.

(** The verdict does not depend on the statistics. *)
Lemma validate_message_verdict st data :
  fst (validate_message st data) = verdict data.
Proof.
  unfold verdict.
  destruct (first_missing data required_fields) as [field|] eqn:E.
  - unfold validate_message. rewrite E. reflexivity.
  - apply first_missing_none in E. destruct E as (id & payload & d & ->).
    rewrite !validate_message_fields.
    destruct (negb _); [reflexivity|].
    destruct (negb _); [reflexivity|].
    destruct (negb _); reflexivity.
Qed.

Lemma verdict_missing data field :
  first_missing data required_fields = Some field ->
  verdict data = inr (MissingField field).
Proof.
  intros E. unfold verdict, validate_message. rewrite E. reflexivity.
Qed.

Lemma verdict_fields id payload d :
  verdict (envelope id payload d) =
    if negb ((0x000 <=? id) && (id <=? 0x7FF)) then inr (InvalidCanId id)
    else if negb ((0 <=? d) && (d <=? 8)) then inr (InvalidDlc d)
    else if negb (length payload =? 8)%nat then inr (InvalidDataLength (length payload))
    else inl (id, payload, d).
Proof.
  unfold verdict. rewrite validate_message_fields.
  destruct (negb _); [reflexivity|].
  destruct (negb _); [reflexivity|].
  destruct (negb _); reflexivity.
Qed.

Lemma range_check lo hi z : (lo <=? z) && (z <=? hi) = true <-> lo <= z <= hi.
Proof. rewrite andb_true_iff, !Z.leb_le. tauto. Qed.

End ValidationFacts.

(** C3: [validate_message] accepts an envelope exactly when all four rules
    hold, and reports the first rule that fails, in the order: required
    fields, identifier range, declared length, payload length.  An envelope
    with identifier 0x800 is rejected, one with a 7-byte payload is
    rejected, and (0x100, 8, [1,50,60,0,0,0,0,0]) is accepted and decodes to
    headLamp = true, lightLevel = 50, vehicleSpeed = 60. *)
Theorem validate_message_rules :
  (forall data,
      (exists v, verdict data = inl v) <->
      (exists id payload d,
          data = envelope id payload d /\
          0x000 <= id <= 0x7FF /\ 0 <= d <= 8 /\ length payload = 8%nat)) /\
  (forall st data, fst (CANMessageProcessor.validate_message st data) = verdict data) /\
  (forall data field,
      CANMessageProcessor.first_missing data CANMessageProcessor.required_fields = Some field ->
      verdict data = inr (CANMessageProcessor.MissingField field)) /\
  (forall id payload d,
      ~ 0x000 <= id <= 0x7FF ->
      verdict (envelope id payload d) = inr (CANMessageProcessor.InvalidCanId id)) /\
  (forall id payload d,
      0x000 <= id <= 0x7FF -> ~ 0 <= d <= 8 ->
      verdict (envelope id payload d) = inr (CANMessageProcessor.InvalidDlc d)) /\
  (forall id payload d,
      0x000 <= id <= 0x7FF -> 0 <= d <= 8 -> length payload <> 8%nat ->
      verdict (envelope id payload d)
        = inr (CANMessageProcessor.InvalidDataLength (length payload))) /\
  verdict (envelope 0x800 [1; 50; 60; 0; 0; 0; 0; 0] 8)
    = inr (CANMessageProcessor.InvalidCanId 0x800) /\
  verdict (envelope 0x100 [1; 50; 60; 0; 0; 0; 0] 8)
    = inr (CANMessageProcessor.InvalidDataLength 7) /\
  verdict (envelope 0x100 [1; 50; 60; 0; 0; 0; 0; 0] 8)
    = inl (0x100, [1; 50; 60; 0; 0; 0; 0; 0], 8) /\
  (let decoded := DBCManager.manual_decode 0x100 [1; 50; 60; 0; 0; 0; 0; 0]
                    DBCManager.light_control_msg in
   dict_get "headLamp" decoded = Some (PBool true) /\
   dict_get "lightLevel" decoded = Some (PInt 50) /\
   dict_get "vehicleSpeed" decoded = Some (PInt 60)).
Proof.
  split; [|split; [|split; [|split; [|split; [|split]]]]].
  - intros data. split.
    + intros [v Hv].
      destruct (CANMessageProcessor.first_missing data CANMessageProcessor.required_fields)
        as [field|] eqn:E.
      * rewrite (verdict_missing _ _ E) in Hv. discriminate.
      * apply first_missing_none in E. destruct E as (id & payload & d & ->).
        exists id, payload, d. rewrite verdict_fields in Hv.
        destruct ((0 <=? id) && (id <=? 2047)) eqn:Hid; [|discriminate].
        destruct ((0 <=? d) && (d <=? 8)) eqn:Hd; [|discriminate].
        destruct (length payload =? 8)%nat eqn:Hp; [|discriminate].
        apply range_check in Hid, Hd. apply Nat.eqb_eq in Hp. auto.
    + intros (id & payload & d & -> & Hid & Hd & Hp).
      exists (id, payload, d). rewrite verdict_fields.
      apply range_check in Hid, Hd. rewrite Hid, Hd, Hp. reflexivity.
  - intros st data. apply validate_message_verdict.
  - intros data field. apply verdict_missing.
  - intros id payload d Hid. rewrite verdict_fields.
    destruct ((0 <=? id) && (id <=? 2047)) eqn:E; [|reflexivity].
    apply range_check in E. contradiction.
  - intros id payload d Hid Hd. rewrite verdict_fields.
    apply range_check in Hid. rewrite Hid. cbn [negb].
    destruct ((0 <=? d) && (d <=? 8)) eqn:E; [|reflexivity].
    apply range_check in E. contradiction.
  - intros id payload d Hid Hd Hp. rewrite verdict_fields.
    apply range_check in Hid, Hd. rewrite Hid, Hd. cbn [negb].
    apply Nat.eqb_neq in Hp. rewrite Hp. reflexivity.
  - repeat split; reflexivity.
Qed.

(** ** Dropping invalid envelopes *)

(** C7, as stated, fails on the declared-length rule: an envelope whose
    only fault is [dlc = 9] is rejected, yet no failure counter moves. *)
Lemma invalid_dlc_not_counted :
  verdict (envelope 0x100 [1; 50; 60; 0; 0; 0; 0; 0] 9)
    = inr (CANMessageProcessor.InvalidDlc 9) /\
  ~ failure_counted serving
      (EnhancedWSL2SocketServer.process_incoming_message calm serving
         (Some (envelope 0x100 [1; 50; 60; 0; 0; 0; 0; 0] 9))).
Proof.
  split; [reflexivity|].
  unfold failure_counted. cbn. intros [H | [H | H]]; apply H; reflexivity.
Qed.

(** C7 (amended): an envelope rejected by any of the four rules is dropped:
    nothing is put on the CAN bus, nothing is published or queued for the
    subscribers, the forwarded count does not move and the connection flags
    are untouched.  The received totals are incremented; of the failure
    counters, [invalid_ids] is incremented for an identifier out of range
    and [invalid_data] for a payload length other than 8, and that is all
    the processor counts. *)
Theorem invalid_envelope_dropped
    (w : EnhancedWSL2SocketServer.World) (srv : EnhancedWSL2SocketServer.Server)
    (data : CANMessageProcessor.Envelope) (r : CANMessageProcessor.Rejection) :
  verdict data = inr r ->
  let after := EnhancedWSL2SocketServer.process_incoming_message w srv (Some data) in
  EnhancedWSL2SocketServer.can_bus after = EnhancedWSL2SocketServer.can_bus srv /\
  EnhancedWSL2SocketServer.forwarder after = EnhancedWSL2SocketServer.forwarder srv /\
  EnhancedWSL2SocketServer.client_connected after
    = EnhancedWSL2SocketServer.client_connected srv /\
  EnhancedWSL2SocketServer.running after = EnhancedWSL2SocketServer.running srv /\
  EnhancedWSL2SocketServer.stats after
    = EnhancedWSL2SocketServer.count_message (EnhancedWSL2SocketServer.stats srv) /\
  EnhancedWSL2SocketServer.processor after =
    (let p := EnhancedWSL2SocketServer.processor srv in
     {| CANMessageProcessor.total_received := S (CANMessageProcessor.total_received p);
        CANMessageProcessor.total_sent := CANMessageProcessor.total_sent p;
        CANMessageProcessor.invalid_ids :=
          match r with
          | CANMessageProcessor.InvalidCanId _ => S (CANMessageProcessor.invalid_ids p)
          | _ => CANMessageProcessor.invalid_ids p
          end;
        CANMessageProcessor.invalid_data :=
          match r with
          | CANMessageProcessor.InvalidDataLength _ => S (CANMessageProcessor.invalid_data p)
          | _ => CANMessageProcessor.invalid_data p
          end;
        CANMessageProcessor.by_id := CANMessageProcessor.by_id p |}).
Proof.
  intros Hv after. subst after.
  unfold EnhancedWSL2SocketServer.process_incoming_message,
    CANMessageProcessor.process_message.
  cbn [EnhancedWSL2SocketServer.with_stats EnhancedWSL2SocketServer.processor].
  destruct (CANMessageProcessor.first_missing data CANMessageProcessor.required_fields)
    as [field|] eqn:E.
  - rewrite (verdict_missing _ _ E) in Hv. injection Hv as <-.
    unfold CANMessageProcessor.validate_message. rewrite E.
    repeat split; reflexivity.
  - apply first_missing_none in E. destruct E as (id & payload & d & ->).
    rewrite verdict_fields in Hv. rewrite validate_message_fields.
    destruct (negb ((0 <=? id) && (id <=? 2047)));
      [injection Hv as <-; repeat split; reflexivity|].
    destruct (negb ((0 <=? d) && (d <=? 8)));
      [injection Hv as <-; repeat split; reflexivity|].
    destruct (negb (length payload =? 8)%nat);
      [injection Hv as <-; repeat split; reflexivity|].
    discriminate.
Qed.

(** An envelope with identifier 0x800 on a server that serves a client. *)
Lemma invalid_envelope_dropped_witness :
  let srv := serving in
  let data := envelope 0x800 [1; 50; 60; 0; 0; 0; 0; 0] 8 in
  let after := EnhancedWSL2SocketServer.process_incoming_message calm srv (Some data) in
  EnhancedWSL2SocketServer.can_bus after = EnhancedWSL2SocketServer.can_bus srv /\
  EnhancedWSL2SocketServer.forwarder after = EnhancedWSL2SocketServer.forwarder srv /\
  EnhancedWSL2SocketServer.client_connected after
    = EnhancedWSL2SocketServer.client_connected srv /\
  EnhancedWSL2SocketServer.running after = EnhancedWSL2SocketServer.running srv /\
  EnhancedWSL2SocketServer.stats after
    = EnhancedWSL2SocketServer.count_message (EnhancedWSL2SocketServer.stats srv) /\
  EnhancedWSL2SocketServer.processor after =
    {| CANMessageProcessor.total_received := 1;
       CANMessageProcessor.total_sent := 0;
       CANMessageProcessor.invalid_ids := 1;
       CANMessageProcessor.invalid_data := 0;
       CANMessageProcessor.by_id := ∅ |}.
Proof.
  exact (invalid_envelope_dropped calm serving
           (envelope 0x800 [1; 50; 60; 0; 0; 0; 0; 0] 8)
           (CANMessageProcessor.InvalidCanId 0x800) eq_refl).
Defined.

(** A valid envelope, by contrast, reaches the bus and the subscribers. *)
Lemma valid_envelope_forwarded :
  let after := EnhancedWSL2SocketServer.process_incoming_message calm serving
                 (Some (envelope 0x100 [1; 50; 60; 0; 0; 0; 0; 0] 8)) in
  length (EnhancedWSL2SocketServer.can_bus after) = 1%nat /\
  length (CANForwarder.published (EnhancedWSL2SocketServer.forwarder after)) = 1%nat /\
  length (CANForwarder.message_queue (EnhancedWSL2SocketServer.forwarder after)) = 1%nat.
Proof. vm_compute. repeat split; reflexivity. Qed.

(** ** The simple controller's guard *)

(** C10: [process_message] of the simple controller returns before decoding
    when [can_id] is 0 (or missing) or [can_data] is empty (or missing): the
    message is counted as received, no error is counted, nothing is decoded
    and no VSS entry is produced; yet identifier 0 passes the validator's
    identifier rule. *)
Theorem zero_identifier_dropped
    (now : PyVal) (st : SimpleZonalController.Stats) (data : SimpleZonalController.Incoming) :
  SimpleZonalController.can_id data = Some 0 \/ SimpleZonalController.can_id data = None \/
  SimpleZonalController.can_data data = Some [] \/ SimpleZonalController.can_data data = None ->
  SimpleZonalController.process_message now st data
    = ({| SimpleZonalController.messages_received :=
            S (SimpleZonalController.messages_received st);
          SimpleZonalController.errors := SimpleZonalController.errors st |}, None)
  /\ (forall payload d, 0 <= d <= 8 -> length payload = 8%nat ->
        verdict (envelope 0 payload d) = inl (0, payload, d)).
Proof.
  intros H. split.
  - unfold SimpleZonalController.process_message.
    destruct data as [id payload]. cbn in H |- *.
    destruct H as [-> | [-> | [-> | ->]]]; cbn; try reflexivity.
    + destruct id as [z|]; cbn; [destruct (negb (z =? 0))|]; reflexivity.
    + destruct id as [z|]; cbn; [destruct (negb (z =? 0))|]; reflexivity.
  - intros payload d Hd Hp. rewrite verdict_fields.
    apply range_check in Hd. rewrite Hd, Hp. reflexivity.
Qed.

(** A well-formed payload under identifier 0. *)
Lemma zero_identifier_dropped_witness :
  SimpleZonalController.process_message (PFloat 0)
    {| SimpleZonalController.messages_received := 0; SimpleZonalController.errors := 0 |}
    {| SimpleZonalController.can_id := Some 0;
       SimpleZonalController.can_data := Some [1; 50; 60; 0; 0; 0; 0; 0] |}
    = ({| SimpleZonalController.messages_received := 1;
          SimpleZonalController.errors := 0 |}, None)
  /\ (forall payload d, 0 <= d <= 8 -> length payload = 8%nat ->
        verdict (envelope 0 payload d) = inl (0, payload, d)).
Proof.
  apply (zero_identifier_dropped (PFloat 0)
           {| SimpleZonalController.messages_received := 0;
              SimpleZonalController.errors := 0 |}
           {| SimpleZonalController.can_id := Some 0;
              SimpleZonalController.can_data := Some [1; 50; 60; 0; 0; 0; 0; 0] |}).
  left. reflexivity.
Defined.

(** The same payload under identifier 0x100 is decoded and mapped. *)
Lemma nonzero_identifier_processed :
  exists decoded vss,
    snd (SimpleZonalController.process_message (PFloat 0)
           {| SimpleZonalController.messages_received := 0; SimpleZonalController.errors := 0 |}
           {| SimpleZonalController.can_id := Some 0x100;
              SimpleZonalController.can_data := Some [1; 50; 60; 0; 0; 0; 0; 0] |})
    = Some (decoded, vss) /\ length decoded = 8%nat /\ length vss = 4%nat.
Proof. do 2 eexists. vm_compute. repeat split; reflexivity. Qed.

(** ** Manual decode against the declarative layout *)

Lemma land_pow2_testbit b k :
  0 <= k -> negb (Z.land b (2 ^ k) =? 0) = Z.testbit b k.
Proof.
  intros Hk.
  assert (H : Z.land b (2 ^ k) = if Z.testbit b k then 2 ^ k else 0).
  { apply Z.bits_inj'. intros n Hn.
    rewrite Z.land_spec, Z.pow2_bits_eqb by lia.
    destruct (Z.eqb_spec k n) as [<- | Hne].
    - destruct (Z.testbit b k) eqn:E; cbn.
      + rewrite Z.pow2_bits_true by lia. reflexivity.
      + rewrite Z.bits_0. reflexivity.
    - rewrite andb_false_r.
      destruct (Z.testbit b k).
      + rewrite Z.pow2_bits_false by lia. reflexivity.
      + rewrite Z.bits_0. reflexivity. }
  rewrite H. destruct (Z.testbit b k); [|reflexivity].
  destruct (Z.eqb_spec (2 ^ k) 0) as [E | _]; [|reflexivity].
  pose proof (Z.pow_pos_nonneg 2 k ltac:(lia) Hk). lia.
Qed.

Section LayoutFacts.
Import DBCManager.

Lemma frame_bits_cons b rest : frame_bits (b :: rest) = b + 256 * frame_bits rest.
Proof. reflexivity. Qed.

(** A one-bit signal inside byte 0. *)
Lemma extract_flag k_name k b0 rest :
  (k < 8)%nat -> 0 <= b0 < 256 ->
  extract_raw (flag_signal k_name k) (b0 :: rest) = Z.b2z (Z.testbit b0 (Z.of_nat k)).
Proof.
  intros Hk Hb. unfold extract_raw.
  cbn [flag_signal sig_start sig_length is_signed andb]. rewrite frame_bits_cons.
  change (Z.of_nat 1) with 1. rewrite Z.land_ones by lia.
  rewrite Z.shiftr_div_pow2 by lia. change (2 ^ 1) with 2.
  rewrite <- Z.testbit_spec' by lia. f_equal.
  assert (E : (b0 + 256 * frame_bits rest) mod 2 ^ 8 = b0).
  { change (2 ^ 8) with 256. generalize (frame_bits rest). intros r.
    Z.to_euclidean_division_equations. lia. }
  rewrite <- E at 2. symmetry. apply Z.mod_pow2_bits_low. lia.
Qed.

(** The eight-bit signal that fills byte 1. *)
Lemma extract_byte1 k_name u b0 b1 rest :
  0 <= b0 < 256 -> 0 <= b1 < 256 ->
  extract_raw (byte_signal k_name 8 u) (b0 :: b1 :: rest) = b1.
Proof.
  intros H0 H1. unfold extract_raw.
  cbn [byte_signal sig_start sig_length is_signed andb]. rewrite !frame_bits_cons.
  change (Z.of_nat 8) with 8. rewrite Z.land_ones by lia.
  rewrite Z.shiftr_div_pow2 by lia. change (2 ^ 8) with 256.
  generalize (frame_bits rest). intros r.
  Z.to_euclidean_division_equations. lia.
Qed.

(** The eight-bit signal that fills byte 2. *)
Lemma extract_byte2 k_name u b0 b1 b2 rest :
  0 <= b0 < 256 -> 0 <= b1 < 256 -> 0 <= b2 < 256 ->
  extract_raw (byte_signal k_name 16 u) (b0 :: b1 :: b2 :: rest) = b2.
Proof.
  intros H0 H1 H2. unfold extract_raw.
  cbn [byte_signal sig_start sig_length is_signed andb]. rewrite !frame_bits_cons.
  change (Z.of_nat 16) with 16. change (Z.of_nat 8) with 8.
  rewrite Z.land_ones by lia.
  rewrite Z.shiftr_div_pow2 by lia. change (2 ^ 8) with 256. change (2 ^ 16) with 65536.
  generalize (frame_bits rest). intros r.
  Z.to_euclidean_division_equations. lia.
Qed.

(** The manual decode of a frame of at least three bytes. *)
Lemma manual_decode_closed b0 b1 b2 rest msg_def :
  manual_decode 0x100 (b0 :: b1 :: b2 :: rest) msg_def =
    [ ("headLamp", PBool (Z.testbit b0 0));
      ("tailLamp", PBool (Z.testbit b0 1));
      ("brakeLamp", PBool (Z.testbit b0 2));
      ("indicatorLeft", PBool (Z.testbit b0 3));
      ("indicatorRight", PBool (Z.testbit b0 4));
      ("lightLevel", PInt b1);
      ("vehicleSpeed", PInt b2) ].
Proof.
  unfold manual_decode. cbn [Z.eqb Pos.eqb length Nat.leb nth app truthy].
  rewrite <- (land_pow2_testbit b0 0), <- (land_pow2_testbit b0 1),
    <- (land_pow2_testbit b0 2), <- (land_pow2_testbit b0 3),
    <- (land_pow2_testbit b0 4) by lia.
  reflexivity.
Qed.

(** The declarative decode of a frame of eight bytes. *)
Lemma layout_decode_closed b0 b1 b2 rest n :
  0 <= b0 < 256 -> 0 <= b1 < 256 -> 0 <= b2 < 256 -> (3 <= n)%nat ->
  layout_decode light_control_msg (b0 :: b1 :: b2 :: rest) n =
    [ ("headLamp", PInt (Z.b2z (Z.testbit b0 0)));
      ("tailLamp", PInt (Z.b2z (Z.testbit b0 1)));
      ("brakeLamp", PInt (Z.b2z (Z.testbit b0 2)));
      ("indicatorLeft", PInt (Z.b2z (Z.testbit b0 3)));
      ("indicatorRight", PInt (Z.b2z (Z.testbit b0 4)));
      ("lightLevel", PInt b1);
      ("vehicleSpeed", PInt b2) ].
Proof.
  intros H0 H1 H2 Hn.
  unfold layout_decode, light_control_msg. cbn [signals omap list_omap].
  cbn [flag_signal byte_signal sig_start sig_length sig_name scale offset].
  repeat match goal with
         | |- context [(?a + ?b <=? n * 8)%nat] =>
             replace (a + b <=? n * 8)%nat with true by (symmetry; apply Nat.leb_le; lia)
         end.
  rewrite !Z.mul_1_r, !Z.add_0_r.
  rewrite !extract_flag by (lia || assumption).
  rewrite extract_byte1, extract_byte2 by assumption.
  reflexivity.
Qed.

(** The manual decode and the declarative decode agree on every frame of
    eight bytes: same names, same order, values equal under [==] (the
    flags are [True]/[False] on one side and 1/0 on the other). *)
Lemma manual_agrees_with_layout payload :
  length payload = 8%nat -> forallb is_byte payload = true ->
  same_mapping (manual_decode 0x100 payload light_control_msg)
               (layout_decode light_control_msg payload 8).
Proof.
  intros Hlen Hbytes.
  destruct payload as [| b0 [| b1 [| b2 rest]]]; try discriminate Hlen.
  cbn [forallb] in Hbytes.
  apply andb_true_iff in Hbytes as [B0 Hbytes].
  apply andb_true_iff in Hbytes as [B1 Hbytes].
  apply andb_true_iff in Hbytes as [B2 _].
  apply is_byte_spec in B0, B1, B2.
  rewrite manual_decode_closed, layout_decode_closed by lia.
  unfold same_mapping.
  repeat (constructor; [split; [reflexivity|]|]); try constructor; cbn [snd];
    unfold py_eq; cbn [py_num]; try (apply Qeq_bool_iff; reflexivity);
    destruct (Z.testbit b0 _); reflexivity.
Qed.

Lemma find_light_control : find_message virtual_database 0x100 = Some light_control_msg.
Proof. reflexivity. Qed.

Lemma pad8_short data :
  (length data < 8)%nat -> pad8 data = data ++ replicate (8 - length data) 0.
Proof.
  intros H. unfold pad8. apply Nat.ltb_lt in H. rewrite H. reflexivity.
Qed.

Lemma pad8_length data : (length data <= 8)%nat -> length (pad8 data) = 8%nat.
Proof.
  intros H. unfold pad8. destruct (Nat.ltb_spec (length data) 8).
  - rewrite length_app, length_replicate. lia.
  - lia.
Qed.

Lemma pad8_idempotent data : pad8 (pad8 data) = pad8 data.
Proof.
  unfold pad8 at 1. destruct (Nat.ltb_spec (length (pad8 data)) 8) as [H|H]; [|reflexivity].
  exfalso. unfold pad8 in H. destruct (Nat.ltb_spec (length data) 8).
  - rewrite length_app, length_replicate in H. lia.
  - lia.
Qed.

Lemma pad8_bytes data : forallb is_byte data = true -> forallb is_byte (pad8 data) = true.
Proof.
  intros H. unfold pad8. destruct (length data <? 8)%nat; [|exact H].
  rewrite forallb_app, H. cbn [andb].
  apply forallb_forall. intros x Hx. apply list_elem_of_In, elem_of_replicate in Hx.
  destruct Hx as [-> _]. reflexivity.
Qed.

(** Decoding a frame is decoding its zero-padded extension. *)
Lemma decode_message_pad8 lib messages now can_id data :
  decode_message lib messages now can_id data
  = decode_message lib messages now can_id (pad8 data).
Proof. unfold decode_message. rewrite pad8_idempotent. reflexivity. Qed.

End LayoutFacts.

(** C4: on every 8-byte payload the hard-coded manual decode of identifier
    0x100 and the decode against the declarative light-control layout give
    the same mapping from signal names to values: the same seven names in
    the same order, each with equal values (a flag is [True]/[False] in the
    manual decode and the integer 1/0 in the declarative one, which Python
    compares equal). *)
Theorem manual_decode_matches_layout (payload : list Z) :
  length payload = 8%nat -> forallb is_byte payload = true ->
  same_mapping (DBCManager.manual_decode 0x100 payload DBCManager.light_control_msg)
               (DBCManager.layout_decode DBCManager.light_control_msg payload 8) /\
  DBCManager.table_decode DBCManager.virtual_database 0x100 payload
    = Some (DBCManager.layout_decode DBCManager.light_control_msg payload 8) /\
  dict_keys (DBCManager.manual_decode 0x100 payload DBCManager.light_control_msg)
    = light_control_names.
Proof.
  intros Hlen Hbytes. split; [|split].
  - apply manual_agrees_with_layout; assumption.
  - unfold DBCManager.table_decode. rewrite find_light_control.
    cbn [mbind option_bind]. rewrite Hlen. reflexivity.
  - destruct payload as [| b0 [| b1 [| b2 rest]]]; try discriminate Hlen.
    rewrite manual_decode_closed. reflexivity.
Qed.

(** The two decodes on a payload with flags, levels and trailing bytes set. *)
Lemma manual_decode_matches_layout_witness :
  same_mapping
    (DBCManager.manual_decode 0x100 [21; 50; 60; 1; 44; 0; 0; 255] DBCManager.light_control_msg)
    (DBCManager.layout_decode DBCManager.light_control_msg [21; 50; 60; 1; 44; 0; 0; 255] 8) /\
  DBCManager.table_decode DBCManager.virtual_database 0x100 [21; 50; 60; 1; 44; 0; 0; 255]
    = Some (DBCManager.layout_decode DBCManager.light_control_msg
              [21; 50; 60; 1; 44; 0; 0; 255] 8) /\
  dict_keys (DBCManager.manual_decode 0x100 [21; 50; 60; 1; 44; 0; 0; 255]
               DBCManager.light_control_msg)
    = light_control_names.
Proof.
  apply (manual_decode_matches_layout [21; 50; 60; 1; 44; 0; 0; 255]); reflexivity.
Defined.

(** ** Frames shorter than eight bytes *)

(** C2, as stated, fails: a one-byte frame is decoded with [lightLevel]
    and [vehicleSpeed] reported although their bits lie beyond the first
    byte, on the manual path and on the table-driven path alike. *)
Lemma short_frame_not_omitted :
  ~ omits_absent_signals DBCManager.decode_raises (PFloat 0) [1] /\
  ~ omits_absent_signals (DBCManager.table_decode DBCManager.virtual_database) (PFloat 0) [1].
Proof.
  split; intros H.
  - specialize (H _ (DBCManager.byte_signal "lightLevel" 8 "%") eq_refl).
    cbn [DBCManager.light_control_msg DBCManager.signals In] in H.
    specialize (H ltac:(tauto) ltac:(cbn; lia)).
    vm_compute in H. discriminate H.
  - specialize (H _ (DBCManager.byte_signal "lightLevel" 8 "%") eq_refl).
    cbn [DBCManager.light_control_msg DBCManager.signals In] in H.
    specialize (H ltac:(tauto) ltac:(cbn; lia)).
    vm_compute in H. discriminate H.
Qed.

Section ShortFrames.
Import DBCManager.

Lemma make_signals_light_control v0 v1 v2 v3 v4 v5 v6 :
  make_signals light_control_msg
    [ ("headLamp", v0); ("tailLamp", v1); ("brakeLamp", v2); ("indicatorLeft", v3);
      ("indicatorRight", v4); ("lightLevel", v5); ("vehicleSpeed", v6) ]
  = [ decoded_signal "headLamp" v0 "" 1; decoded_signal "tailLamp" v1 "" 1;
      decoded_signal "brakeLamp" v2 "" 1; decoded_signal "indicatorLeft" v3 "" 1;
      decoded_signal "indicatorRight" v4 "" 1; decoded_signal "lightLevel" v5 "%" 255;
      decoded_signal "vehicleSpeed" v6 "km/h" 255 ].
Proof. reflexivity. Qed.

(** The signals reported for an 8-byte frame of identifier 0x100 on the
    virtual database, on either decode path. *)
Lemma decode_virtual_closed lib now b0 b1 b2 rest :
  lib = decode_raises \/ lib = table_decode virtual_database ->
  length (b0 :: b1 :: b2 :: rest) = 8%nat ->
  0 <= b0 < 256 -> 0 <= b1 < 256 -> 0 <= b2 < 256 ->
  exists msg v0 v1 v2 v3 v4 v5 v6,
    decode_message lib virtual_database now 0x100 (b0 :: b1 :: b2 :: rest) = Some msg /\
    dlc msg = 8%nat /\ raw_data msg = b0 :: b1 :: b2 :: rest /\
    signals_of msg =
      [ decoded_signal "headLamp" v0 "" 1; decoded_signal "tailLamp" v1 "" 1;
        decoded_signal "brakeLamp" v2 "" 1; decoded_signal "indicatorLeft" v3 "" 1;
        decoded_signal "indicatorRight" v4 "" 1; decoded_signal "lightLevel" v5 "%" 255;
        decoded_signal "vehicleSpeed" v6 "km/h" 255 ] /\
    py_eq v0 (PInt (Z.b2z (Z.testbit b0 0))) = true /\
    py_eq v1 (PInt (Z.b2z (Z.testbit b0 1))) = true /\
    py_eq v2 (PInt (Z.b2z (Z.testbit b0 2))) = true /\
    py_eq v3 (PInt (Z.b2z (Z.testbit b0 3))) = true /\
    py_eq v4 (PInt (Z.b2z (Z.testbit b0 4))) = true /\
    py_eq v5 (PInt b1) = true /\ py_eq v6 (PInt b2) = true.
Proof.
  intros Hlib Hlen H0 H1 H2.
  assert (Hpad : pad8 (b0 :: b1 :: b2 :: rest) = b0 :: b1 :: b2 :: rest).
  { unfold pad8. rewrite Hlen. reflexivity. }
  unfold decode_message. rewrite Hpad, find_light_control, Hlen.
  assert (Hq : forall z, Qeq_bool (inject_Z z) (inject_Z z) = true).
  { intros z. apply Qeq_bool_iff. reflexivity. }
  destruct Hlib as [-> | ->].
  - unfold decode_raises. rewrite manual_decode_closed, make_signals_light_control.
    do 8 eexists. split; [reflexivity|]. split; [reflexivity|]. split; [reflexivity|].
    split; [reflexivity|].
    repeat split; unfold py_eq; cbn [py_num]; apply Hq.
  - unfold table_decode. rewrite find_light_control. cbn [mbind option_bind].
    rewrite layout_decode_closed by (assumption || lia).
    rewrite make_signals_light_control.
    do 8 eexists. split; [reflexivity|]. split; [reflexivity|]. split; [reflexivity|].
    split; [reflexivity|].
    repeat split; unfold py_eq; cbn [py_num]; apply Hq.
Qed.

End ShortFrames.

(** C2 (amended): [decode_message] pads a frame shorter than eight bytes
    with zero bytes before decoding, so the frame decodes exactly as its
    zero-padded 8-byte extension.  On the virtual database, on the manual
    path and on the table-driven path alike, the decoded message has length
    8 and reports all seven signals of the 0x100 layout, and every signal
    whose bits lie beyond the received bytes is reported with value zero. *)
Theorem short_frame_zero_filled (now : PyVal) (data : list Z) :
  (length data < 8)%nat -> forallb is_byte data = true ->
  (forall lib messages can_id,
      DBCManager.decode_message lib messages now can_id data
      = DBCManager.decode_message lib messages now can_id
          (data ++ replicate (8 - length data) 0)) /\
  (forall lib,
      lib = DBCManager.decode_raises \/
      lib = DBCManager.table_decode DBCManager.virtual_database ->
      exists msg,
        DBCManager.decode_message lib DBCManager.virtual_database now 0x100 data = Some msg /\
        DBCManager.dlc msg = 8%nat /\
        DBCManager.raw_data msg = data ++ replicate (8 - length data) 0 /\
        map DBCManager.name (DBCManager.signals_of msg) = light_control_names /\
        forall s,
          In s (DBCManager.signals DBCManager.light_control_msg) ->
          (length data * 8 <= DBCManager.sig_start s)%nat ->
          exists v, signal_value msg (DBCManager.sig_name s) = Some v /\
                    py_eq v (PInt 0) = true).
Proof.
  intros Hlen Hbytes. split.
  - intros lib messages can_id.
    rewrite decode_message_pad8, pad8_short by exact Hlen. reflexivity.
  - intros lib Hlib.
    rewrite decode_message_pad8.
    pose proof (pad8_length data ltac:(lia)) as Hplen.
    pose proof (pad8_bytes data Hbytes) as Hpbytes.
    pose proof (pad8_short data Hlen) as Hpad.
    destruct (DBCManager.pad8 data) as [| b0 [| b1 [| b2 rest]]] eqn:Ep; try discriminate Hplen.
    cbn [forallb] in Hpbytes.
    apply andb_true_iff in Hpbytes as [B0 Hpbytes].
    apply andb_true_iff in Hpbytes as [B1 Hpbytes].
    apply andb_true_iff in Hpbytes as [B2 _].
    apply is_byte_spec in B0, B1, B2.
    destruct (decode_virtual_closed lib now b0 b1 b2 rest Hlib Hplen B0 B1 B2)
      as (msg & v0 & v1 & v2 & v3 & v4 & v5 & v6 & Hdec & Hdlc & Hraw & Hsigs
          & E0 & E1 & E2 & E3 & E4 & E5 & E6).
    exists msg. split; [exact Hdec|]. split; [exact Hdlc|].
    split; [rewrite Hraw; exact Hpad|].
    split; [rewrite Hsigs; reflexivity|].
    intros s Hin Hbeyond.
    unfold signal_value. rewrite Hsigs.
    cbn [DBCManager.light_control_msg DBCManager.signals In] in Hin.
    assert (Hb0 : length data = 0%nat -> b0 = 0).
    { intros Hz. destruct data; [|discriminate Hz]. cbn in Hpad. congruence. }
    assert (Hb1 : (length data <= 1)%nat -> b1 = 0).
    { intros Hz. destruct data as [| a [| b data']]; cbn in Hz, Hpad; try lia; congruence. }
    assert (Hb2 : (length data <= 2)%nat -> b2 = 0).
    { intros Hz. destruct data as [| a [| b [| c data']]]; cbn in Hz, Hpad; try lia; congruence. }
    repeat (destruct Hin as [<- | Hin]); try destruct Hin;
      cbn [DBCManager.flag_signal DBCManager.byte_signal DBCManager.sig_start
             DBCManager.sig_name] in Hbeyond |- *;
      (eexists; split; [reflexivity|]); cbn [DBCManager.value decoded_signal].
    1-5: rewrite Hb0 in * by lia; assumption.
    + rewrite Hb1 in * by lia; assumption.
    + rewrite Hb2 in * by lia; assumption.
Qed.

(** The one-byte frame [1]. *)
Lemma short_frame_zero_filled_witness :
  (forall lib messages can_id,
      DBCManager.decode_message lib messages (PFloat 0) can_id [1]
      = DBCManager.decode_message lib messages (PFloat 0) can_id
          ([1] ++ replicate (8 - length [1]) 0)) /\
  (forall lib,
      lib = DBCManager.decode_raises \/
      lib = DBCManager.table_decode DBCManager.virtual_database ->
      exists msg,
        DBCManager.decode_message lib DBCManager.virtual_database (PFloat 0) 0x100 [1]
          = Some msg /\
        DBCManager.dlc msg = 8%nat /\
        DBCManager.raw_data msg = [1] ++ replicate (8 - length [1]) 0 /\
        map DBCManager.name (DBCManager.signals_of msg) = light_control_names /\
        forall s,
          In s (DBCManager.signals DBCManager.light_control_msg) ->
          (length [1] * 8 <= DBCManager.sig_start s)%nat ->
          exists v, signal_value msg (DBCManager.sig_name s) = Some v /\
                    py_eq v (PInt 0) = true).
Proof.
  apply (short_frame_zero_filled (PFloat 0) [1]); [cbn; lia | reflexivity].
Defined.

(** Applied to the unpadded bytes, [manual_decode] leaves out the signals
    whose byte is missing. *)
Lemma manual_decode_unpadded :
  dict_keys (DBCManager.manual_decode 0x100 [1] DBCManager.light_control_msg)
    = ["headLamp"; "tailLamp"; "brakeLamp"; "indicatorLeft"; "indicatorRight"].
Proof. reflexivity. Qed.

(** ** VSS mapping *)

Section MapperFacts.
Import VSSMapper.

(** Signals without a mapping entry do not take part in the mapping. *)
Lemma map_signals_filter mapping can_msg sigs :
  map_signals mapping can_msg sigs
  = map_signals mapping can_msg
      (List.filter (fun s => bool_decide (is_Some (mapping !! DBCManager.name s))) sigs).
Proof.
  induction sigs as [| s sigs IH]; [reflexivity|].
  cbn [map_signals List.filter].
  destruct (mapping !! DBCManager.name s) as [cfg|] eqn:E.
  - rewrite bool_decide_eq_true_2 by (eexists; reflexivity).
    cbn [map_signals]. rewrite E, IH. reflexivity.
  - rewrite bool_decide_eq_false_2 by (intros [? [=]]). exact IH.
Qed.

Lemma map_signals_unmapped mapping can_msg sigs :
  (forall s, In s sigs -> mapping !! DBCManager.name s = None) ->
  map_signals mapping can_msg sigs = Some [].
Proof.
  induction sigs as [| s sigs IH]; intros H; [reflexivity|].
  cbn [map_signals]. rewrite (H s) by (left; reflexivity).
  apply IH. intros s' Hs'. apply H. right. exact Hs'.
Qed.

(** [map_signals] does not look at the signals of the message itself. *)
Lemma map_signals_msg mapping m1 m2 sigs :
  DBCManager.timestamp m1 = DBCManager.timestamp m2 ->
  map_signals mapping m1 sigs = map_signals mapping m2 sigs.
Proof.
  intros Ht. induction sigs as [| s sigs IH]; [reflexivity|].
  cbn [map_signals]. rewrite IH. unfold map_signal. rewrite Ht. reflexivity.
Qed.

End MapperFacts.

(** C8: under the built-in mapping a decoded signal [lightLevel] of value
    80 for identifier 0x100 yields exactly one VSS sample, with path
    [Vehicle.Body.Lights.AmbientLight] and value 80 (the float 80.0 after the
    identity conversion).  Under any mapping table, the signals that have no
    (identifier, name) entry yield no sample and raise nothing: the result
    is that of the message stripped of them, and it is the empty list when
    no signal of the message has an entry. *)
Theorem vss_mapping_lightlevel_and_unmapped :
  (forall (msg : DBCManager.CANMessage) (s : DBCManager.CANSignal),
      DBCManager.can_id msg = 0x100 ->
      DBCManager.signals_of msg = [s] ->
      DBCManager.name s = "lightLevel" ->
      DBCManager.value s = PInt 80 ->
      exists sample,
        VSSMapper.map_can_to_vss (VSSMapper.load_mappings None) msg = Some [sample] /\
        VSSMapper.path sample = "Vehicle.Body.Lights.AmbientLight" /\
        VSSMapper.value sample = PFloat 80 /\
        py_eq (VSSMapper.value sample) (PInt 80) = true) /\
  (forall mappings (msg : DBCManager.CANMessage),
      VSSMapper.map_can_to_vss mappings msg
      = VSSMapper.map_can_to_vss mappings (keep_mapped mappings msg)) /\
  (forall mappings (msg : DBCManager.CANMessage),
      (forall s, In s (DBCManager.signals_of msg) ->
                 mapped mappings (DBCManager.can_id msg) s = false) ->
      VSSMapper.map_can_to_vss mappings msg = Some []).
Proof.
  split; [|split].
  - intros msg s Hid Hsigs Hname Hval.
    unfold VSSMapper.map_can_to_vss. rewrite Hid, Hsigs.
    change (VSSMapper.load_mappings None !! 256) with
      (VSSMapper.default_mappings !! 256).
    unfold VSSMapper.default_mappings. rewrite lookup_singleton_eq.
    cbn [VSSMapper.map_signals]. rewrite Hname.
    rewrite lookup_insert_ne by discriminate.
    rewrite lookup_insert_ne by discriminate.
    rewrite lookup_insert_ne by discriminate.
    rewrite lookup_insert_ne by discriminate.
    rewrite lookup_insert_ne by discriminate.
    rewrite lookup_insert_eq.
    unfold VSSMapper.map_signal, VSSMapper.entry.
    cbn [VSSMapper.conversion VSSMapper.vss_path]. rewrite Hval.
    eexists. split; [reflexivity|]. repeat split; reflexivity.
  - intros mappings msg. unfold VSSMapper.map_can_to_vss, keep_mapped, mapped.
    cbn [DBCManager.can_id DBCManager.signals_of].
    destruct (mappings !! DBCManager.can_id msg) as [mapping|]; [|reflexivity].
    rewrite map_signals_filter.
    apply map_signals_msg. reflexivity.
  - intros mappings msg H. unfold VSSMapper.map_can_to_vss.
    destruct (mappings !! DBCManager.can_id msg) as [mapping|] eqn:E; [|reflexivity].
    apply map_signals_unmapped. intros s Hs.
    specialize (H s Hs). unfold mapped in H. rewrite E in H.
    apply bool_decide_eq_false in H.
    destruct (mapping !! DBCManager.name s); [|reflexivity].
    exfalso. apply H. eexists. reflexivity.
Qed.

(** A frame decoded on the virtual database and mapped with the built-in
    table: every reported signal has an entry. *)
Lemma vss_mapping_sample_frame :
  (msg ← DBCManager.decode_message DBCManager.decode_raises DBCManager.virtual_database
           (PFloat 0) 0x100 [1; 80; 60; 0; 0; 0; 0; 0];
   samples ← VSSMapper.map_can_to_vss (VSSMapper.load_mappings None) msg;
   Some (map (fun v => (VSSMapper.path v, VSSMapper.value v)) samples))
  = Some [ ("Vehicle.Body.Lights.IsHighBeamOn", PBool true);
           ("Vehicle.Body.Lights.IsTailLightOn", PBool false);
           ("Vehicle.Body.Lights.IsBrakeLightOn", PBool false);
           ("Vehicle.Body.Lights.IsLeftIndicatorOn", PBool false);
           ("Vehicle.Body.Lights.IsRightIndicatorOn", PBool false);
           ("Vehicle.Body.Lights.AmbientLight", PFloat 80);
           ("Vehicle.Speed", PFloat 60) ].
Proof. vm_compute. reflexivity. Qed.

(** A signal without an entry: [ambient] is not in the built-in table. *)
Lemma vss_mapping_unmapped_signal :
  VSSMapper.map_can_to_vss (VSSMapper.load_mappings None)
    (decoded_message 0x100 [decoded_signal "ambient" (PInt 300) "" 65535;
                            decoded_signal "lightLevel" (PInt 80) "%" 255])
  = VSSMapper.map_can_to_vss (VSSMapper.load_mappings None)
      (decoded_message 0x100 [decoded_signal "lightLevel" (PInt 80) "%" 255])
  /\ VSSMapper.map_can_to_vss (VSSMapper.load_mappings None)
       (decoded_message 0x101 [decoded_signal "lightLevel" (PInt 80) "%" 255])
     = Some [].
Proof. vm_compute. split; reflexivity. Qed.

(** ** The stream framer *)

Section FramerFacts.
Import Framer.

Lemma split_newline_some buffer message rest :
  split_newline buffer = Some (message, rest) ->
  buffer = message ++ newline :: rest /\ ~ In newline message.
Proof.
  revert message. induction buffer as [| c buffer IH]; intros message H; [discriminate|].
  cbn in H. destruct (N.eqb_spec c newline) as [-> | Hne].
  - injection H as <- <-. split; [reflexivity | intros []].
  - destruct (split_newline buffer) as [[m r]|] eqn:E; [|discriminate].
    injection H as <- <-. destruct (IH m eq_refl) as [-> Hm].
    split; [reflexivity|]. intros [Hc | Hc]; [congruence | exact (Hm Hc)].
Qed.

Lemma split_newline_none buffer :
  split_newline buffer = None <-> ~ In newline buffer.
Proof.
  induction buffer as [| c buffer IH]; cbn.
  - split; [intros _ [] | reflexivity].
  - destruct (N.eqb_spec c newline) as [-> | Hne].
    + split; [discriminate | intros H; exfalso; apply H; left; reflexivity].
    + destruct (split_newline buffer) as [[m r]|].
      * split; [discriminate|]. intros H. exfalso.
        assert (Hn : ~ In newline buffer) by (intros Hc; apply H; right; exact Hc).
        apply IH in Hn. discriminate.
      * split; [|reflexivity]. intros _ [Hc | Hc]; [congruence|].
        destruct IH as [IH _]. exact (IH eq_refl Hc).
Qed.

Lemma split_newline_app message rest :
  ~ In newline message ->
  split_newline (message ++ newline :: rest) = Some (message, rest).
Proof.
  induction message as [| c message IH]; intros H; cbn.
  - reflexivity.
  - destruct (N.eqb_spec c newline) as [-> | Hne].
    + exfalso. apply H. left. reflexivity.
    + rewrite IH; [reflexivity|]. intros Hc. apply H. right. exact Hc.
Qed.

Lemma process_buffer_loop_acc fuel buffer messages :
  process_buffer_loop fuel buffer messages
  = (messages ++ fst (process_buffer_loop fuel buffer []),
     snd (process_buffer_loop fuel buffer [])).
Proof.
  revert buffer messages. induction fuel as [| fuel IH]; intros buffer messages.
  - cbn. rewrite app_nil_r. reflexivity.
  - cbn. destruct (split_newline buffer) as [[m r]|]; [|cbn; rewrite app_nil_r; reflexivity].
    rewrite IH. rewrite (IH r (match strip m with [] => [] | _ :: _ => _ end)).
    cbn [fst snd]. destruct (strip m); cbn [app]; [reflexivity|].
    rewrite <- app_assoc. reflexivity.
Qed.

Lemma process_buffer_loop_fuel fuel fuel' buffer messages :
  (length buffer <= fuel)%nat -> (length buffer <= fuel')%nat ->
  process_buffer_loop fuel buffer messages
  = process_buffer_loop fuel' buffer messages.
Proof.
  revert fuel' buffer messages.
  induction fuel as [| fuel IH]; intros fuel' buffer messages Hlen Hlen'.
  - destruct buffer; [|cbn in Hlen; lia]. destruct fuel'; reflexivity.
  - destruct fuel' as [| fuel'].
    + destruct buffer; [reflexivity | cbn in Hlen'; lia].
    + cbn [process_buffer_loop].
      destruct (split_newline buffer) as [[m r]|] eqn:E; [|reflexivity].
      apply split_newline_some in E as [E _].
      assert (Hr : (length r < length buffer)%nat).
      { rewrite E, length_app. cbn. lia. }
      apply IH; lia.
Qed.

(** [process_buffer] unfolded by one turn of its loop. *)
Lemma process_buffer_step buffer :
  process_buffer buffer =
    match split_newline buffer with
    | None => ([], buffer)
    | Some (line, rest) =>
        (line_message line ++ fst (process_buffer rest), snd (process_buffer rest))
    end.
Proof.
  unfold process_buffer at 1.
  destruct buffer as [| c buffer]; [reflexivity|].
  cbn [length process_buffer_loop].
  destruct (split_newline (c :: buffer)) as [[m r]|] eqn:E; [|reflexivity].
  apply split_newline_some in E as [E _].
  assert (Hr : (length r <= length buffer)%nat).
  { apply (f_equal (@length N)) in E. rewrite length_app in E. cbn in E. lia. }
  rewrite (process_buffer_loop_fuel _ (length r)) by lia.
  rewrite process_buffer_loop_acc. unfold process_buffer, line_message.
  destruct (strip m); reflexivity.
Qed.

(** Induction on the buffer that follows the turns of the loop. *)
Lemma buffer_ind (P : PyStr -> Prop) :
  (forall buffer, split_newline buffer = None -> P buffer) ->
  (forall buffer line rest,
      split_newline buffer = Some (line, rest) -> P rest -> P buffer) ->
  forall buffer, P buffer.
Proof.
  intros Hnone Hsome buffer.
  remember (length buffer) as n eqn:Hn.
  revert buffer Hn. induction n as [n IH] using lt_wf_ind. intros buffer ->.
  destruct (split_newline buffer) as [[m r]|] eqn:E; [|exact (Hnone _ E)].
  apply (Hsome _ _ _ E).
  apply split_newline_some in E as [E _].
  apply (IH (length r)); [|reflexivity].
  rewrite E, length_app. cbn. lia.
Qed.

Lemma lstrip_head s c rest : lstrip s = c :: rest -> is_space c = false.
Proof.
  induction s as [| d s IH]; cbn; [discriminate|].
  destruct (is_space d) eqn:E; [exact IH|]. intros [= <- <-]. exact E.
Qed.

Lemma lstrip_incl s : incl (lstrip s) s.
Proof.
  induction s as [| d s IH]; cbn; [apply incl_refl|].
  destruct (is_space d); [|apply incl_refl].
  intros x Hx. right. apply IH. exact Hx.
Qed.

Lemma lstrip_id s :
  match s with [] => True | c :: _ => is_space c = false end -> lstrip s = s.
Proof. destruct s as [| c s]; cbn; [reflexivity|]. intros ->. reflexivity. Qed.

Lemma strip_incl s : incl (strip s) s.
Proof.
  unfold strip. intros x Hx. apply in_rev in Hx.
  apply lstrip_incl, in_rev in Hx. apply lstrip_incl in Hx. exact Hx.
Qed.

(** A stripped text begins and ends with a character that is no space. *)
Lemma strip_ends s :
  match strip s with [] => True | c :: _ => is_space c = false end /\
  match rev (strip s) with [] => True | c :: _ => is_space c = false end.
Proof.
  unfold strip. rewrite rev_involutive.
  destruct (lstrip (rev (lstrip s))) as [| c t] eqn:E; [split; exact I|].
  split; [|exact (lstrip_head _ _ _ E)].
  destruct (lstrip s) as [| a u] eqn:Ea.
  { cbn in E. discriminate. }
  pose proof (lstrip_head _ _ _ Ea) as Ha.
  (* the first character of the result is [a] *)
  assert (Hlast : exists pre, c :: t = pre ++ [a]).
  { clear - E. revert c t E. cbn [rev].
    generalize (rev u). intros r. induction r as [| x r IH]; intros c t E.
    - cbn in E. destruct (is_space a); [discriminate|]. injection E as <- <-.
      exists []. reflexivity.
    - cbn in E. destruct (is_space x).
      + exact (IH c t E).
      + injection E as <- <-. exists (x :: r). reflexivity. }
  destruct Hlast as [pre ->]. rewrite rev_app_distr. cbn. exact Ha.
Qed.

Lemma strip_id s :
  match s with [] => True | c :: _ => is_space c = false end ->
  match rev s with [] => True | c :: _ => is_space c = false end ->
  strip s = s.
Proof.
  intros H1 H2. unfold strip. rewrite (lstrip_id s H1), (lstrip_id (rev s) H2).
  apply rev_involutive.
Qed.

End FramerFacts.

Section FramerTheorems.
Import Framer.

Lemma line_message_spec line :
  ~ In newline line ->
  Forall (fun m => m <> [] /\ ~ In newline m /\ strip m = m) (line_message line).
Proof.
  intros Hline. unfold line_message.
  destruct (strip line) as [| c s] eqn:E; constructor; [|constructor].
  split; [discriminate|]. split.
  - intros Hin. apply Hline. apply strip_incl. rewrite E. exact Hin.
  - destruct (strip_ends line) as [H1 H2]. rewrite E in H1, H2.
    apply strip_id; assumption.
Qed.

End FramerTheorems.

Lemma process_buffer_wellformed_aux (buffer : Framer.PyStr) :
  ~ In Framer.newline (snd (Framer.process_buffer buffer)) /\
  Forall (fun m => m <> [] /\ ~ In Framer.newline m /\ Framer.strip m = m)
         (fst (Framer.process_buffer buffer)).
Proof.
  induction buffer as [buffer Hnone | buffer line rest Hsome IH] using buffer_ind;
    rewrite process_buffer_step.
  - rewrite Hnone. cbn [fst snd]. split; [|constructor].
    apply split_newline_none. exact Hnone.
  - rewrite Hsome. cbn [fst snd]. destruct IH as [IHr IHm].
    split; [exact IHr|]. apply Forall_app. split; [|exact IHm].
    apply line_message_spec. apply split_newline_some in Hsome. tauto.
Qed.

(** X1: whatever the buffer, the remaining buffer [process_buffer] returns
    holds no newline, and every message it returns is non-empty, holds no
    newline and has no white space left to strip at either end. *)
Theorem process_buffer_wellformed (buffer : Framer.PyStr) :
  ~ In Framer.newline (snd (Framer.process_buffer buffer)) /\
  Forall (fun m => m <> [] /\ ~ In Framer.newline m /\ Framer.strip m = m)
         (fst (Framer.process_buffer buffer)).
Proof. apply process_buffer_wellformed_aux. Qed.

Lemma line_message_id x :
  x <> [] -> Framer.strip x = x -> line_message x = [x].
Proof.
  intros Hne Hs. unfold line_message. rewrite Hs. destruct x; [contradiction | reflexivity].
Qed.

Lemma process_buffer_lines_aux (lines : list Framer.PyStr) (tail : Framer.PyStr) :
  Forall (fun line => ~ In Framer.newline line) lines ->
  ~ In Framer.newline tail ->
  Framer.process_buffer (concat (map (fun line => line ++ [Framer.newline]) lines) ++ tail)
  = (concat (map line_message lines), tail).
Proof.
  intros Hlines Htail. induction Hlines as [| line lines Hline _ IH].
  - cbn [map concat app]. rewrite process_buffer_step.
    apply split_newline_none in Htail. rewrite Htail. reflexivity.
  - cbn [map concat]. rewrite process_buffer_step.
    rewrite <- !app_assoc. cbn [app].
    rewrite split_newline_app by exact Hline.
    rewrite IH. reflexivity.
Qed.

(** X2: a stream made of lines, each ended by a newline and holding none
    inside, followed by an unfinished tail, is cut back into exactly those
    lines: the messages are the stripped lines in order, without the ones
    that are empty or blank, and the tail is kept for the next read. *)
Theorem process_buffer_lines (lines : list Framer.PyStr) (tail : Framer.PyStr) :
  Forall (fun line => ~ In Framer.newline line) lines ->
  ~ In Framer.newline tail ->
  Framer.process_buffer (concat (map (fun line => line ++ [Framer.newline]) lines) ++ tail)
  = (concat (map line_message lines), tail).
Proof. apply process_buffer_lines_aux. Qed.

(** The lines of a frame stream as the bridge writes them. *)
Lemma process_buffer_lines_witness :
  Framer.process_buffer
    (concat (map (fun line => line ++ [Framer.newline])
               [[123; 125]; [32; 9]; [32; 91; 49; 93; 13]]) ++ [123; 34])%N
  = (concat (map line_message [[123; 125]; [32; 9]; [32; 91; 49; 93; 13]]), [123; 34])%N.
Proof.
  apply (process_buffer_lines [[123; 125]; [32; 9]; [32; 91; 49; 93; 13]] [123; 34])%N.
  - repeat constructor; intros H; cbn in H; intuition discriminate.
  - intros H; cbn in H; intuition discriminate.
Defined.

Lemma process_buffer_streaming_aux (data1 data2 : Framer.PyStr) :
  Framer.process_buffer (data1 ++ data2) =
    (fst (Framer.process_buffer data1)
       ++ fst (Framer.process_buffer (snd (Framer.process_buffer data1) ++ data2)),
     snd (Framer.process_buffer (snd (Framer.process_buffer data1) ++ data2))).
Proof.
  induction data1 as [data1 Hnone | data1 line rest Hsome IH] using buffer_ind.
  - rewrite (process_buffer_step data1), Hnone. cbn [fst snd app].
    destruct (Framer.process_buffer (data1 ++ data2)); reflexivity.
  - rewrite (process_buffer_step data1), Hsome. cbn [fst snd].
    rewrite (process_buffer_step (data1 ++ data2)).
    pose proof (split_newline_some _ _ _ Hsome) as [-> Hline].
    rewrite <- app_assoc. cbn [app].
    rewrite split_newline_app by exact Hline.
    rewrite IH. cbn [fst snd]. rewrite app_assoc. reflexivity.
Qed.


(** X3: cutting a stream into two reads changes nothing: the messages of
    the first read followed by those of the second (taken with the tail the
    first one left) are the messages of the whole, and the final tail is the
    same; a message split across the two reads comes out once, whole. *)
Theorem process_buffer_streaming (data1 data2 : Framer.PyStr) :
  Framer.process_buffer (data1 ++ data2) =
    (fst (Framer.process_buffer data1)
       ++ fst (Framer.process_buffer (snd (Framer.process_buffer data1) ++ data2)),
     snd (Framer.process_buffer (snd (Framer.process_buffer data1) ++ data2))).
Proof. apply process_buffer_streaming_aux. Qed.

Section ChunkingFacts.
Import Framer.
Variable loads : PyStr -> option CANMessageProcessor.Envelope.
Variable w : EnhancedWSL2SocketServer.World.

Lemma on_recv_app st data1 data2 :
  on_recv loads w (on_recv loads w st data1) data2 = on_recv loads w st (data1 ++ data2).
Proof.
  destruct st as [srv buffer]. unfold on_recv.
  rewrite app_assoc. rewrite (process_buffer_streaming_aux (buffer ++ data1) data2).
  destruct (process_buffer (buffer ++ data1)) as [m1 r1]. cbn [fst snd].
  destruct (process_buffer (r1 ++ data2)) as [m2 r2]. cbn [fst snd].
  rewrite fold_left_app. reflexivity.
Qed.

Lemma on_recv_nil srv buffer :
  ~ In newline buffer -> on_recv loads w (srv, buffer) [] = (srv, buffer).
Proof.
  intros Hb. unfold on_recv. rewrite app_nil_r, process_buffer_step.
  apply split_newline_none in Hb. rewrite Hb. reflexivity.
Qed.

Lemma on_recv_buffer st data : ~ In newline (snd (on_recv loads w st data)).
Proof.
  destruct st as [srv buffer]. unfold on_recv.
  pose proof (process_buffer_wellformed_aux (buffer ++ data)) as [H _].
  destruct (process_buffer (buffer ++ data)) as [m r]. exact H.
Qed.

Lemma process_incoming_message_flags srv parsed :
  EnhancedWSL2SocketServer.running
    (EnhancedWSL2SocketServer.process_incoming_message w srv parsed)
  = EnhancedWSL2SocketServer.running srv /\
  EnhancedWSL2SocketServer.client_connected
    (EnhancedWSL2SocketServer.process_incoming_message w srv parsed)
  = EnhancedWSL2SocketServer.client_connected srv.
Proof.
  unfold EnhancedWSL2SocketServer.process_incoming_message.
  destruct parsed as [data|]; [|split; reflexivity].
  destruct (CANMessageProcessor.process_message _ data) as [[processed|] pstats];
    [|split; reflexivity].
  unfold EnhancedWSL2SocketServer.send_to_can_bus.
  destruct (forallb is_byte _ && EnhancedWSL2SocketServer.bus_send_ok w); split; reflexivity.
Qed.

Lemma on_recv_flags st data :
  EnhancedWSL2SocketServer.running (fst (on_recv loads w st data))
  = EnhancedWSL2SocketServer.running (fst st) /\
  EnhancedWSL2SocketServer.client_connected (fst (on_recv loads w st data))
  = EnhancedWSL2SocketServer.client_connected (fst st).
Proof.
  destruct st as [srv buffer]. unfold on_recv.
  destruct (process_buffer (buffer ++ data)) as [messages r]. cbn [fst].
  revert srv. induction messages as [| m messages IH]; intros srv; cbn [fold_left].
  - split; reflexivity.
  - destruct (IH (EnhancedWSL2SocketServer.process_incoming_message w srv (loads m)))
      as [-> ->].
    apply process_incoming_message_flags.
Qed.

(** The read loop on reads that bring data: one read of the whole text. *)
Lemma read_loop_chunking c reads :
  EnhancedWSL2SocketServer.running (server c) = true ->
  EnhancedWSL2SocketServer.client_connected (server c) = true ->
  ~ In newline (buffer c) ->
  forallb brings_data reads = true ->
  read_loop loads w c reads
  = {| server := fst (on_recv loads w (server c, buffer c) (received_text reads));
       buffer := snd (on_recv loads w (server c, buffer c) (received_text reads));
       bytes_received := bytes_received c + received_bytes reads |}.
Proof.
  revert c. induction reads as [| r reads IH]; intros c Hrun Hcon Hbuf Hall.
  - cbn [read_loop received_text received_bytes map concat list_sum fold_right].
    rewrite on_recv_nil by exact Hbuf. cbn [fst snd]. rewrite Nat.add_0_r.
    destruct c; reflexivity.
  - cbn [forallb] in Hall. apply andb_true_iff in Hall as [Hr Hall].
    cbn [read_loop]. rewrite Hrun, Hcon. cbn [andb].
    destruct r as [[| len] text | | |]; try discriminate Hr.
    + pose proof (on_recv_flags (server c, buffer c) text) as [Hrun' Hcon'].
      pose proof (on_recv_buffer (server c, buffer c) text) as Hbuf'.
      destruct (on_recv loads w (server c, buffer c) text) as [srv' buffer'] eqn:E.
      cbn [fst snd] in Hrun', Hcon', Hbuf'.
      rewrite IH; cbn [server buffer bytes_received];
        [|congruence|congruence|exact Hbuf'|exact Hall].
      rewrite <- E, on_recv_app.
      unfold received_text, received_bytes. cbn [map concat list_sum fold_right].
      rewrite <- Nat.add_assoc. reflexivity.
    + rewrite IH by assumption.
      unfold received_text, received_bytes. cbn [map concat list_sum fold_right app].
      reflexivity.
Qed.

End ChunkingFacts.

(** X4: what a connection leaves does not depend on how the stream was cut
    into reads.  While the server runs, a sequence of non-empty reads and
    time-outs leaves the server as one read of the whole text would, marks
    the client as disconnected, and adds the bytes of every read to
    [bytes_received]; what follows the last newline is dropped with the
    buffer. *)
Theorem handle_client_chunking
    (loads : Framer.PyStr -> option CANMessageProcessor.Envelope)
    (w : EnhancedWSL2SocketServer.World) (srv : EnhancedWSL2SocketServer.Server)
    (received : nat) (reads : list Framer.Recv) :
  EnhancedWSL2SocketServer.running srv = true ->
  forallb brings_data reads = true ->
  Framer.handle_client loads w srv received reads
  = (Framer.set_client_connected false
       (fst (Framer.on_recv loads w (Framer.set_client_connected true srv, [])
               (received_text reads))),
     (received + received_bytes reads)%nat).
Proof.
  intros Hrun Hall. unfold Framer.handle_client.
  rewrite read_loop_chunking; [reflexivity | exact Hrun | reflexivity | intros [] | exact Hall].
Qed.

(** A message cut in two reads around a time-out. *)
Lemma handle_client_chunking_witness :
  Framer.handle_client (fun _ => None) calm serving 0
    [Framer.Received 1 [123]; Framer.RecvTimeout; Framer.Received 2 [125; 10]]%N
  = (Framer.set_client_connected false
       (fst (Framer.on_recv (fun _ => None) calm (Framer.set_client_connected true serving, [])
               (received_text
                  [Framer.Received 1 [123]; Framer.RecvTimeout;
                   Framer.Received 2 [125; 10]]%N))),
     (0 + received_bytes
            [Framer.Received 1 [123]; Framer.RecvTimeout; Framer.Received 2 [125; 10]]%N)%nat).
Proof.
  apply (handle_client_chunking (fun _ => None) calm serving 0
           [Framer.Received 1 [123]; Framer.RecvTimeout; Framer.Received 2 [125; 10]]%N).
  - reflexivity.
  - reflexivity.
Defined.

Lemma stream_delivers_lines_aux
    (loads : Framer.PyStr -> option CANMessageProcessor.Envelope)
    (w : EnhancedWSL2SocketServer.World) (srv : EnhancedWSL2SocketServer.Server)
    (received : nat) (lines : list Framer.PyStr) (reads : list Framer.Recv) :
  EnhancedWSL2SocketServer.running srv = true ->
  Forall complete_message lines ->
  forallb brings_data reads = true ->
  received_text reads = stream_of lines ->
  Framer.handle_client loads w srv received reads
  = (Framer.set_client_connected false
       (fold_left (fun srv x =>
                     EnhancedWSL2SocketServer.process_incoming_message w srv (loads x))
                  lines (Framer.set_client_connected true srv)),
     (received + received_bytes reads)%nat).
Proof.
  intros Hrun Hlines Hall Hcat. unfold Framer.handle_client.
  rewrite read_loop_chunking; [| exact Hrun | reflexivity | intros [] | exact Hall].
  cbn [Framer.server Framer.buffer Framer.bytes_received].
  rewrite Hcat. unfold Framer.on_recv, stream_of. cbn [app].
  rewrite <- (app_nil_r (concat _)).
  rewrite process_buffer_lines_aux.
  - replace (concat (map line_message lines)) with lines; [reflexivity|].
    clear Hcat. induction Hlines as [| x lines (Hne & _ & Hs) _ IH]; [reflexivity|].
    cbn [map concat]. rewrite (line_message_id x Hne Hs), <- IH. reflexivity.
  - eapply Forall_impl; [exact Hlines|]. unfold complete_message. cbn. tauto.
  - intros [].
Qed.

(** X5: complete messages (non-empty, stripped, without a newline inside),
    each ended by one newline, reach [process_incoming_message] exactly
    once each and in order, however the stream is cut into reads and
    whatever time-outs come in between. *)
Theorem stream_delivers_lines
    (loads : Framer.PyStr -> option CANMessageProcessor.Envelope)
    (w : EnhancedWSL2SocketServer.World) (srv : EnhancedWSL2SocketServer.Server)
    (received : nat) (lines : list Framer.PyStr) (reads : list Framer.Recv) :
  EnhancedWSL2SocketServer.running srv = true ->
  Forall complete_message lines ->
  forallb brings_data reads = true ->
  received_text reads = stream_of lines ->
  Framer.handle_client loads w srv received reads
  = (Framer.set_client_connected false
       (fold_left (fun srv x =>
                     EnhancedWSL2SocketServer.process_incoming_message w srv (loads x))
                  lines (Framer.set_client_connected true srv)),
     (received + received_bytes reads)%nat).
Proof. apply stream_delivers_lines_aux. Qed.

(** Two messages cut into three reads at arbitrary places. *)
Lemma stream_delivers_lines_witness :
  Framer.handle_client (fun _ => None) calm serving 0
    [Framer.Received 1 [123]; Framer.Received 3 [125; 10; 91]; Framer.Received 2 [93; 10]]%N
  = (Framer.set_client_connected false
       (fold_left (fun srv x =>
                     EnhancedWSL2SocketServer.process_incoming_message calm srv None)
                  [[123; 125]; [91; 93]]%N (Framer.set_client_connected true serving)),
     (0 + received_bytes
            [Framer.Received 1 [123]; Framer.Received 3 [125; 10; 91];
             Framer.Received 2 [93; 10]]%N)%nat).
Proof.
  apply (stream_delivers_lines (fun _ => None) calm serving 0
           [[123; 125]; [91; 93]]%N
           [Framer.Received 1 [123]; Framer.Received 3 [125; 10; 91];
            Framer.Received 2 [93; 10]]%N).
  - reflexivity.
  - repeat constructor; try discriminate; intros H; cbn in H; intuition discriminate.
  - reflexivity.
  - reflexivity.
Defined.

(** ** The socket bridge *)

Section BridgeFacts.
Import WSL2SocketBridge.
Context {A : Type}.
Variable dumps : A -> Framer.PyStr.

Lemma concat_write streams text : concat (write streams text) = concat streams ++ text.
Proof.
  unfold write. destruct (rev streams) as [| current earlier] eqn:E.
  - apply (f_equal (@rev _)) in E. rewrite rev_involutive in E. subst streams.
    cbn. rewrite app_nil_r. reflexivity.
  - apply (f_equal (@rev _)) in E. rewrite rev_involutive in E. subst streams.
    cbn [rev]. rewrite !concat_app. cbn. rewrite !app_nil_r, app_assoc. reflexivity.
Qed.

Lemma reconnect_attempts_step w b :
  (reconnect_attempts b <= max_reconnect_attempts)%nat ->
  (reconnect_attempts (snd (reconnect w b)) <= max_reconnect_attempts)%nat.
Proof.
  intros H. unfold reconnect, connect.
  destruct (Nat.leb_spec max_reconnect_attempts (reconnect_attempts b)); [exact H|].
  destruct (connect_ok w); cbn; lia.
Qed.

Lemma send_data_attempts w b data :
  (reconnect_attempts b <= max_reconnect_attempts)%nat ->
  (reconnect_attempts (snd (send_data dumps w b data)) <= max_reconnect_attempts)%nat.
Proof.
  intros H. unfold send_data.
  destruct (negb (connected b) || negb (has_socket b)).
  - pose proof (reconnect_attempts_step w b H) as Hr.
    destruct (reconnect w b) as [ok b1]. cbn [snd] in Hr.
    destruct ok; cbn [negb]; [|exact Hr].
    destruct (sendall w); exact Hr.
  - cbn [negb]. destruct (sendall w); exact H.
Qed.

Lemma send_data_given_up w b data :
  connected b = false ->
  (max_reconnect_attempts <= reconnect_attempts b)%nat ->
  send_data dumps w b data = (false, b).
Proof.
  intros Hc Ha. unfold send_data, reconnect. rewrite Hc. cbn [negb orb].
  apply Nat.leb_le in Ha. rewrite Ha. reflexivity.
Qed.

End BridgeFacts.

(** X6: the reconnection counter never passes [max_reconnect_attempts]
    (5): it stays within the bound through any sequence of [send_data]
    calls, whatever the network does. *)
Theorem reconnect_attempts_bounded (A : Type) (dumps : A -> Framer.PyStr)
    (b : WSL2SocketBridge.t) (calls : list (WSL2SocketBridge.World * A)) :
  (WSL2SocketBridge.reconnect_attempts b <= WSL2SocketBridge.max_reconnect_attempts)%nat ->
  (WSL2SocketBridge.reconnect_attempts (snd (WSL2SocketBridge.send_all dumps b calls))
   <= WSL2SocketBridge.max_reconnect_attempts)%nat.
Proof.
  revert b. induction calls as [| [w data] calls IH]; intros b H; [exact H|].
  cbn [WSL2SocketBridge.send_all].
  pose proof (send_data_attempts dumps w b data H) as Hs.
  destruct (WSL2SocketBridge.send_data dumps w b data) as [ok b1]. cbn [snd] in Hs.
  specialize (IH b1 Hs).
  destruct (WSL2SocketBridge.send_all dumps b1 calls) as [oks b2]. exact IH.
Qed.

(** Six sends on a network that is down, from the initial state. *)
Lemma reconnect_attempts_bounded_witness :
  (WSL2SocketBridge.reconnect_attempts
     (snd (WSL2SocketBridge.send_all (fun n : nat => [N.of_nat n]) WSL2SocketBridge.init
             (map (fun n => (network_down, n)) (seq 0 6))))
   <= WSL2SocketBridge.max_reconnect_attempts)%nat.
Proof.
  apply (reconnect_attempts_bounded nat (fun n : nat => [N.of_nat n]) WSL2SocketBridge.init
           (map (fun n => (network_down, n)) (seq 0 6))).
  vm_compute. lia.
Defined.

(** X7: once the bridge is disconnected with its reconnection counter at
    the maximum, it has given up for good: every later [send_data] returns
    [False] without attempting a connection or writing anything, and the
    state never changes again, even when the network is back (only a
    successful [connect] resets the counter, and none is attempted). *)
Theorem bridge_gives_up (A : Type) (dumps : A -> Framer.PyStr)
    (b : WSL2SocketBridge.t) (calls : list (WSL2SocketBridge.World * A)) :
  WSL2SocketBridge.connected b = false ->
  (WSL2SocketBridge.max_reconnect_attempts <= WSL2SocketBridge.reconnect_attempts b)%nat ->
  WSL2SocketBridge.send_all dumps b calls = (map (fun _ => false) calls, b).
Proof.
  intros Hc Ha. induction calls as [| [w data] calls IH]; [reflexivity|].
  cbn [WSL2SocketBridge.send_all map].
  rewrite (send_data_given_up dumps w b data Hc Ha), IH. reflexivity.
Qed.

(** After five failed reconnections, three sends on a network that is up. *)
Lemma bridge_gives_up_witness :
  WSL2SocketBridge.send_all (fun n : nat => [N.of_nat n]) given_up
    [(network_up, 1%nat); (network_up, 2%nat); (network_up, 3%nat)]
  = (map (fun _ => false) [(network_up, 1%nat); (network_up, 2%nat); (network_up, 3%nat)],
     given_up).
Proof.
  apply (bridge_gives_up nat (fun n : nat => [N.of_nat n]) given_up
           [(network_up, 1%nat); (network_up, 2%nat); (network_up, 3%nat)]).
  - reflexivity.
  - vm_compute. lia.
Defined.

(** Five sends on a network that is down lead from the initial state to
    the state in which the bridge has given up. *)
Lemma five_failures_give_up :
  snd (WSL2SocketBridge.send_all (fun n : nat => [N.of_nat n]) WSL2SocketBridge.init
         (map (fun n => (network_down, n)) (seq 0 5)))
  = given_up.
Proof. reflexivity. Qed.

(** X8: when [send_data] returns [True], the bridge is connected and the
    complete line, the serialized data followed by one newline, was
    written after everything written before; if the call found the bridge
    disconnected, it had to reconnect first, successfully, and the
    reconnection counter is back to zero. *)
Theorem send_data_true_writes_line (A : Type) (dumps : A -> Framer.PyStr)
    (w : WSL2SocketBridge.World) (b b' : WSL2SocketBridge.t) (data : A) :
  WSL2SocketBridge.send_data dumps w b data = (true, b') ->
  WSL2SocketBridge.connected b' = true /\
  WSL2SocketBridge.has_socket b' = true /\
  concat (WSL2SocketBridge.wire b')
    = concat (WSL2SocketBridge.wire b) ++ dumps data ++ [Framer.newline] /\
  (WSL2SocketBridge.connected b = false \/ WSL2SocketBridge.has_socket b = false ->
   WSL2SocketBridge.connect_ok w = true /\
   (WSL2SocketBridge.reconnect_attempts b < WSL2SocketBridge.max_reconnect_attempts)%nat /\
   WSL2SocketBridge.reconnect_attempts b' = 0%nat).
Proof.
  unfold WSL2SocketBridge.send_data.
  destruct (WSL2SocketBridge.connected b) eqn:Hc, (WSL2SocketBridge.has_socket b) eqn:Hs;
    cbn [negb orb].
  - destruct (WSL2SocketBridge.sendall w); intros [= <-]; cbn.
    rewrite Hc, Hs, concat_write.
    split; [reflexivity|]. split; [reflexivity|]. split; [reflexivity|].
    intros [Hx | Hx]; discriminate.
  - unfold WSL2SocketBridge.reconnect, WSL2SocketBridge.connect.
    destruct (Nat.leb_spec WSL2SocketBridge.max_reconnect_attempts
                (WSL2SocketBridge.reconnect_attempts b)); cbn [negb]; [discriminate|].
    destruct (WSL2SocketBridge.connect_ok w); cbn [negb]; [|discriminate].
    destruct (WSL2SocketBridge.sendall w); intros [= <-]; cbn.
    rewrite concat_write, concat_app. cbn. rewrite !app_nil_r.
    split; [reflexivity|]. split; [reflexivity|]. split; [reflexivity|].
    intros _. split; [reflexivity|]. split; [lia | reflexivity].
  - unfold WSL2SocketBridge.reconnect, WSL2SocketBridge.connect.
    destruct (Nat.leb_spec WSL2SocketBridge.max_reconnect_attempts
                (WSL2SocketBridge.reconnect_attempts b)); cbn [negb]; [discriminate|].
    destruct (WSL2SocketBridge.connect_ok w); cbn [negb]; [|discriminate].
    destruct (WSL2SocketBridge.sendall w); intros [= <-]; cbn.
    rewrite concat_write, concat_app. cbn. rewrite !app_nil_r.
    split; [reflexivity|]. split; [reflexivity|]. split; [reflexivity|].
    intros _. split; [reflexivity|]. split; [lia | reflexivity].
  - unfold WSL2SocketBridge.reconnect, WSL2SocketBridge.connect.
    destruct (Nat.leb_spec WSL2SocketBridge.max_reconnect_attempts
                (WSL2SocketBridge.reconnect_attempts b)); cbn [negb]; [discriminate|].
    destruct (WSL2SocketBridge.connect_ok w); cbn [negb]; [|discriminate].
    destruct (WSL2SocketBridge.sendall w); intros [= <-]; cbn.
    rewrite concat_write, concat_app. cbn. rewrite !app_nil_r.
    split; [reflexivity|]. split; [reflexivity|]. split; [reflexivity|].
    intros _. split; [reflexivity|]. split; [lia | reflexivity].
Qed.

(** The first send from the initial state on a network that is up. *)
Lemma send_data_true_writes_line_witness :
  let b' := snd (WSL2SocketBridge.send_data (fun n : nat => [N.of_nat n]) network_up
                   WSL2SocketBridge.init 65%nat) in
  WSL2SocketBridge.connected b' = true /\
  WSL2SocketBridge.has_socket b' = true /\
  concat (WSL2SocketBridge.wire b')
    = concat (WSL2SocketBridge.wire WSL2SocketBridge.init) ++ [N.of_nat 65] ++ [Framer.newline] /\
  (WSL2SocketBridge.connected WSL2SocketBridge.init = false \/
   WSL2SocketBridge.has_socket WSL2SocketBridge.init = false ->
   WSL2SocketBridge.connect_ok network_up = true /\
   (WSL2SocketBridge.reconnect_attempts WSL2SocketBridge.init
    < WSL2SocketBridge.max_reconnect_attempts)%nat /\
   WSL2SocketBridge.reconnect_attempts b' = 0%nat).
Proof.
  exact (send_data_true_writes_line nat (fun n : nat => [N.of_nat n]) network_up
           WSL2SocketBridge.init _ 65%nat eq_refl).
Defined.

(** ** The processor and the server over a run *)

Section ProcessorFacts.
Import CANMessageProcessor.

(** [process_message] by the verdict of the validator. *)
Lemma process_message_verdict st e :
  process_message st e =
    match verdict e with
    | inl (id, payload, d) =>
        (Some (enriched id payload d), count_by_id (count_received st) id)
    | inr (InvalidCanId _) =>
        (None, {| total_received := S (total_received st); total_sent := total_sent st;
                  invalid_ids := S (invalid_ids st); invalid_data := invalid_data st;
                  by_id := by_id st |})
    | inr (InvalidDataLength _) =>
        (None, {| total_received := S (total_received st); total_sent := total_sent st;
                  invalid_ids := invalid_ids st; invalid_data := S (invalid_data st);
                  by_id := by_id st |})
    | inr _ => (None, count_received st)
    end.
Proof.
  unfold process_message.
  destruct (first_missing e required_fields) as [field|] eqn:E.
  - rewrite (verdict_missing _ _ E).
    unfold validate_message. rewrite E. reflexivity.
  - apply first_missing_none in E. destruct E as (id & payload & d & ->).
    rewrite verdict_fields, validate_message_fields.
    destruct (negb ((0 <=? id) && (id <=? 2047))); [reflexivity|].
    destruct (negb ((0 <=? d) && (d <=? 8))); [reflexivity|].
    destruct (negb (length payload =? 8)%nat); reflexivity.
Qed.

Lemma count_cons {B : Type} (p : B -> bool) x l :
  count p (x :: l) = ((if p x then 1 else 0) + count p l)%nat.
Proof. unfold count. cbn [List.filter]. destruct (p x); reflexivity. Qed.

End ProcessorFacts.

(** X9: the statistics of the processor after any sequence of envelopes:
    [total_received] grows by their number, [invalid_ids] by the number
    rejected for their identifier, [invalid_data] by the number rejected for
    their payload length, [total_sent] never moves, and for every
    identifier the [by_id] entry grows by the number of accepted envelopes
    that carry it. *)
Theorem processor_statistics
    (st : CANMessageProcessor.Stats) (envs : list CANMessageProcessor.Envelope) :
  let st' := process_all st envs in
  CANMessageProcessor.total_received st'
    = (CANMessageProcessor.total_received st + length envs)%nat /\
  CANMessageProcessor.invalid_ids st'
    = (CANMessageProcessor.invalid_ids st + count rejected_for_id envs)%nat /\
  CANMessageProcessor.invalid_data st'
    = (CANMessageProcessor.invalid_data st + count rejected_for_length envs)%nat /\
  CANMessageProcessor.total_sent st' = CANMessageProcessor.total_sent st /\
  forall id,
    default 0%nat (CANMessageProcessor.by_id st' !! id)
    = (default 0%nat (CANMessageProcessor.by_id st !! id) + count (accepted_as id) envs)%nat.
Proof.
  revert st. induction envs as [| e envs IH]; intros st.
  - unfold count. cbn. repeat split; intros; lia.
  - cbn [process_all fold_left].
    change (fold_left _ envs ?s) with (process_all s envs).
    destruct (IH (snd (CANMessageProcessor.process_message st e)))
      as (H1 & H2 & H3 & H4 & H5).
    cbn zeta. rewrite H1, H2, H3, H4. clear H1 H2 H3 H4 IH.
    assert (H6 : forall id,
               default 0%nat
                 (CANMessageProcessor.by_id
                    (process_all (snd (CANMessageProcessor.process_message st e)) envs) !! id)
               = (default 0%nat (CANMessageProcessor.by_id st !! id)
                  + count (accepted_as id) (e :: envs))%nat).
    { intros id. rewrite H5, count_cons. unfold accepted_as, accepted_id.
      rewrite process_message_verdict.
      destruct (verdict e) as [[[id' p] d] | []];
        unfold CANMessageProcessor.count_by_id, CANMessageProcessor.count_received;
        cbn [snd CANMessageProcessor.by_id]; try lia.
      destruct (Z.eqb_spec id' id) as [-> | Hne].
      - rewrite lookup_insert_eq. cbn. lia.
      - rewrite lookup_insert_ne by exact Hne. lia. }
    clear H5.
    rewrite !count_cons. unfold rejected_for_id, rejected_for_length.
    rewrite process_message_verdict.
    split; [|split; [|split; [|split]]].
    + destruct (verdict e) as [[[id p] d] | []]; cbn; lia.
    + destruct (verdict e) as [[[id p] d] | []]; cbn; lia.
    + destruct (verdict e) as [[[id p] d] | []]; cbn; lia.
    + destruct (verdict e) as [[[id p] d] | []]; reflexivity.
    + rewrite <- process_message_verdict. exact H6.
Qed.

Section ServerFacts.
Import EnhancedWSL2SocketServer.

(** One message through the server, by the verdict of the validator. *)
Lemma process_incoming_message_accepted w srv id payload d :
  verdict (envelope id payload d) = inl (id, payload, d) ->
  process_incoming_message w srv (Some (envelope id payload d)) =
    let sent := forallb is_byte (take (Z.to_nat d) payload) && bus_send_ok w in
    {| processor := CANMessageProcessor.count_by_id
                      (CANMessageProcessor.count_received (processor srv)) id;
       forwarder := CANForwarder.forward_message (zmq_send_ok w) (forwarder srv)
                      (enriched id payload d);
       can_bus := if sent
                  then can_bus srv ++ [{| arbitration_id := id;
                                          bus_data := take (Z.to_nat d) payload;
                                          is_extended_id := false;
                                          bus_dlc := d |}]
                  else can_bus srv;
       stats := count_forwarded
                  (if sent then count_sent (count_message (stats srv))
                   else count_error (count_message (stats srv)));
       running := running srv;
       client_connected := client_connected srv |}.
Proof.
  intros Hv.
  assert (Hd : 0 <= d).
  { rewrite verdict_fields in Hv.
    destruct (negb ((0 <=? id) && (id <=? 2047))); [discriminate|].
    destruct ((0 <=? d) && (d <=? 8)) eqn:E; [|discriminate].
    apply range_check in E. lia. }
  unfold process_incoming_message.
  cbn [with_stats processor forwarder can_bus stats running client_connected].
  rewrite process_message_verdict, Hv.
  unfold send_to_can_bus, enriched, slice_to.
  cbn [CANMessageProcessor.e_can_data CANMessageProcessor.e_dlc CANMessageProcessor.e_can_id].
  destruct (Z.ltb_spec d 0) as [Hneg | _]; [lia|].
  destruct (forallb is_byte (take (Z.to_nat d) payload) && bus_send_ok w); reflexivity.
Qed.




End ServerFacts.

(** X10: the validator does not look at the values of the payload.  An
    accepted envelope one of whose first [dlc] payload entries is not a
    byte is not put on the CAN bus (the failure is counted in [errors]),
    yet it is still published to the subscribers, queued in the backup
    buffer and counted as forwarded. *)
Theorem nonbyte_payload_forwarded_not_sent
    (w : EnhancedWSL2SocketServer.World) (srv : EnhancedWSL2SocketServer.Server)
    (id : Z) (payload : list Z) (d : Z) :
  verdict (envelope id payload d) = inl (id, payload, d) ->
  forallb is_byte (take (Z.to_nat d) payload) = false ->
  let after := EnhancedWSL2SocketServer.process_incoming_message w srv
                 (Some (envelope id payload d)) in
  EnhancedWSL2SocketServer.can_bus after = EnhancedWSL2SocketServer.can_bus srv /\
  EnhancedWSL2SocketServer.forwarder after
    = CANForwarder.forward_message (EnhancedWSL2SocketServer.zmq_send_ok w)
        (EnhancedWSL2SocketServer.forwarder srv) (enriched id payload d) /\
  EnhancedWSL2SocketServer.stats after =
    (let s := EnhancedWSL2SocketServer.stats srv in
     {| EnhancedWSL2SocketServer.messages_received :=
          S (EnhancedWSL2SocketServer.messages_received s);
        EnhancedWSL2SocketServer.messages_forwarded :=
          S (EnhancedWSL2SocketServer.messages_forwarded s);
        EnhancedWSL2SocketServer.messages_sent_to_can :=
          EnhancedWSL2SocketServer.messages_sent_to_can s;
        EnhancedWSL2SocketServer.errors := S (EnhancedWSL2SocketServer.errors s) |}).
Proof.
  intros Hv Hbytes after. subst after.
  rewrite (process_incoming_message_accepted w srv id payload d Hv).
  cbn zeta. rewrite Hbytes. cbn [andb]. repeat split; reflexivity.
Qed.

(** An envelope whose second payload entry is 300. *)
Lemma nonbyte_payload_forwarded_not_sent_witness :
  let after := EnhancedWSL2SocketServer.process_incoming_message calm serving
                 (Some (envelope 0x100 [1; 300; 60; 0; 0; 0; 0; 0] 8)) in
  EnhancedWSL2SocketServer.can_bus after = EnhancedWSL2SocketServer.can_bus serving /\
  EnhancedWSL2SocketServer.forwarder after
    = CANForwarder.forward_message (EnhancedWSL2SocketServer.zmq_send_ok calm)
        (EnhancedWSL2SocketServer.forwarder serving)
        (enriched 0x100 [1; 300; 60; 0; 0; 0; 0; 0] 8) /\
  EnhancedWSL2SocketServer.stats after =
    (let s := EnhancedWSL2SocketServer.stats serving in
     {| EnhancedWSL2SocketServer.messages_received :=
          S (EnhancedWSL2SocketServer.messages_received s);
        EnhancedWSL2SocketServer.messages_forwarded :=
          S (EnhancedWSL2SocketServer.messages_forwarded s);
        EnhancedWSL2SocketServer.messages_sent_to_can :=
          EnhancedWSL2SocketServer.messages_sent_to_can s;
        EnhancedWSL2SocketServer.errors := S (EnhancedWSL2SocketServer.errors s) |}).
Proof.
  exact (nonbyte_payload_forwarded_not_sent calm serving 0x100
           [1; 300; 60; 0; 0; 0; 0; 0] 8 eq_refl eq_refl).
Defined.






(** ** The simulation loop and the way to the bus *)

(** Every frame [encode] returns has identifier 0x100, declared length 8
    and eight bytes. *)
Lemma encode_some_shape now fmu_data frame :
  CANMessageEncoder.encode now fmu_data = Some frame ->
  CANMessageEncoder.can_id frame = 0x100 /\ CANMessageEncoder.dlc frame = 8 /\
  length (CANMessageEncoder.can_data frame) = 8%nat /\
  forallb is_byte (CANMessageEncoder.can_data frame) = true.
Proof.
  rewrite encode_closed.
  unfold uint8_byte, ambient_bytes.
  pose proof (flags_byte_range fmu_data) as Hf.
  assert (Hfb : is_byte (flags_byte fmu_data) = true) by (apply is_byte_spec; lia).
  destruct (fmu_data !! "light_level") as [v1|]; cbn [fmap option_fmap option_map mbind option_bind];
    [destruct (py_int v1) as [z1|]; cbn [mbind option_bind option_map]; [|discriminate]|];
    (destruct (fmu_data !! "vehicle_speed") as [v2|];
     cbn [fmap option_fmap option_map mbind option_bind];
     [destruct (py_int v2) as [z2|]; cbn [mbind option_bind option_map]; [|discriminate]|];
     (destruct (fmu_data !! "ambient") as [v3|];
      cbn [fmap option_fmap option_map mbind option_bind];
      [destruct (py_int v3) as [z3|]; cbn [mbind option_bind option_map]; [|discriminate]|];
      intros [= <-]; cbn [CANMessageEncoder.can_id CANMessageEncoder.dlc
                            CANMessageEncoder.can_data length forallb];
      rewrite Hfb, ?is_byte_clamp, ?is_byte_land; repeat split; reflexivity)).
Qed.

Lemma encoded_frame_reaches_bus_aux
    (now : PyVal) (fmu_data : gmap string PyVal) (frame : CANMessageEncoder.CANFrame)
    (w : EnhancedWSL2SocketServer.World) (srv : EnhancedWSL2SocketServer.Server) :
  CANMessageEncoder.encode now fmu_data = Some frame ->
  EnhancedWSL2SocketServer.bus_send_ok w = true ->
  let payload := CANMessageEncoder.can_data frame in
  let after := EnhancedWSL2SocketServer.process_incoming_message w srv
                 (Some (envelope_of frame)) in
  verdict (envelope_of frame) = inl (0x100, payload, 8) /\
  EnhancedWSL2SocketServer.can_bus after
    = EnhancedWSL2SocketServer.can_bus srv
      ++ [{| EnhancedWSL2SocketServer.arbitration_id := 0x100;
             EnhancedWSL2SocketServer.bus_data := payload;
             EnhancedWSL2SocketServer.is_extended_id := false;
             EnhancedWSL2SocketServer.bus_dlc := 8 |}] /\
  EnhancedWSL2SocketServer.forwarder after
    = CANForwarder.forward_message (EnhancedWSL2SocketServer.zmq_send_ok w)
        (EnhancedWSL2SocketServer.forwarder srv) (enriched 0x100 payload 8) /\
  CANMessageProcessor.e_can_id_description (enriched 0x100 payload 8) = Some "LIGHT_CONTROL" /\
  EnhancedWSL2SocketServer.errors (EnhancedWSL2SocketServer.stats after)
    = EnhancedWSL2SocketServer.errors (EnhancedWSL2SocketServer.stats srv).
Proof.
  intros Henc Hbus payload after. subst payload after.
  destruct (encode_some_shape _ _ _ Henc) as (Hid & Hdlc & Hlen & Hbytes).
  unfold envelope_of. rewrite Hid, Hdlc.
  assert (Hv : verdict (envelope 0x100 (CANMessageEncoder.can_data frame) 8)
               = inl (0x100, CANMessageEncoder.can_data frame, 8)).
  { rewrite verdict_fields, Hlen. reflexivity. }
  split; [exact Hv|].
  rewrite (process_incoming_message_accepted w srv _ _ _ Hv). cbn zeta.
  change (Z.to_nat 8) with 8%nat.
  rewrite (take_ge _ 8) by lia. rewrite Hbytes, Hbus. cbn [andb].
  repeat split; reflexivity.
Qed.

(** X13: every frame [encode] produces passes the validator of the server
    and, when the bus takes it, is put on the CAN bus whole: one standard
    frame of identifier 0x100 carrying the eight encoded bytes; it is
    forwarded to the subscribers described as LIGHT_CONTROL, and no error
    is counted. *)
Theorem encoded_frame_reaches_bus
    (now : PyVal) (fmu_data : gmap string PyVal) (frame : CANMessageEncoder.CANFrame)
    (w : EnhancedWSL2SocketServer.World) (srv : EnhancedWSL2SocketServer.Server) :
  CANMessageEncoder.encode now fmu_data = Some frame ->
  EnhancedWSL2SocketServer.bus_send_ok w = true ->
  let payload := CANMessageEncoder.can_data frame in
  let after := EnhancedWSL2SocketServer.process_incoming_message w srv
                 (Some (envelope_of frame)) in
  verdict (envelope_of frame) = inl (0x100, payload, 8) /\
  EnhancedWSL2SocketServer.can_bus after
    = EnhancedWSL2SocketServer.can_bus srv
      ++ [{| EnhancedWSL2SocketServer.arbitration_id := 0x100;
             EnhancedWSL2SocketServer.bus_data := payload;
             EnhancedWSL2SocketServer.is_extended_id := false;
             EnhancedWSL2SocketServer.bus_dlc := 8 |}] /\
  EnhancedWSL2SocketServer.forwarder after
    = CANForwarder.forward_message (EnhancedWSL2SocketServer.zmq_send_ok w)
        (EnhancedWSL2SocketServer.forwarder srv) (enriched 0x100 payload 8) /\
  CANMessageProcessor.e_can_id_description (enriched 0x100 payload 8) = Some "LIGHT_CONTROL" /\
  EnhancedWSL2SocketServer.errors (EnhancedWSL2SocketServer.stats after)
    = EnhancedWSL2SocketServer.errors (EnhancedWSL2SocketServer.stats srv).
Proof. apply encoded_frame_reaches_bus_aux. Qed.

(** The frame of the sample assignment on a server that serves a client. *)
Lemma encoded_frame_reaches_bus_witness :
  let frame := {| CANMessageEncoder.can_id := 0x100;
                  CANMessageEncoder.can_data := [21; 75; 60; 1; 44; 0; 0; 0];
                  CANMessageEncoder.dlc := 8;
                  CANMessageEncoder.timestamp := PFloat 0;
                  CANMessageEncoder.sim_time := PFloat 0.05;
                  CANMessageEncoder.source := "autoLamp_fmu" |} in
  let payload := CANMessageEncoder.can_data frame in
  let after := EnhancedWSL2SocketServer.process_incoming_message calm serving
                 (Some (envelope_of frame)) in
  verdict (envelope_of frame) = inl (0x100, payload, 8) /\
  EnhancedWSL2SocketServer.can_bus after
    = EnhancedWSL2SocketServer.can_bus serving
      ++ [{| EnhancedWSL2SocketServer.arbitration_id := 0x100;
             EnhancedWSL2SocketServer.bus_data := payload;
             EnhancedWSL2SocketServer.is_extended_id := false;
             EnhancedWSL2SocketServer.bus_dlc := 8 |}] /\
  EnhancedWSL2SocketServer.forwarder after
    = CANForwarder.forward_message (EnhancedWSL2SocketServer.zmq_send_ok calm)
        (EnhancedWSL2SocketServer.forwarder serving) (enriched 0x100 payload 8) /\
  CANMessageProcessor.e_can_id_description (enriched 0x100 payload 8) = Some "LIGHT_CONTROL" /\
  EnhancedWSL2SocketServer.errors (EnhancedWSL2SocketServer.stats after)
    = EnhancedWSL2SocketServer.errors (EnhancedWSL2SocketServer.stats serving).
Proof.
  apply (encoded_frame_reaches_bus (PFloat 0) sample_fmu_data _ calm serving).
  - vm_compute. reflexivity.
  - reflexivity.
Defined.

Section RunFacts.
Import FMUCANBridge.
Variable dumps : CANMessageEncoder.CANFrame -> Framer.PyStr.

Lemma send_data_connected_ok w (b : WSL2SocketBridge.t) frame :
  WSL2SocketBridge.connected b = true -> WSL2SocketBridge.has_socket b = true ->
  WSL2SocketBridge.sendall w = WSL2SocketBridge.SendOk ->
  WSL2SocketBridge.send_data dumps w b frame =
    (true, {| WSL2SocketBridge.connected := true; WSL2SocketBridge.has_socket := true;
              WSL2SocketBridge.reconnect_attempts := WSL2SocketBridge.reconnect_attempts b;
              WSL2SocketBridge.wire :=
                WSL2SocketBridge.write (WSL2SocketBridge.wire b)
                  (dumps frame ++ [Framer.newline]) |}).
Proof.
  intros Hc Hs Hok. unfold WSL2SocketBridge.send_data.
  rewrite Hc, Hs, Hok. cbn [negb orb]. rewrite Hc, Hs. reflexivity.
Qed.

End RunFacts.

Lemma run_loop_all_sent_aux
    (dumps : CANMessageEncoder.CANFrame -> Framer.PyStr)
    (ticks : list FMUCANBridge.Tick) (frames : list CANMessageEncoder.CANFrame)
    (b : WSL2SocketBridge.t) (s : FMUCANBridge.Stats) :
  WSL2SocketBridge.connected b = true -> WSL2SocketBridge.has_socket b = true ->
  Forall2 (fun t f =>
             CANMessageEncoder.encode (FMUCANBridge.now t) (FMUCANBridge.fmu_data t) = Some f /\
             FMUCANBridge.log_ok (FMUCANBridge.fmu_data t) = true /\
             WSL2SocketBridge.sendall (FMUCANBridge.world t) = WSL2SocketBridge.SendOk)
          ticks frames ->
  let r := FMUCANBridge.run_loop dumps ticks (b, s) in
  WSL2SocketBridge.connected (fst r) = true /\
  WSL2SocketBridge.reconnect_attempts (fst r) = WSL2SocketBridge.reconnect_attempts b /\
  concat (WSL2SocketBridge.wire (fst r))
    = concat (WSL2SocketBridge.wire b)
      ++ concat (map (fun f => dumps f ++ [Framer.newline]) frames) /\
  FMUCANBridge.messages_sent (snd r) = (FMUCANBridge.messages_sent s + length ticks)%nat /\
  FMUCANBridge.messages_failed (snd r) = FMUCANBridge.messages_failed s.
Proof.
  intros Hc Hs Hall. revert b s Hc Hs.
  induction Hall as [| t f ticks frames (Henc & Hlog & Hok) _ IH]; intros b s Hc Hs.
  - cbn. rewrite app_nil_r, Nat.add_0_r. repeat split; try reflexivity. exact Hc.
  - cbn [FMUCANBridge.run_loop]. rewrite Henc.
    rewrite (send_data_connected_ok dumps _ b f Hc Hs Hok).
    rewrite Hlog. cbn [negb]. rewrite andb_false_r.
    cbn zeta in IH |- *.
    match goal with
    | |- context [FMUCANBridge.run_loop dumps ticks (?b1, ?s1)] =>
        destruct (IH b1 s1 eq_refl eq_refl) as (I1 & I2 & I3 & I4 & I5)
    end.
    rewrite I1, I2, I3, I4, I5.
    cbn [WSL2SocketBridge.wire WSL2SocketBridge.reconnect_attempts
           FMUCANBridge.messages_sent FMUCANBridge.messages_failed map concat length].
    rewrite concat_write, <- !app_assoc.
    repeat split; try reflexivity. lia.
Qed.

(** X14: while the bridge is connected and every send succeeds, each turn
    of the simulation loop whose input encodes writes exactly one line, the
    serialized frame and a newline, after the previous ones; the sent count
    grows by the number of turns and the failed count does not move. *)
Theorem run_loop_all_sent
    (dumps : CANMessageEncoder.CANFrame -> Framer.PyStr)
    (ticks : list FMUCANBridge.Tick) (frames : list CANMessageEncoder.CANFrame)
    (b : WSL2SocketBridge.t) (s : FMUCANBridge.Stats) :
  WSL2SocketBridge.connected b = true -> WSL2SocketBridge.has_socket b = true ->
  Forall2 (fun t f =>
             CANMessageEncoder.encode (FMUCANBridge.now t) (FMUCANBridge.fmu_data t) = Some f /\
             FMUCANBridge.log_ok (FMUCANBridge.fmu_data t) = true /\
             WSL2SocketBridge.sendall (FMUCANBridge.world t) = WSL2SocketBridge.SendOk)
          ticks frames ->
  let r := FMUCANBridge.run_loop dumps ticks (b, s) in
  WSL2SocketBridge.connected (fst r) = true /\
  WSL2SocketBridge.reconnect_attempts (fst r) = WSL2SocketBridge.reconnect_attempts b /\
  concat (WSL2SocketBridge.wire (fst r))
    = concat (WSL2SocketBridge.wire b)
      ++ concat (map (fun f => dumps f ++ [Framer.newline]) frames) /\
  FMUCANBridge.messages_sent (snd r) = (FMUCANBridge.messages_sent s + length ticks)%nat /\
  FMUCANBridge.messages_failed (snd r) = FMUCANBridge.messages_failed s.
Proof. apply run_loop_all_sent_aux. Qed.

(** Two turns on an open connection. *)
Lemma run_loop_all_sent_witness :
  let tick := {| FMUCANBridge.fmu_data := sample_fmu_data; FMUCANBridge.now := PFloat 0;
                 FMUCANBridge.world := network_up |} in
  let frame := {| CANMessageEncoder.can_id := 0x100;
                  CANMessageEncoder.can_data := [21; 75; 60; 1; 44; 0; 0; 0];
                  CANMessageEncoder.dlc := 8;
                  CANMessageEncoder.timestamp := PFloat 0;
                  CANMessageEncoder.sim_time := PFloat 0.05;
                  CANMessageEncoder.source := "autoLamp_fmu" |} in
  let b := {| WSL2SocketBridge.connected := true; WSL2SocketBridge.has_socket := true;
              WSL2SocketBridge.reconnect_attempts := 0; WSL2SocketBridge.wire := [[]] |} in
  let s := {| FMUCANBridge.messages_sent := 0; FMUCANBridge.messages_failed := 0 |} in
  let r := FMUCANBridge.run_loop toy_dumps [tick; tick] (b, s) in
  WSL2SocketBridge.connected (fst r) = true /\
  WSL2SocketBridge.reconnect_attempts (fst r) = WSL2SocketBridge.reconnect_attempts b /\
  concat (WSL2SocketBridge.wire (fst r))
    = concat (WSL2SocketBridge.wire b)
      ++ concat (map (fun f => toy_dumps f ++ [Framer.newline]) [frame; frame]) /\
  FMUCANBridge.messages_sent (snd r)
    = (FMUCANBridge.messages_sent s + length [tick; tick])%nat /\
  FMUCANBridge.messages_failed (snd r) = FMUCANBridge.messages_failed s.
Proof.
  apply (run_loop_all_sent toy_dumps).
  - reflexivity.
  - reflexivity.
  - repeat constructor; vm_compute; reflexivity.
Defined.

(** X15: once the bridge has given up, the simulation runs on in local
    mode: every turn whose input encodes is counted as failed, nothing is
    written and no connection is attempted, even if the network is up
    again. *)
Theorem run_loop_given_up
    (dumps : CANMessageEncoder.CANFrame -> Framer.PyStr)
    (ticks : list FMUCANBridge.Tick) (b : WSL2SocketBridge.t) (s : FMUCANBridge.Stats) :
  WSL2SocketBridge.connected b = false ->
  (WSL2SocketBridge.max_reconnect_attempts <= WSL2SocketBridge.reconnect_attempts b)%nat ->
  Forall (fun t => is_Some (CANMessageEncoder.encode (FMUCANBridge.now t)
                              (FMUCANBridge.fmu_data t))) ticks ->
  FMUCANBridge.run_loop dumps ticks (b, s)
  = (b, {| FMUCANBridge.messages_sent := FMUCANBridge.messages_sent s;
           FMUCANBridge.messages_failed :=
             (FMUCANBridge.messages_failed s + length ticks)%nat |}).
Proof.
  intros Hc Ha Hall. revert s.
  induction Hall as [| t ticks [f Henc] _ IH]; intros s.
  - cbn. rewrite Nat.add_0_r. destruct s; reflexivity.
  - cbn [FMUCANBridge.run_loop]. rewrite Henc.
    rewrite (send_data_given_up dumps _ b f Hc Ha).
    rewrite IH. cbn [FMUCANBridge.messages_sent FMUCANBridge.messages_failed length].
    do 2 f_equal. lia.
Qed.

(** Three turns after five failed reconnections, the network being up. *)
Lemma run_loop_given_up_witness :
  let tick := {| FMUCANBridge.fmu_data := sample_fmu_data; FMUCANBridge.now := PFloat 0;
                 FMUCANBridge.world := network_up |} in
  let s := {| FMUCANBridge.messages_sent := 0; FMUCANBridge.messages_failed := 5 |} in
  FMUCANBridge.run_loop toy_dumps [tick; tick; tick] (given_up, s)
  = (given_up, {| FMUCANBridge.messages_sent := FMUCANBridge.messages_sent s;
                  FMUCANBridge.messages_failed :=
                    (FMUCANBridge.messages_failed s + length [tick; tick; tick])%nat |}).
Proof.
  apply (run_loop_given_up toy_dumps).
  - reflexivity.
  - vm_compute. lia.
  - repeat constructor; eexists; vm_compute; reflexivity.
Defined.

(** ** The mapper: table loading, shape of the result, failures *)

(** X16: a mapping file overrides the built-in table one identifier at a
    time, not one signal at a time: the entry the file gives for an
    identifier replaces the whole built-in entry, so a signal of that
    identifier the file does not list is no longer mapped; identifiers the
    file does not mention keep the built-in entry. *)
Theorem load_mappings_replaces_identifier
    (file_mappings : gmap Z (gmap string VSSMapper.VssConfig)) :
  (forall id,
      VSSMapper.load_mappings (Some file_mappings) !! id
      = match file_mappings !! id with
        | Some mapping => Some mapping
        | None => VSSMapper.load_mappings None !! id
        end) /\
  (forall id mapping (msg : DBCManager.CANMessage) (s : DBCManager.CANSignal),
      file_mappings !! id = Some mapping ->
      mapping !! DBCManager.name s = None ->
      DBCManager.can_id msg = id ->
      DBCManager.signals_of msg = [s] ->
      VSSMapper.map_can_to_vss (VSSMapper.load_mappings (Some file_mappings)) msg = Some []).
Proof.
  assert (H : forall id,
             VSSMapper.load_mappings (Some file_mappings) !! id
             = match file_mappings !! id with
               | Some mapping => Some mapping
               | None => VSSMapper.load_mappings None !! id
               end).
  { intros id. unfold VSSMapper.load_mappings.
    rewrite lookup_union. destruct (file_mappings !! id) as [m|].
    - destruct (VSSMapper.default_mappings !! id); reflexivity.
    - destruct (VSSMapper.default_mappings !! id); reflexivity. }
  split; [exact H|].
  intros id mapping msg s Hfile Hs Hid Hsigs.
  unfold VSSMapper.map_can_to_vss. rewrite Hid, H, Hfile, Hsigs.
  cbn [VSSMapper.map_signals]. rewrite Hs. reflexivity.
Qed.

(** With a file that maps only [headLamp] of 0x100, [lightLevel] is lost. *)
Lemma load_mappings_file_example :
  VSSMapper.map_can_to_vss (VSSMapper.load_mappings (Some headlamp_only_file))
    (decoded_message 0x100 [decoded_signal "lightLevel" (PInt 80) "%" 255])
  = Some [].
Proof. vm_compute. reflexivity. Qed.

Section MapperShape.
Import VSSMapper.

Lemma apply_conversion_none conv v : apply_conversion conv v = None <-> v = PNone.
Proof.
  unfold apply_conversion. destruct v; cbn; split; try discriminate; try reflexivity.
  destruct (Qeq_bool _ _); discriminate.
Qed.

Lemma map_signal_none cfg msg s :
  map_signal cfg msg s = None <->
  match conversion cfg, DBCManager.value s with
  | Some _, PNone => True
  | _, _ => vss_path cfg = None
  end.
Proof.
  unfold map_signal. destruct (conversion cfg) as [conv|].
  - destruct (apply_conversion conv (DBCManager.value s)) as [v|] eqn:E.
    + assert (Hv : DBCManager.value s <> PNone).
      { intros Hn. apply (proj2 (apply_conversion_none conv _)) in Hn. congruence. }
      cbn [mbind option_bind]. destruct (vss_path cfg); cbn [mbind option_bind];
        destruct (DBCManager.value s); try contradiction; split; congruence.
    + apply apply_conversion_none in E. rewrite E. cbn. tauto.
  - cbn [mbind option_bind]. destruct (vss_path cfg); cbn [mbind option_bind];
      destruct (DBCManager.value s); split; congruence.
Qed.

Lemma map_signals_none mapping msg sigs :
  map_signals mapping msg sigs = None <-> existsb (raises_on mapping) sigs = true.
Proof.
  induction sigs as [| s sigs IH]; cbn [map_signals existsb].
  - split; discriminate.
  - unfold raises_on at 1.
    destruct (mapping !! DBCManager.name s) as [cfg|] eqn:E; [|exact IH].
    pose proof (map_signal_none cfg msg s) as Hs.
    destruct (map_signal cfg msg s) as [v|].
    + cbn [mbind option_bind].
      assert (Hnot : match conversion cfg, DBCManager.value s with
                     | Some _, PNone => true
                     | _, _ => match vss_path cfg with None => true | Some _ => false end
                     end = false).
      { destruct Hs as [_ Hs].
        destruct (conversion cfg), (DBCManager.value s), (vss_path cfg);
          try reflexivity; exfalso; (assert (Hx : Some v = None) by (apply Hs; auto));
          discriminate. }
      rewrite Hnot. cbn [orb].
      destruct (map_signals mapping msg sigs); cbn [mbind option_bind].
      * split; [discriminate|]. intros H. apply IH in H. discriminate.
      * split; [intros _; apply IH; reflexivity | reflexivity].
    + cbn [mbind option_bind]. split; [|reflexivity]. intros _.
      destruct Hs as [Hs _]. specialize (Hs eq_refl).
      destruct (conversion cfg), (DBCManager.value s); try reflexivity;
        rewrite Hs; reflexivity.
Qed.

Lemma map_signal_sample mapping cfg msg s v :
  mapping !! DBCManager.name s = Some cfg ->
  map_signal cfg msg s = Some v -> sample_of mapping msg s v.
Proof.
  intros Hcfg. unfold map_signal.
  destruct (conversion cfg) as [conv|] eqn:Ec.
  - destruct (apply_conversion conv (DBCManager.value s)) as [x|]; [|discriminate].
    cbn [mbind option_bind]. destruct (vss_path cfg) as [p|] eqn:Ep; [|discriminate].
    cbn [mbind option_bind]. intros [= <-]. exists cfg. cbn.
    repeat split; try assumption; try reflexivity. rewrite Ec. discriminate.
  - cbn [mbind option_bind]. destruct (vss_path cfg) as [p|] eqn:Ep; [|discriminate].
    cbn [mbind option_bind]. intros [= <-]. exists cfg. cbn.
    repeat split; try assumption; reflexivity.
Qed.

Lemma map_signals_shape mapping msg sigs samples :
  map_signals mapping msg sigs = Some samples ->
  Forall2 (sample_of mapping msg)
          (List.filter (fun s => bool_decide (is_Some (mapping !! DBCManager.name s))) sigs)
          samples.
Proof.
  revert samples. induction sigs as [| s sigs IH]; intros samples; cbn [map_signals List.filter].
  - intros [= <-]. constructor.
  - destruct (mapping !! DBCManager.name s) as [cfg|] eqn:E.
    + rewrite bool_decide_eq_true_2 by (eexists; reflexivity).
      destruct (map_signal cfg msg s) as [v|] eqn:Ev; [|discriminate].
      cbn [mbind option_bind].
      destruct (map_signals mapping msg sigs) as [vs|]; [|discriminate].
      cbn [mbind option_bind]. intros [= <-]. constructor.
      * exact (map_signal_sample mapping cfg msg s v E Ev).
      * apply IH. reflexivity.
    + rewrite bool_decide_eq_false_2 by (intros [? [=]]). apply IH.
Qed.

End MapperShape.

(** X17: when [map_can_to_vss] returns, its samples are the mapped signals
    of the message, one each and in the same order: each sample has the
    path of its table entry, the time stamp of the message and the bounds
    of its signal, and carries the signal's value unchanged when the entry
    has no conversion. *)
Theorem map_can_to_vss_shape
    (mappings : gmap Z (gmap string VSSMapper.VssConfig)) (mapping : gmap string VSSMapper.VssConfig)
    (msg : DBCManager.CANMessage) (samples : list VSSMapper.VSSSignal) :
  mappings !! DBCManager.can_id msg = Some mapping ->
  VSSMapper.map_can_to_vss mappings msg = Some samples ->
  Forall2 (sample_of mapping msg)
          (List.filter (mapped mappings (DBCManager.can_id msg)) (DBCManager.signals_of msg))
          samples.
Proof.
  intros Hm. unfold VSSMapper.map_can_to_vss, mapped. rewrite Hm.
  apply map_signals_shape.
Qed.

(** A message with one unmapped signal between two mapped ones. *)
Lemma map_can_to_vss_shape_witness :
  Forall2 (sample_of builtin_entries mixed_message)
    (List.filter (mapped (VSSMapper.load_mappings None) (DBCManager.can_id mixed_message))
       (DBCManager.signals_of mixed_message))
    (default [] (VSSMapper.map_can_to_vss (VSSMapper.load_mappings None) mixed_message)).
Proof.
  apply (map_can_to_vss_shape (VSSMapper.load_mappings None) builtin_entries mixed_message).
  - vm_compute. reflexivity.
  - vm_compute. reflexivity.
Defined.

(** X18: [map_can_to_vss] raises exactly when the table has an entry for
    the identifier and some signal of the message is mapped by an entry
    without ['vss_path'], or has the value [None] under an entry with a
    conversion; one such signal makes the whole message fail, the samples
    of the other signals included. *)
Theorem map_can_to_vss_raises
    (mappings : gmap Z (gmap string VSSMapper.VssConfig)) (msg : DBCManager.CANMessage) :
  VSSMapper.map_can_to_vss mappings msg = None <->
  exists mapping,
    mappings !! DBCManager.can_id msg = Some mapping /\
    existsb (raises_on mapping) (DBCManager.signals_of msg) = true.
Proof.
  unfold VSSMapper.map_can_to_vss.
  destruct (mappings !! DBCManager.can_id msg) as [mapping|].
  - rewrite map_signals_none. split.
    + intros H. exists mapping. auto.
    + intros (m & [= <-] & H). exact H.
  - split; [discriminate|]. intros (m & [=] & _).
Qed.

(** A [None] light level takes the head lamp sample with it. *)
Lemma map_can_to_vss_raises_example :
  VSSMapper.map_can_to_vss (VSSMapper.load_mappings None)
    (decoded_message 0x100 [decoded_signal "headLamp" (PBool true) "" 1;
                            decoded_signal "lightLevel" PNone "%" 255])
  = None.
Proof. vm_compute. reflexivity. Qed.

(** ** The built-in table on the light-control frame *)

Section BuiltinFacts.
Import VSSMapper.

Lemma builtin_lookup : load_mappings None !! 0x100 = Some builtin_entries.
Proof. vm_compute. reflexivity. Qed.

Lemma builtin_headLamp :
  builtin_entries !! "headLamp"
  = Some (entry "Vehicle.Body.Lights.IsHighBeamOn" "boolean" "High beam headlight status" None None).
Proof. vm_compute. reflexivity. Qed.

Lemma builtin_tailLamp :
  builtin_entries !! "tailLamp"
  = Some (entry "Vehicle.Body.Lights.IsTailLightOn" "boolean" "Tail light status" None None).
Proof. vm_compute. reflexivity. Qed.

Lemma builtin_brakeLamp :
  builtin_entries !! "brakeLamp"
  = Some (entry "Vehicle.Body.Lights.IsBrakeLightOn" "boolean" "Brake light status" None None).
Proof. vm_compute. reflexivity. Qed.

Lemma builtin_indicatorLeft :
  builtin_entries !! "indicatorLeft"
  = Some (entry "Vehicle.Body.Lights.IsLeftIndicatorOn" "boolean"
            "Left turn indicator status" None None).
Proof. vm_compute. reflexivity. Qed.

Lemma builtin_indicatorRight :
  builtin_entries !! "indicatorRight"
  = Some (entry "Vehicle.Body.Lights.IsRightIndicatorOn" "boolean"
            "Right turn indicator status" None None).
Proof. vm_compute. reflexivity. Qed.

Lemma builtin_lightLevel :
  builtin_entries !! "lightLevel"
  = Some (entry "Vehicle.Body.Lights.AmbientLight" "uint8" "Ambient light level"
            (Some identity_conversion) None).
Proof. vm_compute. reflexivity. Qed.

Lemma builtin_vehicleSpeed :
  builtin_entries !! "vehicleSpeed"
  = Some (entry "Vehicle.Speed" "uint8" "Vehicle speed" (Some identity_conversion)
            (Some "km/h")).
Proof. vm_compute. reflexivity. Qed.

(** The identity conversion keeps the value (as a float). *)
Lemma identity_conversion_value v x :
  py_num v = Some x ->
  exists c, apply_conversion identity_conversion v = Some c /\
            forall z, Qeq_bool x (inject_Z z) = true -> py_eq c (PInt z) = true.
Proof.
  intros Hx. exists (PFloat (Qred (x * 1 + 0))). split.
  - unfold apply_conversion, identity_conversion. cbn [conv_scale conv_offset default].
    destruct v; try discriminate Hx; cbn [py_num] in Hx |- *;
      injection Hx as <-; reflexivity.
  - intros z Hz.
    unfold py_eq. cbn [py_num]. apply Qeq_bool_iff. apply Qeq_bool_iff in Hz.
    rewrite Qred_correct, <- Hz. ring.
Qed.

Lemma py_eq_int_num v z :
  py_eq v (PInt z) = true -> exists x, py_num v = Some x /\ Qeq_bool x (inject_Z z) = true.
Proof.
  unfold py_eq. cbn [py_num]. destruct (py_num v) as [x|] eqn:E.
  - intros H. exists x. auto.
  - destruct v; discriminate.
Qed.

Lemma py_eq_bool_int v b : py_eq v (PBool b) = py_eq v (PInt (Z.b2z b)).
Proof. unfold py_eq. cbn [py_num]. destruct (py_num v); [reflexivity|]. destruct v; reflexivity. Qed.

(** The samples of the seven signals under the built-in table. *)
Lemma map_builtin_light_control (msg : DBCManager.CANMessage) v0 v1 v2 v3 v4 v5 v6 z5 z6 :
  DBCManager.can_id msg = 0x100 ->
  DBCManager.signals_of msg = light_control_signals v0 v1 v2 v3 v4 v5 v6 ->
  py_eq v5 (PInt z5) = true -> py_eq v6 (PInt z6) = true ->
  exists samples c5 c6,
    map_can_to_vss (load_mappings None) msg = Some samples /\
    map path samples = light_control_paths /\
    map value samples = [v0; v1; v2; v3; v4; c5; c6] /\
    py_eq c5 (PInt z5) = true /\ py_eq c6 (PInt z6) = true /\
    Forall (fun v => timestamp v = DBCManager.timestamp msg) samples.
Proof.
  intros Hid Hsigs H5 H6.
  destruct (py_eq_int_num _ _ H5) as (x5 & N5 & Q5).
  destruct (py_eq_int_num _ _ H6) as (x6 & N6 & Q6).
  destruct (identity_conversion_value v5 x5 N5) as (c5 & C5 & E5).
  destruct (identity_conversion_value v6 x6 N6) as (c6 & C6 & E6).
  unfold map_can_to_vss. rewrite Hid, builtin_lookup, Hsigs.
  unfold light_control_signals. cbn [map_signals DBCManager.name decoded_signal].
  rewrite builtin_headLamp, builtin_tailLamp, builtin_brakeLamp, builtin_indicatorLeft,
    builtin_indicatorRight, builtin_lightLevel, builtin_vehicleSpeed.
  unfold map_signal, entry.
  cbn [conversion vss_path DBCManager.value decoded_signal mbind option_bind].
  rewrite C5, C6. cbn [mbind option_bind].
  eexists _, c5, c6. split; [reflexivity|].
  split; [reflexivity|]. split; [reflexivity|].
  split; [exact (E5 z5 Q5)|]. split; [exact (E6 z6 Q6)|].
  repeat constructor.
Qed.

End BuiltinFacts.

(** ** From the source values to the VSS samples *)

Section ControllerFacts.
Import DBCManager.

Lemma decode_message_fields lib msgs now id data msg :
  decode_message lib msgs now id data = Some msg ->
  can_id msg = id /\ timestamp msg = now /\ raw_data msg = pad8 data /\
  dlc msg = length (pad8 data) /\ source msg = "CAN_Bus" /\ direction msg = "RX".
Proof.
  unfold decode_message. destruct (find_message msgs id); [|discriminate].
  intros [= <-]. repeat split.
Qed.

Lemma decode_message_some lib msgs now id data :
  is_Some (decode_message lib msgs now id data) <-> is_Some (find_message msgs id).
Proof.
  unfold decode_message. destruct (find_message msgs id).
  - split; intros _; eexists; reflexivity.
  - split; intros [? [=]].
Qed.

(** Decoding a light-control frame of at most eight bytes on the virtual
    database and mapping it with the built-in table. *)
Lemma decode_and_map lib now data :
  lib = decode_raises \/ lib = table_decode virtual_database ->
  (length data <= 8)%nat -> forallb is_byte data = true ->
  exists msg samples v0 v1 v2 v3 v4 v5 v6 b0 b1 b2 rest,
    pad8 data = b0 :: b1 :: b2 :: rest /\
    decode_message lib virtual_database now 0x100 data = Some msg /\
    signals_of msg = light_control_signals v0 v1 v2 v3 v4 v5 v6 /\
    (forall msg', can_id msg' = 0x100 -> signals_of msg' = signals_of msg ->
                  timestamp msg' = timestamp msg ->
                  VSSMapper.map_can_to_vss (VSSMapper.load_mappings None) msg' = Some samples) /\
    map VSSMapper.path samples = light_control_paths /\
    values_eq samples
      [ PBool (Z.testbit b0 0); PBool (Z.testbit b0 1); PBool (Z.testbit b0 2);
        PBool (Z.testbit b0 3); PBool (Z.testbit b0 4); PInt b1; PInt b2 ].
Proof.
  intros Hlib Hlen Hbytes.
  pose proof (pad8_length data Hlen) as Hplen.
  pose proof (pad8_bytes data Hbytes) as Hpbytes.
  rewrite decode_message_pad8.
  destruct (pad8 data) as [| b0 [| b1 [| b2 rest]]] eqn:Ep; try discriminate Hplen.
  cbn [forallb] in Hpbytes.
  apply andb_true_iff in Hpbytes as [B0 Hpbytes].
  apply andb_true_iff in Hpbytes as [B1 Hpbytes].
  apply andb_true_iff in Hpbytes as [B2 _].
  apply is_byte_spec in B0, B1, B2.
  destruct (decode_virtual_closed lib now b0 b1 b2 rest Hlib Hplen B0 B1 B2)
    as (msg & v0 & v1 & v2 & v3 & v4 & v5 & v6 & Hdec & Hdlc & Hraw & Hsigs
        & E0 & E1 & E2 & E3 & E4 & E5 & E6).
  destruct (decode_message_fields _ _ _ _ _ _ Hdec) as (Hid & Hts & _).
  destruct (map_builtin_light_control msg v0 v1 v2 v3 v4 v5 v6 b1 b2 Hid Hsigs E5 E6)
    as (samples & c5 & c6 & Hmap & Hpaths & Hvals & C5 & C6 & Htime).
  exists msg, samples, v0, v1, v2, v3, v4, v5, v6, b0, b1, b2, rest.
  split; [reflexivity|]. split; [exact Hdec|]. split; [exact Hsigs|].
  split; [|split; [exact Hpaths|]].
  - intros msg' Hid' Hsigs' Hts'.
    unfold VSSMapper.map_can_to_vss in Hmap |- *.
    rewrite Hid', Hsigs'. rewrite Hid in Hmap.
    destruct (VSSMapper.load_mappings None !! 256) as [mapping|]; [|exact Hmap].
    rewrite <- Hmap. apply map_signals_msg. exact Hts'.
  - unfold values_eq.
    destruct samples as [| s0 [| s1 [| s2 [| s3 [| s4 [| s5 [| s6 [| ? ?]]]]]]]];
      try discriminate Hvals.
    cbn [map] in Hvals. injection Hvals as V0 V1 V2 V3 V4 V5 V6.
    repeat constructor; rewrite ?py_eq_bool_int;
      rewrite ?V0, ?V1, ?V2, ?V3, ?V4, ?V5, ?V6; assumption.
Qed.

End ControllerFacts.

(** X19: end to end.  For every input that [int()] accepts, the frame
    [encode] produces passes the validator, and decoding its payload on the
    virtual database (on the manual path or the table-driven one) then
    mapping it with the built-in table gives the seven samples of the
    layout, in order: the five lamp paths carry the truth values of the
    inputs, [Vehicle.Body.Lights.AmbientLight] carries the clamped
    [light_level] and [Vehicle.Speed] the clamped [vehicle_speed]; the
    [ambient] input reaches no VSS path. *)
Theorem light_control_end_to_end
    (lib : Z -> list Z -> option PyDict) (now now' : PyVal) (fmu_data : gmap string PyVal) :
  numeric_inputs_convertible fmu_data = true ->
  lib = DBCManager.decode_raises \/ lib = DBCManager.table_decode DBCManager.virtual_database ->
  exists frame ll vs samples,
    CANMessageEncoder.encode now fmu_data = Some frame /\
    uint8_byte fmu_data "light_level" = Some ll /\
    uint8_byte fmu_data "vehicle_speed" = Some vs /\
    verdict (envelope_of frame) = inl (0x100, CANMessageEncoder.can_data frame, 8) /\
    (msg ← DBCManager.decode_message lib DBCManager.virtual_database now' 0x100
             (CANMessageEncoder.can_data frame);
     VSSMapper.map_can_to_vss (VSSMapper.load_mappings None) msg) = Some samples /\
    map VSSMapper.path samples = light_control_paths /\
    values_eq samples
      [ PBool (flag fmu_data "headlamp"); PBool (flag fmu_data "tailLamp");
        PBool (flag fmu_data "brakeLamp"); PBool (flag fmu_data "indicator_left");
        PBool (flag fmu_data "indicator_right"); PInt ll; PInt vs ].
Proof.
  intros Hc Hlib.
  destruct (convertible_bytes fmu_data Hc)
    as (ll & vs & hi & lo & Hll & Hvs & Hab & Bll & Bvs & Bhi & Blo).
  pose proof (encode_closed now fmu_data) as Henc.
  rewrite Hll, Hvs, Hab in Henc. cbn [mbind option_bind] in Henc.
  pose proof (flags_byte_range fmu_data) as Hf.
  assert (Hbytes : forallb is_byte [flags_byte fmu_data; ll; vs; hi; lo; 0; 0; 0] = true).
  { cbn [forallb]. rewrite Bll, Bvs, Bhi, Blo.
    replace (is_byte (flags_byte fmu_data)) with true
      by (symmetry; apply is_byte_spec; lia).
    reflexivity. }
  destruct (decode_and_map lib now' [flags_byte fmu_data; ll; vs; hi; lo; 0; 0; 0]
              Hlib ltac:(cbn; lia) Hbytes)
    as (msg & samples & v0 & v1 & v2 & v3 & v4 & v5 & v6 & b0 & b1 & b2 & rest
        & Hpad & Hdec & Hsigs & Hmap & Hpaths & Hvals).
  injection Hpad as <- <- <- <-.
  destruct (decode_message_fields _ _ _ _ _ _ Hdec) as (Hid & _).
  eexists _, ll, vs, samples.
  split; [exact Henc|]. split; [exact Hll|]. split; [exact Hvs|].
  cbn [CANMessageEncoder.can_data].
  split; [unfold envelope_of; rewrite verdict_fields; reflexivity|].
  rewrite Hdec. cbn [mbind option_bind].
  rewrite (Hmap msg Hid eq_refl eq_refl).
  split; [reflexivity|]. split; [exact Hpaths|].
  rewrite <- (flags_byte_testbit fmu_data "headlamp" 0 "headLamp") by (cbn; tauto).
  rewrite <- (flags_byte_testbit fmu_data "tailLamp" 1 "tailLamp") by (cbn; tauto).
  rewrite <- (flags_byte_testbit fmu_data "brakeLamp" 2 "brakeLamp") by (cbn; tauto).
  rewrite <- (flags_byte_testbit fmu_data "indicator_left" 3 "indicatorLeft") by (cbn; tauto).
  rewrite <- (flags_byte_testbit fmu_data "indicator_right" 4 "indicatorRight") by (cbn; tauto).
  exact Hvals.
Qed.

(** The pipeline on inputs outside the ranges, on the manual path. *)
Lemma light_control_end_to_end_witness :
  exists frame ll vs samples,
    CANMessageEncoder.encode (PFloat 0) out_of_range_fmu_data = Some frame /\
    uint8_byte out_of_range_fmu_data "light_level" = Some ll /\
    uint8_byte out_of_range_fmu_data "vehicle_speed" = Some vs /\
    verdict (envelope_of frame) = inl (0x100, CANMessageEncoder.can_data frame, 8) /\
    (msg ← DBCManager.decode_message DBCManager.decode_raises DBCManager.virtual_database
             (PFloat 1) 0x100 (CANMessageEncoder.can_data frame);
     VSSMapper.map_can_to_vss (VSSMapper.load_mappings None) msg) = Some samples /\
    map VSSMapper.path samples = light_control_paths /\
    values_eq samples
      [ PBool (flag out_of_range_fmu_data "headlamp"); PBool (flag out_of_range_fmu_data "tailLamp");
        PBool (flag out_of_range_fmu_data "brakeLamp");
        PBool (flag out_of_range_fmu_data "indicator_left");
        PBool (flag out_of_range_fmu_data "indicator_right"); PInt ll; PInt vs ].
Proof.
  apply (light_control_end_to_end DBCManager.decode_raises (PFloat 0) (PFloat 1)
           out_of_range_fmu_data).
  - vm_compute. reflexivity.
  - left. reflexivity.
Defined.

(** ** The zonal controller *)

Section ControllerSteps.
Import ZonalController.
Variable lib : Z -> list Z -> option PyDict.
Variable messages : list DBCManager.Message.
Variable mappings : gmap Z (gmap string VSSMapper.VssConfig).

Lemma decodable_decodes now data :
  decodable messages data = true <->
  exists id payload msg,
    can_id data = Some id /\ can_data data = Some payload /\
    forallb is_byte payload = true /\
    DBCManager.decode_message lib messages now id payload = Some msg.
Proof.
  unfold decodable. destruct (can_id data) as [id|], (can_data data) as [payload|];
    try (split; [discriminate | intros (? & ? & ? & H1 & H2 & _); discriminate]).
  rewrite andb_true_iff, bool_decide_eq_true.
  rewrite <- (decode_message_some lib messages now id payload).
  split.
  - intros [Hb [msg Hm]]. exists id, payload, msg. auto.
  - intros (? & ? & msg & [= <-] & [= <-] & Hb & Hm). split; [exact Hb|]. eexists; exact Hm.
Qed.

Lemma process_zmq_message_step w now ctl data :
  let after := process_zmq_message lib messages mappings w now ctl data in
  messages_received (stats after) = S (messages_received (stats ctl)) /\
  messages_decoded (stats after)
    = (messages_decoded (stats ctl) + (if decodable messages data then 1 else 0))%nat /\
  (decodable messages data = false ->
     db after = db ctl /\
     vss_signals_mapped (stats after) = vss_signals_mapped (stats ctl) /\
     errors (stats after)
       = (errors (stats ctl) + (if malformed data then 1 else 0))%nat) /\
  (decodable messages data = true ->
     exists id payload msg outcome,
       can_id data = Some id /\ can_data data = Some payload /\
       DBCManager.decode_message lib messages now id payload = Some msg /\
       VSSMapper.map_can_to_vss mappings msg = outcome /\
       DatabaseManager.can_messages (db after)
         = DatabaseManager.can_messages (db ctl) ++ (if save_message_ok w then [msg] else []) /\
       DatabaseManager.vss_signals (db after)
         = DatabaseManager.vss_signals (db ctl)
           ++ (if save_vss_ok w
               then rows (default [] outcome) id
                      (join (map DBCManager.name (DBCManager.signals_of msg)))
               else []) /\
       vss_signals_mapped (stats after)
         = (vss_signals_mapped (stats ctl) + length (default [] outcome))%nat /\
       errors (stats after)
         = (errors (stats ctl) + (match outcome with Some _ => 0 | None => 1 end))%nat).
Proof.
  intros after. subst after.
  destruct (decodable messages data) eqn:Ed.
  - apply (decodable_decodes now) in Ed as (id & payload & msg & Hid & Hdata & Hb & Hm).
    unfold process_zmq_message. rewrite Hid, Hdata, Hb, Hm. cbn [negb].
    destruct (VSSMapper.map_can_to_vss mappings msg) as [[| v samples]|] eqn:Ev;
      cbn [stats db messages_received messages_decoded vss_signals_mapped errors];
      (split; [reflexivity|]); (split; [lia|]); (split; [discriminate|]); intros _;
      eexists id, payload, msg, _;
      (split; [reflexivity|]); (split; [reflexivity|]);
      (split; [exact Hm|]); (split; [exact Ev|]);
      unfold DatabaseManager.save_vss_signals, DatabaseManager.save_can_message, rows;
      destruct (save_message_ok w), (save_vss_ok w);
      simpl; rewrite ?app_nil_r; repeat split; lia.
  - assert (Hnot : forall id payload,
               can_id data = Some id -> can_data data = Some payload ->
               forallb is_byte payload = true ->
               DBCManager.decode_message lib messages now id payload = None).
    { intros id payload Hid Hdata Hb.
      destruct (DBCManager.decode_message lib messages now id payload) as [msg|] eqn:Hm;
        [|reflexivity].
      assert (decodable messages data = true) as Hd
        by (apply (decodable_decodes now); eauto 8).
      congruence. }
    unfold process_zmq_message, malformed.
    destruct (can_id data) as [id|], (can_data data) as [payload|];
      cbn [with_stats stats db messages_received messages_decoded vss_signals_mapped errors];
      try (split; [reflexivity|]; split; [lia|]; split; [intros _; repeat split; lia|discriminate]).
    destruct (forallb is_byte payload) eqn:Hb; cbn [negb].
    + rewrite (Hnot id payload eq_refl eq_refl Hb).
      cbn [with_stats stats db messages_received messages_decoded vss_signals_mapped errors].
      split; [reflexivity|]; split; [lia|]; split; [intros _; repeat split; lia|discriminate].
    + cbn [with_stats stats db messages_received messages_decoded vss_signals_mapped errors].
      split; [reflexivity|]; split; [lia|]; split; [intros _; repeat split; lia|discriminate].
Qed.

(** The message [process_can_message] stores for a decoded one. *)
Lemma process_can_message_step w now ctl frame :
  let after := process_can_message lib messages mappings w now ctl frame in
  stats after = stats ctl /\
  match DBCManager.decode_message lib messages now (arbitration_id frame) (data frame) with
  | None => db after = db ctl
  | Some msg =>
      exists direct,
        DBCManager.source direct = "CAN_Bus_Direct" /\
        DBCManager.direction direct = "RX" /\
        DBCManager.can_id direct = DBCManager.can_id msg /\
        DBCManager.timestamp direct = DBCManager.timestamp msg /\
        DBCManager.signals_of direct = DBCManager.signals_of msg /\
        DBCManager.raw_data direct = DBCManager.raw_data msg /\
        DBCManager.dlc direct = DBCManager.dlc msg /\
        DatabaseManager.can_messages (db after)
          = DatabaseManager.can_messages (db ctl)
            ++ (if save_message_ok w then [direct] else []) /\
        DatabaseManager.vss_signals (db after)
          = DatabaseManager.vss_signals (db ctl)
            ++ (if save_vss_ok w
                then rows (default [] (VSSMapper.map_can_to_vss mappings direct))
                       (arbitration_id frame) ""
                else [])
  end.
Proof.
  intros after. subst after. unfold process_can_message.
  destruct (DBCManager.decode_message lib messages now (arbitration_id frame) (data frame))
    as [msg|]; [|split; reflexivity].
  match goal with
  | |- context [VSSMapper.map_can_to_vss mappings ?d] => set (direct := d)
  end.
  split; [destruct (VSSMapper.map_can_to_vss mappings direct) as [[|? ?]|]; reflexivity|].
  exists direct. do 7 (split; [reflexivity|]).
  unfold DatabaseManager.save_vss_signals, DatabaseManager.save_can_message, rows.
  destruct (VSSMapper.map_can_to_vss mappings direct) as [[| v samples]|];
    destruct (save_message_ok w), (save_vss_ok w); simpl; rewrite ?app_nil_r;
    split; reflexivity.
Qed.

Lemma samples_stored id msg samples source_signal :
  DBCManager.can_id msg = id ->
  VSSMapper.map_can_to_vss mappings msg = Some samples ->
  Forall (stored_sample mappings) (rows samples id source_signal).
Proof.
  intros Hid Hmap. unfold VSSMapper.map_can_to_vss in Hmap. rewrite Hid in Hmap.
  destruct (mappings !! id) as [mapping|] eqn:Em.
  - apply map_signals_shape in Hmap.
    unfold rows. apply Forall_map.
    revert Hmap. generalize (List.filter
      (fun s => bool_decide (is_Some (mapping !! DBCManager.name s)))
      (DBCManager.signals_of msg)).
    intros sigs Hshape. induction Hshape as [| s v sigs samples Hs _ IH]; constructor; [|exact IH].
    destruct Hs as (cfg & Hcfg & Hpath & _).
    exists mapping, (DBCManager.name s), cfg. cbn. auto.
  - injection Hmap as <-. constructor.
Qed.

Lemma handle_invariant ctl e :
  Forall (stored_message messages) (DatabaseManager.can_messages (db ctl)) ->
  Forall (stored_sample mappings) (DatabaseManager.vss_signals (db ctl)) ->
  Forall (stored_message messages)
    (DatabaseManager.can_messages (db (handle lib messages mappings ctl e))) /\
  Forall (stored_sample mappings)
    (DatabaseManager.vss_signals (db (handle lib messages mappings ctl e))).
Proof.
  intros Hm Hs.
  assert (Hdec : forall now id payload msg,
             DBCManager.decode_message lib messages now id payload = Some msg ->
             (8 <= length (DBCManager.raw_data msg))%nat /\
             DBCManager.dlc msg = length (DBCManager.raw_data msg) /\
             is_Some (DBCManager.find_message messages (DBCManager.can_id msg))).
  { intros now id payload msg Hd.
    destruct (decode_message_fields _ _ _ _ _ _ Hd) as (Hid & _ & Hraw & Hdlc & _).
    rewrite Hraw, Hdlc, Hid. split; [|split; [reflexivity|]].
    - unfold DBCManager.pad8. destruct (length payload <? 8)%nat eqn:El.
      + apply Nat.ltb_lt in El. rewrite length_app, length_replicate. lia.
      + apply Nat.ltb_ge in El. exact El.
    - apply (decode_message_some lib messages now id payload). eexists; exact Hd. }
  destruct e as [w now data | w now frame]; cbn [handle].
  - pose proof (process_zmq_message_step w now ctl data) as (_ & _ & Hno & Hyes).
    destruct (decodable messages data).
    + destruct (Hyes eq_refl) as (id & payload & msg & outcome & _ & _ & Hd & Hmap & Hcm & Hvs & _).
      rewrite Hcm, Hvs. split; apply Forall_app; split; try assumption.
      * destruct (save_message_ok w); constructor; [|constructor].
        destruct (Hdec _ _ _ _ Hd) as (H8 & Hdlc & Hdef).
        destruct (decode_message_fields _ _ _ _ _ _ Hd) as (_ & _ & _ & _ & _ & Hdir).
        repeat split; assumption.
      * destruct (save_vss_ok w); [|constructor].
        destruct outcome as [samples|]; [|constructor].
        destruct (decode_message_fields _ _ _ _ _ _ Hd) as (Hid & _).
        exact (samples_stored id msg samples _ Hid Hmap).
    + destruct (Hno eq_refl) as (-> & _). split; assumption.
  - pose proof (process_can_message_step w now ctl frame) as (_ & Hstep).
    destruct (DBCManager.decode_message lib messages now (arbitration_id frame) (data frame))
      as [msg|] eqn:Hd.
    + destruct Hstep as (direct & _ & Hdir & Hid & _ & _ & Hraw & Hdlc & Hcm & Hvs).
      rewrite Hcm, Hvs. split; apply Forall_app; split; try assumption.
      * destruct (save_message_ok w); constructor; [|constructor].
        destruct (Hdec _ _ _ _ Hd) as (H8 & Hdlc' & Hdef).
        unfold stored_message. rewrite Hraw, Hdlc, Hid. repeat split; assumption.
      * destruct (save_vss_ok w); [|constructor].
        destruct (VSSMapper.map_can_to_vss mappings direct) as [samples|] eqn:Hmap; [|constructor].
        destruct (decode_message_fields _ _ _ _ _ _ Hd) as (Hid' & _).
        apply (samples_stored _ direct samples _ (eq_trans Hid Hid') Hmap).
    + rewrite Hstep. split; assumption.
Qed.

Lemma handle_counters ctl e :
  let after := handle lib messages mappings ctl e in
  messages_received (stats after)
    = (messages_received (stats ctl) + (if from_publisher e then 1 else 0))%nat /\
  (messages_decoded (stats ctl) <= messages_decoded (stats after)
     <= messages_decoded (stats ctl) + (if from_publisher e then 1 else 0))%nat /\
  (errors (stats ctl) <= errors (stats after)
     <= errors (stats ctl) + (if from_publisher e then 1 else 0))%nat /\
  (length (DatabaseManager.can_messages (db after))
   + messages_decoded (stats ctl)
   <= length (DatabaseManager.can_messages (db ctl))
      + messages_decoded (stats after) + (if from_bus e then 1 else 0))%nat /\
  (from_publisher e = true -> writes_succeed e = true ->
   (length (DatabaseManager.can_messages (db after)) + messages_decoded (stats ctl)
    = length (DatabaseManager.can_messages (db ctl)) + messages_decoded (stats after))%nat /\
   (length (DatabaseManager.vss_signals (db after)) + vss_signals_mapped (stats ctl)
    = length (DatabaseManager.vss_signals (db ctl)) + vss_signals_mapped (stats after))%nat).
Proof.
  intros after. subst after.
  destruct e as [w now data | w now frame]; cbn [handle from_publisher from_bus negb writes_succeed].
  - pose proof (process_zmq_message_step w now ctl data) as (Hr & Hd & Hno & Hyes).
    destruct (decodable messages data).
    + destruct (Hyes eq_refl) as (id & payload & msg & outcome & _ & _ & _ & _ & Hcm & Hvs & Hmapped & He).
      rewrite Hr, Hd, He, Hcm, Hvs, Hmapped, !length_app.
      split; [lia|]. split; [lia|].
      split; [destruct outcome; lia|].
      split; [destruct (save_message_ok w); cbn [length]; lia|].
      intros _ Hw. apply andb_true_iff in Hw as [-> ->].
      unfold rows. rewrite length_map. cbn [length]. lia.
    + destruct (Hno eq_refl) as (Hdb & Hmapped & He).
      rewrite Hr, Hd, He, Hdb, Hmapped.
      split; [lia|]. split; [lia|]. split; [destruct (malformed data); lia|].
      split; [lia|]. intros _ _. lia.
  - pose proof (process_can_message_step w now ctl frame) as (Hs & Hstep).
    rewrite Hs. split; [lia|]. split; [lia|]. split; [lia|].
    split; [|discriminate].
    destruct (DBCManager.decode_message lib messages now (arbitration_id frame) (data frame)).
    + destruct Hstep as (direct & _ & _ & _ & _ & _ & _ & _ & Hcm & _).
      rewrite Hcm, length_app. destruct (save_message_ok w); cbn [length]; lia.
    + rewrite Hstep. lia.
Qed.

End ControllerSteps.


(** X21: whatever reaches the controller, from the publisher or from the
    bus and whether the writes succeed or not, every message in the table
    [can_messages] has at least eight bytes of raw data, a [dlc] equal to
    their number, the direction RX and an identifier the database defines,
    and every row of [vss_signals] carries a path that the mapping table
    gives to some signal of the row's identifier. *)
Theorem controller_database_invariant
    (lib : Z -> list Z -> option PyDict) (messages : list DBCManager.Message)
    (mappings : gmap Z (gmap string VSSMapper.VssConfig)) (events : list Event) :
  let after := handle_all lib messages mappings fresh_controller events in
  Forall (stored_message messages) (DatabaseManager.can_messages (ZonalController.db after)) /\
  Forall (stored_sample mappings) (DatabaseManager.vss_signals (ZonalController.db after)).
Proof.
  intros after. subst after. unfold handle_all.
  assert (Hgen : forall ctl,
             Forall (stored_message messages)
               (DatabaseManager.can_messages (ZonalController.db ctl)) ->
             Forall (stored_sample mappings)
               (DatabaseManager.vss_signals (ZonalController.db ctl)) ->
             Forall (stored_message messages)
               (DatabaseManager.can_messages
                  (ZonalController.db (fold_left (handle lib messages mappings) events ctl))) /\
             Forall (stored_sample mappings)
               (DatabaseManager.vss_signals
                  (ZonalController.db (fold_left (handle lib messages mappings) events ctl)))).
  { induction events as [| e events IH]; intros ctl Hm Hs; cbn [fold_left].
    - split; assumption.
    - destruct (handle_invariant lib messages mappings ctl e Hm Hs) as [Hm' Hs'].
      apply IH; assumption. }
  apply Hgen; constructor.
Qed.

(** X22: the counters of a controller that started fresh.
    [messages_received] is the number of messages of the publisher; frames
    read from the bus are not counted at all.  [messages_decoded] and
    [errors] never exceed it, and the table [can_messages] never holds more
    rows than the decoded messages plus the frames read from the bus. *)
Theorem controller_counters
    (lib : Z -> list Z -> option PyDict) (messages : list DBCManager.Message)
    (mappings : gmap Z (gmap string VSSMapper.VssConfig)) (events : list Event) :
  let after := handle_all lib messages mappings fresh_controller events in
  let s := ZonalController.stats after in
  ZonalController.messages_received s = count from_publisher events /\
  (ZonalController.messages_decoded s <= ZonalController.messages_received s)%nat /\
  (ZonalController.errors s <= ZonalController.messages_received s)%nat /\
  (length (DatabaseManager.can_messages (ZonalController.db after))
   <= ZonalController.messages_decoded s + count from_bus events)%nat.
Proof.
  intros after s. subst s after. unfold handle_all.
  assert (Hgen : forall ctl,
             let after := fold_left (handle lib messages mappings) events ctl in
             let s := ZonalController.stats after in
             let s0 := ZonalController.stats ctl in
             ZonalController.messages_received s
               = (ZonalController.messages_received s0 + count from_publisher events)%nat /\
             (ZonalController.messages_decoded s
              <= ZonalController.messages_decoded s0 + count from_publisher events)%nat /\
             (ZonalController.errors s
              <= ZonalController.errors s0 + count from_publisher events)%nat /\
             (length (DatabaseManager.can_messages (ZonalController.db after))
              + ZonalController.messages_decoded s0
              <= length (DatabaseManager.can_messages (ZonalController.db ctl))
                 + ZonalController.messages_decoded s + count from_bus events)%nat).
  { induction events as [| e events IH]; intros ctl; cbn [fold_left].
    - cbn. lia.
    - specialize (IH (handle lib messages mappings ctl e)).
      pose proof (handle_counters lib messages mappings ctl e) as (Hr & Hd & He & Hc & _).
      cbn zeta in IH, Hr, Hd, He, Hc |- *. rewrite !count_cons.
      change (from_bus e) with (negb (from_publisher e)) in *.
      destruct (from_publisher e); cbn [negb] in *; lia. }
  specialize (Hgen fresh_controller). cbn zeta in Hgen. cbn in Hgen |- *. lia.
Qed.

(** X23: while only the publisher feeds the controller and the database
    takes every write, the tables agree with the counters: [can_messages]
    has [messages_decoded] rows and [vss_signals] has [vss_signals_mapped]
    rows. *)
Theorem tables_agree_with_counters
    (lib : Z -> list Z -> option PyDict) (messages : list DBCManager.Message)
    (mappings : gmap Z (gmap string VSSMapper.VssConfig)) (events : list Event) :
  forallb (fun e => from_publisher e && writes_succeed e) events = true ->
  let after := handle_all lib messages mappings fresh_controller events in
  length (DatabaseManager.can_messages (ZonalController.db after))
    = ZonalController.messages_decoded (ZonalController.stats after) /\
  length (DatabaseManager.vss_signals (ZonalController.db after))
    = ZonalController.vss_signals_mapped (ZonalController.stats after).
Proof.
  intros Hall after. subst after. unfold handle_all.
  assert (Hgen : forall ctl,
             let after := fold_left (handle lib messages mappings) events ctl in
             (length (DatabaseManager.can_messages (ZonalController.db after))
              + ZonalController.messages_decoded (ZonalController.stats ctl)
              = length (DatabaseManager.can_messages (ZonalController.db ctl))
                + ZonalController.messages_decoded (ZonalController.stats after))%nat /\
             (length (DatabaseManager.vss_signals (ZonalController.db after))
              + ZonalController.vss_signals_mapped (ZonalController.stats ctl)
              = length (DatabaseManager.vss_signals (ZonalController.db ctl))
                + ZonalController.vss_signals_mapped (ZonalController.stats after))%nat).
  { induction events as [| e events IH]; intros ctl; cbn [fold_left].
    - cbn. lia.
    - cbn [forallb] in Hall. apply andb_true_iff in Hall as [He Hall].
      apply andb_true_iff in He as [Hp Hw].
      specialize (IH Hall (handle lib messages mappings ctl e)).
      pose proof (handle_counters lib messages mappings ctl e) as (_ & _ & _ & _ & Heq).
      destruct (Heq Hp Hw) as [H1 H2]. cbn zeta in IH |- *. lia. }
  specialize (Hgen fresh_controller). cbn zeta in Hgen. cbn in Hgen |- *. lia.
Qed.

(** ** Light-control frames through the controller *)


Lemma names_light_control v0 v1 v2 v3 v4 v5 v6 :
  map DBCManager.name (light_control_signals v0 v1 v2 v3 v4 v5 v6) = light_control_names.
Proof. reflexivity. Qed.


(** X24: a frame of identifier 0x100 read from the bus, of at most eight
    bytes.  On the manual path and on the table-driven one alike, the
    controller stores the decoded message, marked CAN_Bus_Direct, with the
    payload padded to eight bytes, and stores seven samples under
    identifier 0x100 and an empty signal name: the paths of the built-in
    table in the order of the layout, carrying the five flags of the first
    byte and the second and third bytes.  The statistics do not move. *)
Theorem bus_light_control_frame
    (lib : Z -> list Z -> option PyDict) (w : ZonalController.World) (now : PyVal)
    (ctl : ZonalController.t) (frame : ZonalController.BusFrame) :
  lib = DBCManager.decode_raises \/ lib = DBCManager.table_decode DBCManager.virtual_database ->
  ZonalController.arbitration_id frame = 0x100 ->
  (length (ZonalController.data frame) <= 8)%nat ->
  forallb is_byte (ZonalController.data frame) = true ->
  let after := ZonalController.process_can_message lib DBCManager.virtual_database
                 (VSSMapper.load_mappings None) w now ctl frame in
  exists msg samples b0 b1 b2 rest,
    DBCManager.pad8 (ZonalController.data frame) = b0 :: b1 :: b2 :: rest /\
    ZonalController.stats after = ZonalController.stats ctl /\
    DatabaseManager.can_messages (ZonalController.db after)
      = DatabaseManager.can_messages (ZonalController.db ctl)
        ++ (if ZonalController.save_message_ok w then [msg] else []) /\
    DatabaseManager.vss_signals (ZonalController.db after)
      = DatabaseManager.vss_signals (ZonalController.db ctl)
        ++ (if ZonalController.save_vss_ok w then rows samples 0x100 "" else []) /\
    DBCManager.source msg = "CAN_Bus_Direct" /\
    DBCManager.can_id msg = 0x100 /\
    DBCManager.timestamp msg = now /\
    DBCManager.raw_data msg = DBCManager.pad8 (ZonalController.data frame) /\
    map DBCManager.name (DBCManager.signals_of msg) = light_control_names /\
    map VSSMapper.path samples = light_control_paths /\
    values_eq samples (payload_values b0 b1 b2).
Proof.
  intros Hlib Hid Hlen Hbytes after. subst after.
  destruct (decode_and_map lib now (ZonalController.data frame) Hlib Hlen Hbytes)
    as (msg & samples & v0 & v1 & v2 & v3 & v4 & v5 & v6 & b0 & b1 & b2 & rest
        & Hpad & Hdec & Hsigs & Hmap & Hpaths & Hvals).
  pose proof (process_can_message_step lib DBCManager.virtual_database
                (VSSMapper.load_mappings None) w now ctl frame) as (Hstats & Hstep).
  rewrite Hid in Hstep. rewrite Hdec in Hstep.
  destruct Hstep as (direct & Hsrc & _ & Hcid & Hts & Hsg & Hraw & _ & Hcm & Hvs).
  destruct (decode_message_fields _ _ _ _ _ _ Hdec) as (Hmid & Hmts & Hmraw & _).
  rewrite (Hmap direct (eq_trans Hcid Hmid) Hsg Hts) in Hvs.
  exists direct, samples, b0, b1, b2, rest.
  split; [exact Hpad|]. split; [exact Hstats|]. split; [exact Hcm|]. split; [exact Hvs|].
  split; [exact Hsrc|]. split; [congruence|]. split; [congruence|]. split; [congruence|].
  split; [rewrite Hsg, Hsigs; apply names_light_control|].
  split; [exact Hpaths | exact Hvals].
Qed.

(** A five-byte frame of the bus, on the manual path. *)
Lemma bus_light_control_frame_witness :
  exists msg samples b0 b1 b2 rest,
    DBCManager.pad8 (ZonalController.data light_control_frame) = b0 :: b1 :: b2 :: rest /\
    ZonalController.stats
      (ZonalController.process_can_message DBCManager.decode_raises DBCManager.virtual_database
         (VSSMapper.load_mappings None) database_up (PFloat 1) fresh_controller
         light_control_frame)
    = ZonalController.stats fresh_controller /\
    DatabaseManager.can_messages
      (ZonalController.db
         (ZonalController.process_can_message DBCManager.decode_raises
            DBCManager.virtual_database (VSSMapper.load_mappings None) database_up (PFloat 1)
            fresh_controller light_control_frame))
    = DatabaseManager.can_messages (ZonalController.db fresh_controller)
      ++ (if ZonalController.save_message_ok database_up then [msg] else []) /\
    DatabaseManager.vss_signals
      (ZonalController.db
         (ZonalController.process_can_message DBCManager.decode_raises
            DBCManager.virtual_database (VSSMapper.load_mappings None) database_up (PFloat 1)
            fresh_controller light_control_frame))
    = DatabaseManager.vss_signals (ZonalController.db fresh_controller)
      ++ (if ZonalController.save_vss_ok database_up then rows samples 0x100 "" else []) /\
    DBCManager.source msg = "CAN_Bus_Direct" /\
    DBCManager.can_id msg = 0x100 /\
    DBCManager.timestamp msg = PFloat 1 /\
    DBCManager.raw_data msg = DBCManager.pad8 (ZonalController.data light_control_frame) /\
    map DBCManager.name (DBCManager.signals_of msg) = light_control_names /\
    map VSSMapper.path samples = light_control_paths /\
    values_eq samples (payload_values b0 b1 b2).
Proof.
  apply (bus_light_control_frame DBCManager.decode_raises database_up (PFloat 1)
           fresh_controller light_control_frame).
  - left. reflexivity.
  - reflexivity.
  - vm_compute. lia.
  - vm_compute. reflexivity.
Defined.



(** One decoded light-control message of the publisher. *)
Lemma tables_agree_with_counters_witness :
  length (DatabaseManager.can_messages
            (ZonalController.db
               (handle_all DBCManager.decode_raises DBCManager.virtual_database
                  (VSSMapper.load_mappings None) fresh_controller
                  [FromPublisher database_up (PFloat 1)
                     {| ZonalController.can_id := Some 0x100;
                        ZonalController.can_data := Some [3; 80; 60] |}])))
    = ZonalController.messages_decoded
        (ZonalController.stats
           (handle_all DBCManager.decode_raises DBCManager.virtual_database
              (VSSMapper.load_mappings None) fresh_controller
              [FromPublisher database_up (PFloat 1)
                 {| ZonalController.can_id := Some 0x100;
                    ZonalController.can_data := Some [3; 80; 60] |}])) /\
  length (DatabaseManager.vss_signals
            (ZonalController.db
               (handle_all DBCManager.decode_raises DBCManager.virtual_database
                  (VSSMapper.load_mappings None) fresh_controller
                  [FromPublisher database_up (PFloat 1)
                     {| ZonalController.can_id := Some 0x100;
                        ZonalController.can_data := Some [3; 80; 60] |}])))
    = ZonalController.vss_signals_mapped
        (ZonalController.stats
           (handle_all DBCManager.decode_raises DBCManager.virtual_database
              (VSSMapper.load_mappings None) fresh_controller
              [FromPublisher database_up (PFloat 1)
                 {| ZonalController.can_id := Some 0x100;
                    ZonalController.can_data := Some [3; 80; 60] |}])).
Proof.
  apply (tables_agree_with_counters DBCManager.decode_raises DBCManager.virtual_database
           (VSSMapper.load_mappings None)
           [FromPublisher database_up (PFloat 1)
              {| ZonalController.can_id := Some 0x100;
                 ZonalController.can_data := Some [3; 80; 60] |}]).
  vm_compute. reflexivity.
Defined.

(** ** The simple controller against the full one *)

(** X26: the byte-layout decoder of the simple controller and the manual
    decoder of the full one report the same signals with the same values,
    in the same order, for every identifier and every payload; the simple
    one adds [ambient] when the identifier is 0x100 and the payload has
    five bytes or more. *)
Theorem simple_decoder_extends_manual
    (can_id : Z) (can_data : list Z) (msg_def : DBCManager.Message) :
  SimpleZonalController.decode_can_data can_id can_data
  = DBCManager.manual_decode can_id can_data msg_def ++ ambient_entry can_id can_data.
Proof.
  unfold SimpleZonalController.decode_can_data, DBCManager.manual_decode, ambient_entry.
  destruct (can_id =? 0x100); [|reflexivity]. cbn [andb].
  destruct can_data as [| b0 [| b1 [| b2 [| b3 [| b4 rest]]]]];
    cbn [length Nat.ltb Nat.leb nth app]; rewrite ?app_nil_r; reflexivity.
Qed.

Lemma simple_entries now p0 tail :
  SimpleZonalController.map_to_vss now 0x100
    (SimpleZonalController.decode_can_data 0x100 (p0 :: tail))
  = [ {| SimpleZonalController.path := "Vehicle.Body.Lights.IsHighBeamOn";
         SimpleZonalController.value := PBool (Z.testbit p0 0);
         SimpleZonalController.type := "boolean";
         SimpleZonalController.timestamp := now |};
      {| SimpleZonalController.path := "Vehicle.Body.Lights.IsTailLightOn";
         SimpleZonalController.value := PBool (Z.testbit p0 1);
         SimpleZonalController.type := "boolean";
         SimpleZonalController.timestamp := now |} ]
    ++ match tail with
       | [] => []
       | p1 :: tail =>
           {| SimpleZonalController.path := "Vehicle.Body.Lights.AmbientLight";
              SimpleZonalController.value := PInt p1;
              SimpleZonalController.type := "uint8";
              SimpleZonalController.timestamp := now |}
           :: match tail with
              | [] => []
              | p2 :: _ =>
                  [ {| SimpleZonalController.path := "Vehicle.Speed";
                       SimpleZonalController.value := PInt p2;
                       SimpleZonalController.type := "uint8";
                       SimpleZonalController.timestamp := now |} ]
              end
       end.
Proof.
  rewrite <- (land_pow2_testbit p0 0), <- (land_pow2_testbit p0 1) by lia.
  destruct tail as [| p1 [| p2 [| p3 [| p4 rest]]]]; reflexivity.
Qed.

Lemma pad8_head p0 tail b0 b1 b2 rest :
  DBCManager.pad8 (p0 :: tail) = b0 :: b1 :: b2 :: rest ->
  b0 = p0 /\
  match tail with
  | [] => True
  | p1 :: tail => b1 = p1 /\ match tail with [] => True | p2 :: _ => b2 = p2 end
  end.
Proof.
  unfold DBCManager.pad8.
  destruct tail as [| p1 [| p2 tail]];
    destruct (length _ <? 8)%nat; cbn [length Nat.sub replicate app];
    intros [= <- <- <- <-]; auto.
Qed.

(** X27: on a message of identifier 0x100 whose payload is one to eight
    bytes, the simple controller and the full one agree: every entry the
    simple controller produces has, among the seven samples of the full
    controller, one with the same path and an equal value.  The simple
    controller produces entries only for the four paths it knows, all four
    once the payload has three bytes; for a shorter payload it omits what
    the full controller reports as zero. *)
Theorem simple_controller_agrees
    (lib : Z -> list Z -> option PyDict) (now now' : PyVal)
    (st : SimpleZonalController.Stats) (payload : list Z) :
  lib = DBCManager.decode_raises \/ lib = DBCManager.table_decode DBCManager.virtual_database ->
  payload <> [] ->
  (length payload <= 8)%nat ->
  forallb is_byte payload = true ->
  exists decoded entries samples,
    SimpleZonalController.process_message now st
      {| SimpleZonalController.can_id := Some 0x100;
         SimpleZonalController.can_data := Some payload |}
    = ({| SimpleZonalController.messages_received :=
            S (SimpleZonalController.messages_received st);
          SimpleZonalController.errors := SimpleZonalController.errors st |},
       Some (decoded, entries)) /\
    (msg ← DBCManager.decode_message lib DBCManager.virtual_database now' 0x100 payload;
     VSSMapper.map_can_to_vss (VSSMapper.load_mappings None) msg) = Some samples /\
    agree entries samples /\
    map VSSMapper.path samples = light_control_paths /\
    incl (map SimpleZonalController.path entries) simple_paths /\
    ((3 <= length payload)%nat -> map SimpleZonalController.path entries = simple_paths).
Proof.
  intros Hlib Hne Hlen Hbytes.
  destruct (decode_and_map lib now' payload Hlib Hlen Hbytes)
    as (msg & samples & v0 & v1 & v2 & v3 & v4 & v5 & v6 & b0 & b1 & b2 & rest
        & Hpad & Hdec & Hsigs & Hmap & Hpaths & Hvals).
  destruct (decode_message_fields _ _ _ _ _ _ Hdec) as (Hmid & _).
  pose proof (Hmap msg Hmid eq_refl eq_refl) as Hm.
  destruct payload as [| p0 tail]; [congruence|].
  destruct (pad8_head _ _ _ _ _ _ Hpad) as [-> Htail].
  eexists _, _, samples.
  split.
  { unfold SimpleZonalController.process_message.
    cbn [SimpleZonalController.can_id SimpleZonalController.can_data default from_option
         truthy negb orb length Nat.eqb Z.eqb id].
    rewrite simple_entries. reflexivity. }
  rewrite Hdec. cbn [mbind option_bind]. split; [exact Hm|].
  destruct samples as [| s0 [| s1 [| s2 [| s3 [| s4 [| s5 [| s6 [| ? ?]]]]]]]];
    try discriminate Hpaths.
  pose proof Hpaths as Hall. injection Hpaths as P0 P1 P2 P3 P4 P5 P6.
  unfold values_eq, payload_values in Hvals.
  inversion_clear Hvals as [| ? ? ? ? V0 Hv1]. inversion_clear Hv1 as [| ? ? ? ? V1 Hv2].
  inversion_clear Hv2 as [| ? ? ? ? V2 Hv3]. inversion_clear Hv3 as [| ? ? ? ? V3 Hv4].
  inversion_clear Hv4 as [| ? ? ? ? V4 Hv5]. inversion_clear Hv5 as [| ? ? ? ? V5 Hv6].
  inversion_clear Hv6 as [| ? ? ? ? V6 _].
  assert (A0 : Exists (fun s => VSSMapper.path s = "Vehicle.Body.Lights.IsHighBeamOn" /\
                                py_eq (VSSMapper.value s) (PBool (Z.testbit p0 0)) = true)
                      [s0; s1; s2; s3; s4; s5; s6]) by (apply Exists_cons_hd; auto).
  assert (A1 : Exists (fun s => VSSMapper.path s = "Vehicle.Body.Lights.IsTailLightOn" /\
                                py_eq (VSSMapper.value s) (PBool (Z.testbit p0 1)) = true)
                      [s0; s1; s2; s3; s4; s5; s6])
    by (apply Exists_cons_tl, Exists_cons_hd; auto).
  assert (A5 : Exists (fun s => VSSMapper.path s = "Vehicle.Body.Lights.AmbientLight" /\
                                py_eq (VSSMapper.value s) (PInt b1) = true)
                      [s0; s1; s2; s3; s4; s5; s6])
    by (do 5 apply Exists_cons_tl; apply Exists_cons_hd; auto).
  assert (A6 : Exists (fun s => VSSMapper.path s = "Vehicle.Speed" /\
                                py_eq (VSSMapper.value s) (PInt b2) = true)
                      [s0; s1; s2; s3; s4; s5; s6])
    by (do 6 apply Exists_cons_tl; apply Exists_cons_hd; auto).
  split; [|split; [exact Hall|]].
  - unfold agree.
    destruct tail as [| p1 [| p2 tail]]; cbn [app].
    + repeat constructor; assumption.
    + destruct Htail as [<- _]. repeat constructor; assumption.
    + destruct Htail as [<- <-]. repeat constructor; assumption.
  - unfold simple_paths.
    destruct tail as [| p1 [| p2 tail]]; cbn [app map SimpleZonalController.path length].
    + split; [|lia]. intros x [<- | [<- | []]]; cbn; tauto.
    + split; [|lia]. intros x [<- | [<- | [<- | []]]]; cbn; tauto.
    + split; [|reflexivity]. intros x Hx; exact Hx.
Qed.

(** A two-byte payload, on the manual path. *)
Lemma simple_controller_agrees_witness :
  exists decoded entries samples,
    SimpleZonalController.process_message (PFloat 0)
      {| SimpleZonalController.messages_received := 0; SimpleZonalController.errors := 0 |}
      {| SimpleZonalController.can_id := Some 0x100;
         SimpleZonalController.can_data := Some [3; 80] |}
    = ({| SimpleZonalController.messages_received := 1;
          SimpleZonalController.errors := 0 |},
       Some (decoded, entries)) /\
    (msg ← DBCManager.decode_message DBCManager.decode_raises DBCManager.virtual_database
             (PFloat 1) 0x100 [3; 80];
     VSSMapper.map_can_to_vss (VSSMapper.load_mappings None) msg) = Some samples /\
    agree entries samples /\
    map VSSMapper.path samples = light_control_paths /\
    incl (map SimpleZonalController.path entries) simple_paths /\
    ((3 <= length [3; 80])%nat -> map SimpleZonalController.path entries = simple_paths).
Proof.
  apply (simple_controller_agrees DBCManager.decode_raises (PFloat 0) (PFloat 1)
           {| SimpleZonalController.messages_received := 0;
              SimpleZonalController.errors := 0 |} [3; 80]).
  - left. reflexivity.
  - discriminate.
  - vm_compute. lia.
  - vm_compute. reflexivity.
Defined.

(** ** From the simulation loop to the CAN bus *)

Section Chain.
Variable dumps : CANMessageEncoder.CANFrame -> Framer.PyStr.
Variable loads : Framer.PyStr -> option CANMessageProcessor.Envelope.
Variable w : EnhancedWSL2SocketServer.World.

Lemma frames_on_bus frames srv :
  EnhancedWSL2SocketServer.bus_send_ok w = true ->
  Forall (fun f => (exists now fmu_data, CANMessageEncoder.encode now fmu_data = Some f) /\
                   loads (dumps f) = Some (envelope_of f)) frames ->
  let after := fold_left (fun srv x =>
                            EnhancedWSL2SocketServer.process_incoming_message w srv (loads x))
                         (map dumps frames) srv in
  EnhancedWSL2SocketServer.can_bus after
    = EnhancedWSL2SocketServer.can_bus srv ++ map bus_frame_of frames /\
  EnhancedWSL2SocketServer.errors (EnhancedWSL2SocketServer.stats after)
    = EnhancedWSL2SocketServer.errors (EnhancedWSL2SocketServer.stats srv).
Proof.
  intros Hbus Hall. revert srv.
  induction Hall as [| f frames ((now & fmu_data & Henc) & Hloads) _ IH]; intros srv;
    cbn [map fold_left].
  - rewrite app_nil_r. split; reflexivity.
  - rewrite Hloads.
    destruct (encoded_frame_reaches_bus_aux now fmu_data f w srv Henc Hbus)
      as (_ & Hcb & _ & _ & Herr).
    destruct (IH (EnhancedWSL2SocketServer.process_incoming_message w srv
                    (Some (envelope_of f)))) as [I1 I2].
    cbn zeta in I1, I2 |- *. rewrite I1, I2, Hcb, Herr, <- app_assoc.
    split; reflexivity.
Qed.

End Chain.

(** X28: from the simulation loop to the CAN bus.  On a connection just
    opened, while every send succeeds and the server's bus takes every
    frame, the frames the loop encodes, whose serialization is a complete
    message that parses back to the frame's envelope, arrive on the CAN bus
    of the server exactly once each and in order, as standard frames of
    identifier 0x100 with their eight bytes, however the stream is cut into
    reads; no error is counted. *)
Theorem simulation_reaches_bus
    (dumps : CANMessageEncoder.CANFrame -> Framer.PyStr)
    (loads : Framer.PyStr -> option CANMessageProcessor.Envelope)
    (w : EnhancedWSL2SocketServer.World)
    (ticks : list FMUCANBridge.Tick) (frames : list CANMessageEncoder.CANFrame)
    (b : WSL2SocketBridge.t) (s : FMUCANBridge.Stats)
    (srv : EnhancedWSL2SocketServer.Server) (received : nat) (reads : list Framer.Recv) :
  WSL2SocketBridge.connected b = true -> WSL2SocketBridge.has_socket b = true ->
  WSL2SocketBridge.wire b = [[]] ->
  Forall2 (fun t f =>
             CANMessageEncoder.encode (FMUCANBridge.now t) (FMUCANBridge.fmu_data t) = Some f /\
             FMUCANBridge.log_ok (FMUCANBridge.fmu_data t) = true /\
             WSL2SocketBridge.sendall (FMUCANBridge.world t) = WSL2SocketBridge.SendOk)
          ticks frames ->
  Forall (fun f => complete_message (dumps f) /\ loads (dumps f) = Some (envelope_of f))
         frames ->
  EnhancedWSL2SocketServer.running srv = true ->
  EnhancedWSL2SocketServer.bus_send_ok w = true ->
  forallb brings_data reads = true ->
  received_text reads
    = concat (WSL2SocketBridge.wire (fst (FMUCANBridge.run_loop dumps ticks (b, s)))) ->
  let after := fst (Framer.handle_client loads w srv received reads) in
  EnhancedWSL2SocketServer.can_bus after
    = EnhancedWSL2SocketServer.can_bus srv ++ map bus_frame_of frames /\
  EnhancedWSL2SocketServer.errors (EnhancedWSL2SocketServer.stats after)
    = EnhancedWSL2SocketServer.errors (EnhancedWSL2SocketServer.stats srv).
Proof.
  intros Hc Hs Hwire Hticks Hframes Hrun Hbus Hreads Htext after. subst after.
  destruct (run_loop_all_sent_aux dumps ticks frames b s Hc Hs Hticks) as (_ & _ & Hw & _).
  cbn zeta in Hw. rewrite Hw, Hwire in Htext. cbn [concat app] in Htext.
  assert (Hstream : received_text reads = stream_of (map dumps frames)).
  { rewrite Htext. unfold stream_of. rewrite map_map. reflexivity. }
  assert (Hcomplete : Forall complete_message (map dumps frames)).
  { apply Forall_map. eapply Forall_impl; [exact Hframes|]. cbn. tauto. }
  rewrite (stream_delivers_lines_aux loads w srv received (map dumps frames) reads
             Hrun Hcomplete Hreads Hstream).
  cbn [fst].
  assert (Hall : Forall (fun f =>
                           (exists now fmu_data,
                               CANMessageEncoder.encode now fmu_data = Some f) /\
                           loads (dumps f) = Some (envelope_of f)) frames).
  { clear - Hticks Hframes. induction Hticks as [| t f ticks frames (Henc & _) _ IH].
    - constructor.
    - inversion_clear Hframes as [| ? ? [_ Hl] Hrest]. constructor; [|exact (IH Hrest)].
      split; [eauto | exact Hl]. }
  destruct (frames_on_bus dumps loads w frames (Framer.set_client_connected true srv)
              Hbus Hall) as [H1 H2].
  cbn zeta in H1, H2. cbn [Framer.set_client_connected EnhancedWSL2SocketServer.can_bus
                             EnhancedWSL2SocketServer.stats] in H1, H2 |- *.
  split; assumption.
Qed.

(** Two turns on the sample assignment, read by the server in two pieces. *)
Lemma simulation_reaches_bus_witness :
  EnhancedWSL2SocketServer.can_bus
    (fst (Framer.handle_client (fun _ => Some (envelope_of sample_frame)) calm serving 0
            [ Framer.Received 4 [123; 277; 331; 316];
              Framer.Received 18 [257; 300; 256; 256; 256; 125; 10;
                                  123; 277; 331; 316; 257; 300; 256; 256; 256; 125; 10] ]%N))
    = EnhancedWSL2SocketServer.can_bus serving ++ map bus_frame_of [sample_frame; sample_frame] /\
  EnhancedWSL2SocketServer.errors
    (EnhancedWSL2SocketServer.stats
       (fst (Framer.handle_client (fun _ => Some (envelope_of sample_frame)) calm serving 0
               [ Framer.Received 4 [123; 277; 331; 316];
                 Framer.Received 18 [257; 300; 256; 256; 256; 125; 10;
                                     123; 277; 331; 316; 257; 300; 256; 256; 256; 125; 10] ]%N)))
    = EnhancedWSL2SocketServer.errors (EnhancedWSL2SocketServer.stats serving).
Proof.
  apply (simulation_reaches_bus toy_dumps (fun _ => Some (envelope_of sample_frame)) calm
           [sample_tick; sample_tick] [sample_frame; sample_frame] just_connected
           {| FMUCANBridge.messages_sent := 0; FMUCANBridge.messages_failed := 0 |}
           serving 0).
  - reflexivity.
  - reflexivity.
  - reflexivity.
  - repeat constructor; vm_compute; reflexivity.
  - repeat constructor; try discriminate; try reflexivity;
      intros H; cbn in H; intuition discriminate.
  - reflexivity.
  - reflexivity.
  - reflexivity.
  - vm_compute. reflexivity.
Defined.
